(** * Serial LTE Modem: the MQTT client AT-command module

    A shallow embedding of
    [applications/serial_lte_modem/src/mqtt_c/slm_at_mqtt.c]
    and the properties of its session layer.

    The C file keeps its state in file-scope statics; here they are the
    fields of one [state] record that every function threads explicitly.
    Everything the module calls but does not define (the MQTT engine, the
    socket layer, the kernel, the AT parameter parser, the response
    channel, the logger) is a collaborator: each call is appended to a
    trace, and its result is read from a [World] that may answer
    differently depending on the calls made so far.  The engine is opaque:
    the events it raises reach the module through [mqtt_evt_handler], which
    is modelled as an entry point of its own. *)

From Stdlib Require Import ZArith String Ascii List Lia Bool DecimalString.
Import ListNotations.
Local Open Scope Z_scope.

(* ================================================================= *)
(** ** Bytes, C strings and fixed-width integers *)

Definition bytes := list ascii.

Definition str (s : string) : bytes := list_ascii_of_string s.

Definition NUL : ascii := "000"%char.

(** [strlen]: the number of bytes before the first NUL. *)
Fixpoint strlen (b : bytes) : nat :=
  match b with
  | [] => O
  | c :: r => if Ascii.eqb c NUL then O else S (strlen r)
  end.

(** Storing [src] at the start of the array [dst]; the bytes of [dst]
    beyond it stay as they were. *)
Definition store (dst src : bytes) : bytes := src ++ skipn (length src) dst.

(** [dst[0] = c]. *)
Definition store0 (dst : bytes) (c : ascii) : bytes :=
  match dst with
  | [] => []
  | _ :: r => c :: r
  end.

(** The conversion [%d] of printf. *)
Definition fmt_d (z : Z) : bytes := str (NilZero.string_of_int (Z.to_int z)).

Definition UINT16_MAX : Z := 65535.

(** Conversion to [uint16_t] and to [uint8_t]. *)
Definition u16 (z : Z) : Z := z mod 65536.
Definition u8 (z : Z) : Z := z mod 256.

(** The 32 bits of a [uint32_t], read as the [int] they are stored in. *)
Definition s32 (z : Z) : Z := (z + 2147483648) mod 4294967296 - 2147483648.

(** C truth of an [int]. *)
Definition nonzero (z : Z) : bool := negb (z =? 0).

(* ================================================================= *)
(** ** Types of the module and of the headers it includes *)

(** [enum slm_mqttcon_operation] and [enum slm_mqttsub_operation]; the
    handlers compare a [uint16_t] against them. *)
Definition MQTTC_DISCONNECT : Z := 0.
Definition MQTTC_CONNECT : Z := 1.
Definition MQTTC_CONNECT6 : Z := 2.

Definition AT_MQTTSUB_UNSUB : Z := 0.
Definition AT_MQTTSUB_SUB : Z := 1.

Definition MQTT_MAX_TOPIC_LEN : nat := 128.
Definition MQTT_MAX_CID_LEN : nat := 64.

Definition MQTT_QOS_0_AT_MOST_ONCE : Z := 0.
Definition MQTT_QOS_2_EXACTLY_ONCE : Z := 2.

Inductive at_cmd_type :=
| AT_CMD_TYPE_NONE
| AT_CMD_TYPE_SET_COMMAND
| AT_CMD_TYPE_READ_COMMAND
| AT_CMD_TYPE_TEST_COMMAND.

Inductive at_param_type :=
| AT_PARAM_TYPE_INVALID
| AT_PARAM_TYPE_NUM_INT
| AT_PARAM_TYPE_STRING
| AT_PARAM_TYPE_ARRAY
| AT_PARAM_TYPE_EMPTY.

(** One parsed parameter of the command line, and the parsed line. *)
Inductive at_param :=
| AT_EMPTY
| AT_NUM (v : Z)
| AT_STRING (s : bytes).

Definition at_param_list_t := list at_param.

(** Addresses.  The statics of the module are named; a pointer to memory
    the module does not own (a caller's buffer, the engine's receive
    buffer, a stack array) is represented by the bytes found there. *)
Inductive ptr :=
| NULL
| P_mqtt_broker_url
| P_mqtt_clientid
| P_mqtt_username
| P_mqtt_password
| P_pub_topic
| P_pub_msg
| P_rx_buffer
| P_tx_buffer
| P_ctx_broker
| P_ctx_broker6
| P_ctx_username
| P_ctx_password
| P_ctx_sec_tag
| P_bytes (content : bytes).

Record mqtt_utf8 := { utf8 : ptr; size : nat }.

Record mqtt_topic := { topic : mqtt_utf8; qos : Z }.

Record mqtt_binstr := { data : ptr; len : nat }.

Record mqtt_publish_message := { msg_topic : mqtt_topic; payload : mqtt_binstr }.

Record mqtt_publish_param := {
  message : mqtt_publish_message;
  message_id : Z;
  dup_flag : Z;
  retain_flag : Z
}.

(** [struct mqtt_subscription_list]: [list_count] is the length of
    [sl_list]. *)
Record mqtt_subscription_list := {
  sl_list : list mqtt_topic;
  sl_message_id : Z
}.

Inductive mqtt_evt_type :=
| MQTT_EVT_CONNACK
| MQTT_EVT_DISCONNECT
| MQTT_EVT_PUBLISH
| MQTT_EVT_PUBACK
| MQTT_EVT_PUBREC
| MQTT_EVT_PUBREL
| MQTT_EVT_PUBCOMP
| MQTT_EVT_SUBACK
| MQTT_EVT_UNSUBACK
| MQTT_EVT_PINGRESP.

(** The value [%d] prints for an event type. *)
Definition evt_type_int (t : mqtt_evt_type) : Z :=
  match t with
  | MQTT_EVT_CONNACK => 0
  | MQTT_EVT_DISCONNECT => 1
  | MQTT_EVT_PUBLISH => 2
  | MQTT_EVT_PUBACK => 3
  | MQTT_EVT_PUBREC => 4
  | MQTT_EVT_PUBREL => 5
  | MQTT_EVT_PUBCOMP => 6
  | MQTT_EVT_SUBACK => 7
  | MQTT_EVT_UNSUBACK => 8
  | MQTT_EVT_PINGRESP => 9
  end.

(** [union mqtt_evt_param].  The members puback, pubrec, pubrel, pubcomp,
    suback and unsuback are structs that begin with the [uint16_t]
    message id, so they all read the same two bytes of the union: one
    field stands for them.  [publish] is the view the publish member
    gives. *)
Record mqtt_evt_param := {
  publish : mqtt_publish_param;
  ack_message_id : Z
}.

Definition puback_message_id (p : mqtt_evt_param) : Z := ack_message_id p.
Definition pubrec_message_id (p : mqtt_evt_param) : Z := ack_message_id p.
Definition pubrel_message_id (p : mqtt_evt_param) : Z := ack_message_id p.
Definition pubcomp_message_id (p : mqtt_evt_param) : Z := ack_message_id p.
Definition suback_message_id (p : mqtt_evt_param) : Z := ack_message_id p.

Record mqtt_evt := {
  type : mqtt_evt_type;
  result : Z;
  param : mqtt_evt_param
}.

Record sockaddr := { sin_addr : bytes; sin_port : Z }.

Inductive mqtt_transport_type :=
| MQTT_TRANSPORT_NON_SECURE
| MQTT_TRANSPORT_SECURE.

Inductive mqtt_evt_cb_t :=
| cb_unset
| cb_mqtt_evt_handler.

Record mqtt_sec_config := {
  peer_verify : Z;
  cipher_list : ptr;
  cipher_count : Z;
  sec_tag_count : Z;
  sec_tag_list : ptr;
  hostname : ptr
}.

(** The members of [struct mqtt_client] that this module writes. *)
Record mqtt_client := {
  broker_ref : ptr;
  evt_cb : mqtt_evt_cb_t;
  cl_client_id : mqtt_utf8;
  cl_password : ptr;
  cl_user_name : ptr;
  protocol_version : Z;
  rx_buf : ptr;
  rx_buf_size : nat;
  tx_buf : ptr;
  tx_buf_size : nat;
  transport_type : mqtt_transport_type;
  tls_config : mqtt_sec_config
}.

(** [struct slm_mqtt_ctx]; [broker] is the storage of the anonymous union
    of [broker] and [broker6]. *)
Record slm_mqtt_ctx := {
  family : Z;
  connected : bool;
  client_id : mqtt_utf8;
  username : mqtt_utf8;
  password : mqtt_utf8;
  sec_tag : Z;
  broker : sockaddr
}.

(* ================================================================= *)
(** ** Calls to collaborators *)

Inductive ext_call :=
| LOG_ERR (fmt : string) (args : list Z)
| LOG_WRN (fmt : string) (args : list Z)
| LOG_INF (fmt : string) (args : list Z)
| LOG_DBG (fmt : string) (args : list Z)
| rsp_send (buf : bytes)
| getaddrinfo (node : bytes) (ai_family : Z)
| freeaddrinfo
| mqtt_client_init
| mqtt_connect (c : mqtt_client)
| mqtt_disconnect
| mqtt_publish (p : mqtt_publish_param)
| mqtt_subscribe (l : mqtt_subscription_list)
| mqtt_unsubscribe (l : mqtt_subscription_list)
| mqtt_publish_qos2_release (id : Z)
| mqtt_publish_qos2_complete (id : Z)
| mqtt_readall_publish_payload (length : nat)
| mqtt_keepalive_time_left
| mqtt_live
| mqtt_input
| mqtt_abort
| poll (timeout : Z)
| k_thread_create
| k_thread_join (seconds : Z)
| enter_datamode.

Definition trace_t := list ext_call.

(* ================================================================= *)
(** ** The world around the module *)

(** Constants of headers that are not part of the module, and the answers
    of its collaborators.  A collaborator's answer may depend on every
    call made before it ([trace_t]).  The parameter getters store through
    their out-pointer on success only; [util_string_get] may have written
    the destination even when it reports an error, so it always returns
    the destination's new contents and the new length. *)
Class World := {
  (* errno.h *)
  EINVAL : Z;
  EISCONN : Z;
  ENOTCONN : Z;
  EMSGSIZE : Z;
  EINVAL_pos : 0 < EINVAL;
  EISCONN_pos : 0 < EISCONN;
  ENOTCONN_pos : 0 < ENOTCONN;
  EMSGSIZE_pos : 0 < EMSGSIZE;
  (* net/socket.h, net/net_ip.h *)
  AF_INET : Z;
  AF_INET6 : Z;
  POLLIN : Z;
  POLLERR : Z;
  POLLHUP : Z;
  POLLNVAL : Z;
  NET_IPV4_MTU : nat;
  htons : Z -> Z;
  (* net/mqtt.h *)
  MQTT_VERSION_3_1_1 : Z;
  TLS_PEER_VERIFY_REQUIRED : Z;
  mqtt_client_init_value : mqtt_client;
  (* Kconfig *)
  CONFIG_MQTT_KEEPALIVE : Z;
  CONFIG_MQTT_LIB_TLS : bool;
  (* slm_util.h, slm_at_host.h, slm_native_tls.h *)
  SLM_MAX_URL : nat;
  SLM_MAX_USERNAME : nat;
  SLM_MAX_PASSWORD : nat;
  INVALID_SEC_TAG : Z;
  DATAMODE_SEND : Z;
  DATAMODE_EXIT : Z;
  (* the AT parameter parser *)
  at_params_valid_count_get : at_param_list_t -> Z;
  at_params_type_get : at_param_list_t -> nat -> at_param_type;
  at_params_unsigned_short_get : at_param_list_t -> nat -> Z * Z;
  at_params_unsigned_int_get : at_param_list_t -> nat -> Z * Z;
  util_string_get : at_param_list_t -> nat -> bytes -> nat -> Z * bytes * nat;
  (* contents of an automatic array before its first write *)
  uninit : nat -> bytes;
  (* answers *)
  ext_ret : trace_t -> ext_call -> Z;
  getaddrinfo_result : trace_t -> sockaddr;
  readall_data : trace_t -> nat -> bytes;
  poll_revents : trace_t -> Z;
  errno : trace_t -> Z
}.

Definition MQTT_MESSAGE_BUFFER_LEN `{W : World} : nat := NET_IPV4_MTU.

(* ================================================================= *)
(** ** The statics of the module *)

Record state := {
  ctx : slm_mqtt_ctx;
  mqtt_broker_url : bytes;
  mqtt_broker_port : Z;
  mqtt_clientid : bytes;
  mqtt_username : bytes;
  mqtt_password : bytes;
  pub_param : mqtt_publish_param;
  pub_topic : bytes;
  pub_msg : bytes;
  payload_buf : bytes;
  client : mqtt_client;
  sub_message_id : Z;          (* the static local of do_mqtt_subscribe *)
  at_param_list : at_param_list_t;   (* extern *)
  rsp_buf : bytes;             (* extern *)
  trace : trace_t              (* the calls made so far, oldest first *)
}.

Definition set_ctx (s : state) (v : slm_mqtt_ctx) : state :=
  Build_state v (mqtt_broker_url s) (mqtt_broker_port s) (mqtt_clientid s)
    (mqtt_username s) (mqtt_password s) (pub_param s) (pub_topic s) (pub_msg s)
    (payload_buf s) (client s) (sub_message_id s) (at_param_list s) (rsp_buf s)
    (trace s).
Definition set_mqtt_broker_url (s : state) (v : bytes) : state :=
  Build_state (ctx s) v (mqtt_broker_port s) (mqtt_clientid s)
    (mqtt_username s) (mqtt_password s) (pub_param s) (pub_topic s) (pub_msg s)
    (payload_buf s) (client s) (sub_message_id s) (at_param_list s) (rsp_buf s)
    (trace s).
Definition set_mqtt_broker_port (s : state) (v : Z) : state :=
  Build_state (ctx s) (mqtt_broker_url s) v (mqtt_clientid s)
    (mqtt_username s) (mqtt_password s) (pub_param s) (pub_topic s) (pub_msg s)
    (payload_buf s) (client s) (sub_message_id s) (at_param_list s) (rsp_buf s)
    (trace s).
Definition set_mqtt_clientid (s : state) (v : bytes) : state :=
  Build_state (ctx s) (mqtt_broker_url s) (mqtt_broker_port s) v
    (mqtt_username s) (mqtt_password s) (pub_param s) (pub_topic s) (pub_msg s)
    (payload_buf s) (client s) (sub_message_id s) (at_param_list s) (rsp_buf s)
    (trace s).
Definition set_mqtt_username (s : state) (v : bytes) : state :=
  Build_state (ctx s) (mqtt_broker_url s) (mqtt_broker_port s) (mqtt_clientid s)
    v (mqtt_password s) (pub_param s) (pub_topic s) (pub_msg s)
    (payload_buf s) (client s) (sub_message_id s) (at_param_list s) (rsp_buf s)
    (trace s).
Definition set_mqtt_password (s : state) (v : bytes) : state :=
  Build_state (ctx s) (mqtt_broker_url s) (mqtt_broker_port s) (mqtt_clientid s)
    (mqtt_username s) v (pub_param s) (pub_topic s) (pub_msg s)
    (payload_buf s) (client s) (sub_message_id s) (at_param_list s) (rsp_buf s)
    (trace s).
Definition set_pub_param (s : state) (v : mqtt_publish_param) : state :=
  Build_state (ctx s) (mqtt_broker_url s) (mqtt_broker_port s) (mqtt_clientid s)
    (mqtt_username s) (mqtt_password s) v (pub_topic s) (pub_msg s)
    (payload_buf s) (client s) (sub_message_id s) (at_param_list s) (rsp_buf s)
    (trace s).
Definition set_pub_topic (s : state) (v : bytes) : state :=
  Build_state (ctx s) (mqtt_broker_url s) (mqtt_broker_port s) (mqtt_clientid s)
    (mqtt_username s) (mqtt_password s) (pub_param s) v (pub_msg s)
    (payload_buf s) (client s) (sub_message_id s) (at_param_list s) (rsp_buf s)
    (trace s).
Definition set_pub_msg (s : state) (v : bytes) : state :=
  Build_state (ctx s) (mqtt_broker_url s) (mqtt_broker_port s) (mqtt_clientid s)
    (mqtt_username s) (mqtt_password s) (pub_param s) (pub_topic s) v
    (payload_buf s) (client s) (sub_message_id s) (at_param_list s) (rsp_buf s)
    (trace s).
Definition set_payload_buf (s : state) (v : bytes) : state :=
  Build_state (ctx s) (mqtt_broker_url s) (mqtt_broker_port s) (mqtt_clientid s)
    (mqtt_username s) (mqtt_password s) (pub_param s) (pub_topic s) (pub_msg s)
    v (client s) (sub_message_id s) (at_param_list s) (rsp_buf s)
    (trace s).
Definition set_client (s : state) (v : mqtt_client) : state :=
  Build_state (ctx s) (mqtt_broker_url s) (mqtt_broker_port s) (mqtt_clientid s)
    (mqtt_username s) (mqtt_password s) (pub_param s) (pub_topic s) (pub_msg s)
    (payload_buf s) v (sub_message_id s) (at_param_list s) (rsp_buf s)
    (trace s).
Definition set_sub_message_id (s : state) (v : Z) : state :=
  Build_state (ctx s) (mqtt_broker_url s) (mqtt_broker_port s) (mqtt_clientid s)
    (mqtt_username s) (mqtt_password s) (pub_param s) (pub_topic s) (pub_msg s)
    (payload_buf s) (client s) v (at_param_list s) (rsp_buf s)
    (trace s).
Definition set_at_param_list (s : state) (v : at_param_list_t) : state :=
  Build_state (ctx s) (mqtt_broker_url s) (mqtt_broker_port s) (mqtt_clientid s)
    (mqtt_username s) (mqtt_password s) (pub_param s) (pub_topic s) (pub_msg s)
    (payload_buf s) (client s) (sub_message_id s) v (rsp_buf s)
    (trace s).
Definition set_rsp_buf (s : state) (v : bytes) : state :=
  Build_state (ctx s) (mqtt_broker_url s) (mqtt_broker_port s) (mqtt_clientid s)
    (mqtt_username s) (mqtt_password s) (pub_param s) (pub_topic s) (pub_msg s)
    (payload_buf s) (client s) (sub_message_id s) (at_param_list s) v
    (trace s).
Definition set_trace (s : state) (v : trace_t) : state :=
  Build_state (ctx s) (mqtt_broker_url s) (mqtt_broker_port s) (mqtt_clientid s)
    (mqtt_username s) (mqtt_password s) (pub_param s) (pub_topic s) (pub_msg s)
    (payload_buf s) (client s) (sub_message_id s) (at_param_list s) (rsp_buf s)
    v.

(** Writes to single members of [ctx], [pub_param] and [client]. *)
Definition ctx_set_family (c : slm_mqtt_ctx) (v : Z) : slm_mqtt_ctx :=
  Build_slm_mqtt_ctx v (connected c) (client_id c) (username c) (password c)
    (sec_tag c) (broker c).
Definition ctx_set_connected (c : slm_mqtt_ctx) (v : bool) : slm_mqtt_ctx :=
  Build_slm_mqtt_ctx (family c) v (client_id c) (username c) (password c)
    (sec_tag c) (broker c).
Definition ctx_set_username (c : slm_mqtt_ctx) (v : mqtt_utf8) : slm_mqtt_ctx :=
  Build_slm_mqtt_ctx (family c) (connected c) (client_id c) v (password c)
    (sec_tag c) (broker c).
Definition ctx_set_password (c : slm_mqtt_ctx) (v : mqtt_utf8) : slm_mqtt_ctx :=
  Build_slm_mqtt_ctx (family c) (connected c) (client_id c) (username c) v
    (sec_tag c) (broker c).
Definition ctx_set_sec_tag (c : slm_mqtt_ctx) (v : Z) : slm_mqtt_ctx :=
  Build_slm_mqtt_ctx (family c) (connected c) (client_id c) (username c)
    (password c) v (broker c).
Definition ctx_set_broker (c : slm_mqtt_ctx) (v : sockaddr) : slm_mqtt_ctx :=
  Build_slm_mqtt_ctx (family c) (connected c) (client_id c) (username c)
    (password c) (sec_tag c) v.

Definition pp_set_message (p : mqtt_publish_param) (v : mqtt_publish_message) :=
  Build_mqtt_publish_param v (message_id p) (dup_flag p) (retain_flag p).
Definition pp_set_message_id (p : mqtt_publish_param) (v : Z) :=
  Build_mqtt_publish_param (message p) v (dup_flag p) (retain_flag p).
Definition pp_set_dup_flag (p : mqtt_publish_param) (v : Z) :=
  Build_mqtt_publish_param (message p) (message_id p) v (retain_flag p).
Definition pp_set_retain_flag (p : mqtt_publish_param) (v : Z) :=
  Build_mqtt_publish_param (message p) (message_id p) (dup_flag p) v.
Definition pp_set_payload (p : mqtt_publish_param) (v : mqtt_binstr) :=
  pp_set_message p (Build_mqtt_publish_message (msg_topic (message p)) v).
Definition pp_set_topic_qos (p : mqtt_publish_param) (v : Z) :=
  pp_set_message p
    (Build_mqtt_publish_message
       (Build_mqtt_topic (topic (msg_topic (message p))) v)
       (payload (message p))).
Definition pp_set_topic_topic (p : mqtt_publish_param) (v : mqtt_utf8) :=
  pp_set_message p
    (Build_mqtt_publish_message
       (Build_mqtt_topic v (qos (msg_topic (message p))))
       (payload (message p))).

Definition cl_set_broker (c : mqtt_client) (v : ptr) : mqtt_client :=
  Build_mqtt_client v (evt_cb c) (cl_client_id c) (cl_password c)
    (cl_user_name c) (protocol_version c) (rx_buf c) (rx_buf_size c)
    (tx_buf c) (tx_buf_size c) (transport_type c) (tls_config c).

(** The bytes a pointer designates. *)
Definition deref (s : state) (p : ptr) : bytes :=
  match p with
  | P_mqtt_broker_url => mqtt_broker_url s
  | P_mqtt_clientid => mqtt_clientid s
  | P_mqtt_username => mqtt_username s
  | P_mqtt_password => mqtt_password s
  | P_pub_topic => pub_topic s
  | P_pub_msg => pub_msg s
  | P_bytes content => content
  | _ => []
  end.

(* ================================================================= *)
(** ** Control flow: state passing with C's [return] *)

Inductive outcome (A : Type) :=
| Next (a : A)
| Return (r : Z).
Arguments Next {A} a.
Arguments Return {A} r.

Definition M (A : Type) : Type := state -> outcome A * state.

Definition ret {A} (a : A) : M A := fun s => (Next a, s).

Definition bind {A B} (m : M A) (k : A -> M B) : M B :=
  fun s =>
    match m s with
    | (Next a, s') => k a s'
    | (Return r, s') => (Return r, s')
    end.

(** [return r;] *)
Definition return_ {A} (r : Z) : M A := fun s => (Return r, s).

Definition gets {A} (f : state -> A) : M A := fun s => (Next (f s), s).

Definition modify (f : state -> state) : M unit := fun s => (Next tt, f s).

Definition when (b : bool) (m : M unit) : M unit := if b then m else ret tt.

(** A C function returning [int]: its body, run to its [return]. *)
Definition fn (body : M Z) : state -> Z * state :=
  fun s =>
    match body s with
    | (Next r, s') => (r, s')
    | (Return r, s') => (r, s')
    end.

(** Calling such a function from another body. *)
Definition lift {A} (f : state -> A * state) : M A :=
  fun s => let (a, s') := f s in (Next a, s').

Declare Scope slm_scope.
Delimit Scope slm_scope with slm.
Notation "x <- m ;; k" := (bind m (fun x => k))
  (at level 61, m at next level, right associativity) : slm_scope.
Notation "' p <- m ;; k" := (bind m (fun x => let p := x in k))
  (at level 61, p pattern, m at next level, right associativity) : slm_scope.
Notation "m ;; k" := (bind m (fun _ => k))
  (at level 61, right associativity) : slm_scope.
Local Open Scope slm_scope.

Definition CRLF : bytes := ["013"; "010"]%char.
Definition DQUOTE : bytes := ["034"]%char.

(** A C string: the bytes of a buffer up to its terminator. *)
Definition cstr (b : bytes) : bytes := firstn (strlen b) b.

(** The text of the two notifications.  The sizes printed by the first
    are those of a packet held in the receive buffer, so [%d] prints them
    as they are. *)
Definition xmqttmsg (topic_size payload_len : Z) : bytes :=
  CRLF ++ str "#XMQTTMSG: " ++ fmt_d topic_size ++ str "," ++ fmt_d payload_len
       ++ CRLF.

Definition xmqttevt (evt_type ret : Z) : bytes :=
  CRLF ++ str "#XMQTTEVT: " ++ fmt_d evt_type ++ str "," ++ fmt_d ret ++ CRLF.

Section Module.

Context {W : World}.

(** A call whose [int] result is used. *)
Definition call (c : ext_call) : M Z :=
  fun s => (Next (ext_ret (trace s) c), set_trace s (trace s ++ [c])).

(** A call whose result, if any, is dropped. *)
Definition call_ (c : ext_call) : M unit :=
  fun s => (Next tt, set_trace s (trace s ++ [c])).

(** [sprintf(rsp_buf, ...)] with the formatted [text]. *)
Definition sprintf_rsp_buf (text : bytes) : M unit :=
  modify (fun s => set_rsp_buf s (store (rsp_buf s) (text ++ [NUL]))).

(** [rsp_send(buf, n)]. *)
Definition do_rsp_send (buf : bytes) (n : nat) : M unit :=
  call_ (rsp_send (firstn n buf)).

(** [rsp_send(rsp_buf, strlen(rsp_buf))]. *)
Definition rsp_send_rsp_buf : M unit :=
  b <- gets rsp_buf ;; do_rsp_send b (strlen b).

(** [mqtt_readall_publish_payload(c, payload_buf, length)]: the engine
    stores at most [length] bytes at the start of [payload_buf]. *)
Definition readall_into_payload_buf (length : nat) : M Z :=
  fun s =>
    let t := trace s in
    (Next (ext_ret t (mqtt_readall_publish_payload length)),
     set_trace
       (set_payload_buf s
          (store (payload_buf s) (firstn length (readall_data t length))))
       (t ++ [mqtt_readall_publish_payload length])).

Definition publish_get_payload (length : nat) : state -> Z * state :=
  fn (
    if (MQTT_MESSAGE_BUFFER_LEN <? length)%nat then
      return_ (- EMSGSIZE)
    else
      readall_into_payload_buf length).

Definition handle_mqtt_publish_evt (evt : mqtt_evt) : state -> Z * state :=
  let msg := message (publish (param evt)) in
  fn (
    ret_ <- lift (publish_get_payload (len (payload msg))) ;;
    if ret_ <? 0 then
      return_ ret_
    else
      sprintf_rsp_buf
        (xmqttmsg (Z.of_nat (size (topic (msg_topic msg))))
                  (Z.of_nat (len (payload msg)))) ;;
      rsp_send_rsp_buf ;;
      t <- gets (fun s => deref s (utf8 (topic (msg_topic msg)))) ;;
      do_rsp_send t (size (topic (msg_topic msg))) ;;
      do_rsp_send CRLF 2 ;;
      p <- gets payload_buf ;;
      do_rsp_send p (len (payload msg)) ;;
      do_rsp_send CRLF 2 ;;
      return_ 0).

Definition set_connected (v : bool) : M unit :=
  modify (fun s => set_ctx s (ctx_set_connected (ctx s) v)).

(** The [switch] of [mqtt_evt_handler]: the action of the branch, and the
    value of [ret] when the switch is left. *)
Definition mqtt_evt_switch (evt : mqtt_evt) : M Z :=
  let ret0 := result evt in
  match type evt with
  | MQTT_EVT_CONNACK =>
      when (nonzero (result evt)) (set_connected false) ;;
      ret ret0
  | MQTT_EVT_DISCONNECT =>
      set_connected false ;;
      ret ret0
  | MQTT_EVT_PUBLISH =>
      lift (handle_mqtt_publish_evt evt)
  | MQTT_EVT_PUBACK =>
      when (result evt =? 0)
        (call_ (LOG_DBG "PUBACK packet id: %u" [puback_message_id (param evt)])) ;;
      ret ret0
  | MQTT_EVT_PUBREC =>
      if nonzero (result evt) then ret ret0
      else
        call_ (LOG_DBG "PUBREC packet id: %u" [pubrec_message_id (param evt)]) ;;
        r <- call (mqtt_publish_qos2_release (pubrel_message_id (param evt))) ;;
        (if nonzero r then
           call_ (LOG_ERR "mqtt_publish_qos2_release: Fail! %d" [r])
         else
           call_ (LOG_DBG "Release, id %u" [pubrec_message_id (param evt)])) ;;
        ret r
  | MQTT_EVT_PUBREL =>
      if nonzero (result evt) then ret ret0
      else
        call_ (LOG_DBG "PUBREL packet id %u" [pubrel_message_id (param evt)]) ;;
        r <- call (mqtt_publish_qos2_complete (pubrel_message_id (param evt))) ;;
        (if nonzero r then
           call_ (LOG_ERR "mqtt_publish_qos2_complete Failed:%d" [r])
         else
           call_ (LOG_DBG "Complete, id %u" [pubrel_message_id (param evt)])) ;;
        ret r
  | MQTT_EVT_PUBCOMP =>
      when (result evt =? 0)
        (call_ (LOG_DBG "PUBCOMP packet id %u" [pubcomp_message_id (param evt)])) ;;
      ret ret0
  | MQTT_EVT_SUBACK =>
      when (result evt =? 0)
        (call_ (LOG_DBG "SUBACK packet id: %u" [suback_message_id (param evt)])) ;;
      ret ret0
  | MQTT_EVT_UNSUBACK
  | MQTT_EVT_PINGRESP =>
      call_ (LOG_DBG "default: %d" [evt_type_int (type evt)]) ;;
      ret ret0
  end.

(** [mqtt_evt_handler] is [void]: the state it leaves. *)
Definition mqtt_evt_handler (evt : mqtt_evt) : state -> state :=
  fun s =>
    snd (fn (
      ret_ <- mqtt_evt_switch evt ;;
      sprintf_rsp_buf (xmqttevt (evt_type_int (type evt)) ret_) ;;
      rsp_send_rsp_buf ;;
      ret 0) s).

(** One turn of the [while (true)] of [mqtt_thread_fn]; [true] when the
    turn ends in [break]. *)
Definition mqtt_thread_turn : state -> bool * state :=
  fun s =>
    let body : M Z :=
      c <- gets (fun s => connected (ctx s)) ;;
      when (negb c)
        (call_ (LOG_WRN "MQTT disconnected" []) ;; return_ 1) ;;
      left <- call mqtt_keepalive_time_left ;;
      revents <- gets (fun s => poll_revents (trace s)) ;;
      err <- call (poll left) ;;
      when (err <? 0)
        (e <- gets (fun s => errno (trace s)) ;;
         call_ (LOG_ERR "ERROR: poll %d" [e]) ;; return_ 1) ;;
      call_ mqtt_live ;;
      when (Z.land revents POLLIN =? POLLIN)
        (err <- call mqtt_input ;;
         when (nonzero err)
           (call_ (LOG_ERR "ERROR: mqtt_input %d" [err]) ;;
            call_ mqtt_abort ;;
            return_ 1)) ;;
      when (Z.land revents POLLERR =? POLLERR)
        (call_ (LOG_ERR "POLLERR" []) ;; call_ mqtt_abort ;; return_ 1) ;;
      when (Z.land revents POLLHUP =? POLLHUP)
        (call_ (LOG_ERR "POLLHUP" []) ;; call_ mqtt_abort ;; return_ 1) ;;
      when (Z.land revents POLLNVAL =? POLLNVAL)
        (call_ (LOG_ERR "POLLNVAL" []) ;; call_ mqtt_abort ;; return_ 1) ;;
      ret 0
    in
    let (r, s') := fn body s in (nonzero r, s').

(** [mqtt_thread_fn], for at most [turns] turns of its loop; [true] when
    the thread has terminated. *)
Fixpoint mqtt_thread_fn (turns : nat) (s : state) : bool * state :=
  match turns with
  | O => (false, s)
  | S n =>
      let (brk, s') := mqtt_thread_turn s in
      if brk then
        (true, set_trace s' (trace s' ++ [LOG_INF "MQTT thread terminated" []]))
      else mqtt_thread_fn n s'
  end.

(** [broker_init]: both arms of the [if] fill the storage the two
    members of the union share. *)
Definition broker_init : state -> Z * state :=
  fn (
    url <- gets mqtt_broker_url ;;
    fam <- gets (fun s => family (ctx s)) ;;
    result <- gets (fun s => getaddrinfo_result (trace s)) ;;
    err <- call (getaddrinfo (cstr url) fam) ;;
    when (nonzero err)
      (call_ (LOG_ERR "ERROR: getaddrinfo failed %d" [err]) ;; return_ err) ;;
    port <- gets mqtt_broker_port ;;
    (if fam =? AF_INET then
       modify (fun s => set_ctx s (ctx_set_broker (ctx s)
                 (Build_sockaddr (sin_addr result) (htons port))))
     else
       modify (fun s => set_ctx s (ctx_set_broker (ctx s)
                 (Build_sockaddr (sin_addr result) (htons port))))) ;;
    call_ freeaddrinfo ;;
    return_ 0).

(** [client_init] is [void]. *)
Definition client_init : M unit :=
  call_ mqtt_client_init ;;
  c <- gets ctx ;;
  cid <- gets mqtt_clientid ;;
  let user_name := if (0 <? size (username c))%nat then P_ctx_username else NULL in
  let password :=
    if (0 <? size (username c))%nat then
      if (0 <? size (password c))%nat then P_ctx_password else NULL
    else NULL in
  let secure := CONFIG_MQTT_LIB_TLS && nonzero (sec_tag c - INVALID_SEC_TAG) in
  modify (fun s => set_client s
    {| broker_ref := if family c =? AF_INET then P_ctx_broker else P_ctx_broker6;
       evt_cb := cb_mqtt_evt_handler;
       cl_client_id := {| utf8 := P_mqtt_clientid; size := strlen cid |};
       cl_password := password;
       cl_user_name := user_name;
       protocol_version := MQTT_VERSION_3_1_1;
       rx_buf := P_rx_buffer;
       rx_buf_size := MQTT_MESSAGE_BUFFER_LEN;
       tx_buf := P_tx_buffer;
       tx_buf_size := MQTT_MESSAGE_BUFFER_LEN;
       transport_type :=
         if secure then MQTT_TRANSPORT_SECURE else MQTT_TRANSPORT_NON_SECURE;
       tls_config :=
         if secure then
           {| peer_verify := TLS_PEER_VERIFY_REQUIRED;
              cipher_list := NULL;
              cipher_count := 0;
              sec_tag_count := 1;
              sec_tag_list := P_ctx_sec_tag;
              hostname := P_mqtt_broker_url |}
         else tls_config mqtt_client_init_value |}).

Definition do_mqtt_connect : state -> Z * state :=
  fn (
    c <- gets (fun s => connected (ctx s)) ;;
    when c (return_ (- EISCONN)) ;;
    err <- lift broker_init ;;
    when (nonzero err) (return_ err) ;;
    client_init ;;
    cl <- gets client ;;
    err <- call (mqtt_connect cl) ;;
    when (nonzero err)
      (call_ (LOG_ERR "ERROR: mqtt_connect %d" [err]) ;; return_ err) ;;
    call_ k_thread_create ;;
    set_connected true ;;
    return_ 0).

Definition slm_at_mqtt_uninit : state -> Z * state :=
  fn (
    modify (fun s => set_client s (cl_set_broker (client s) NULL)) ;;
    return_ 0).

Definition do_mqtt_disconnect : state -> Z * state :=
  fn (
    c <- gets (fun s => connected (ctx s)) ;;
    when (negb c) (return_ (- ENOTCONN)) ;;
    err <- call mqtt_disconnect ;;
    when (nonzero err)
      (call_ (LOG_ERR "ERROR: mqtt_disconnect %d" [err]) ;; return_ err) ;;
    j <- call (k_thread_join CONFIG_MQTT_KEEPALIVE) ;;
    when (nonzero j)
      (call_ (LOG_WRN "Wait for thread terminate failed" [])) ;;
    _ <- lift slm_at_mqtt_uninit ;;
    return_ err).

Definition do_mqtt_publish (msg : ptr) (msg_len : nat) : state -> Z * state :=
  fn (
    modify (fun s => set_pub_param s
              (pp_set_payload (pub_param s) {| data := msg; len := msg_len |})) ;;
    p <- gets pub_param ;;
    call (mqtt_publish p)).

(** [x++] on a [uint16_t] followed by the test against [UINT16_MAX]. *)
Definition next_message_id (id : Z) : Z :=
  let id' := u16 (id + 1) in
  if id' =? UINT16_MAX then 1 else id'.

Definition do_mqtt_subscribe (op : Z) (topic_buf : ptr) (topic_len : nat)
    (qos : Z) : state -> Z * state :=
  fn (
    let err := - EINVAL in
    modify (fun s => set_sub_message_id s (next_message_id (sub_message_id s))) ;;
    id <- gets sub_message_id ;;
    when (negb (qos <=? MQTT_QOS_2_EXACTLY_ONCE)) (return_ err) ;;
    let subscribe_topic :=
      {| topic := {| utf8 := topic_buf; size := topic_len |}; qos := u8 qos |} in
    let subscription_list :=
      {| sl_list := [subscribe_topic]; sl_message_id := id |} in
    if op =? 1 then
      call (mqtt_subscribe subscription_list)
    else if op =? 0 then
      call (mqtt_unsubscribe subscription_list)
    else
      ret err).

(** Reading the parsed command line. *)
Definition unsigned_short_get (index : nat) : M (Z * Z) :=
  gets (fun s => at_params_unsigned_short_get (at_param_list s) index).

Definition unsigned_int_get (index : nat) : M (Z * Z) :=
  gets (fun s => at_params_unsigned_int_get (at_param_list s) index).

Definition valid_count_get : M Z :=
  gets (fun s => at_params_valid_count_get (at_param_list s)).

Definition type_get (index : nat) : M at_param_type :=
  gets (fun s => at_params_type_get (at_param_list s) index).

Definition at_param_type_eqb (a b : at_param_type) : bool :=
  match a, b with
  | AT_PARAM_TYPE_INVALID, AT_PARAM_TYPE_INVALID
  | AT_PARAM_TYPE_NUM_INT, AT_PARAM_TYPE_NUM_INT
  | AT_PARAM_TYPE_STRING, AT_PARAM_TYPE_STRING
  | AT_PARAM_TYPE_ARRAY, AT_PARAM_TYPE_ARRAY
  | AT_PARAM_TYPE_EMPTY, AT_PARAM_TYPE_EMPTY => true
  | _, _ => false
  end.

(** [util_string_get(&at_param_list, index, buf, &sz)] on a static [buf]
    read by [rd] and written by [wr], with [sz] holding [cap] on entry:
    the error code and the new [sz]. *)
Definition string_get (index : nat) (rd : state -> bytes)
    (wr : state -> bytes -> state) (cap : nat) : M (Z * nat) :=
  fun s =>
    let '(err, buf, sz) := util_string_get (at_param_list s) index (rd s) cap in
    (Next (err, sz), wr s buf).

(** The same on an automatic array; the array's contents are returned. *)
Definition string_get_local (index : nat) (cap : nat) : M (Z * bytes * nat) :=
  gets (fun s => util_string_get (at_param_list s) index (uninit cap) cap).

Definition bool_int (b : bool) : Z := if b then 1 else 0.

Definition handle_at_mqtt_connect (cmd_type : at_cmd_type) : state -> Z * state :=
  fn (
    let err := - EINVAL in
    match cmd_type with
    | AT_CMD_TYPE_SET_COMMAND =>
        '(err, op) <- unsigned_short_get 1 ;;
        when (nonzero err) (return_ err) ;;
        let op := u16 op in
        if (op =? MQTTC_CONNECT) || (op =? MQTTC_CONNECT6) then
          '(err, _) <- string_get 2 mqtt_clientid set_mqtt_clientid
                         (MQTT_MAX_CID_LEN + 1) ;;
          when (nonzero err) (return_ err) ;;
          '(err, _) <- string_get 3 mqtt_username set_mqtt_username
                         (SLM_MAX_USERNAME + 1) ;;
          when (nonzero err) (return_ err) ;;
          modify (fun s => set_ctx s (ctx_set_username (ctx s)
                    {| utf8 := P_mqtt_username;
                       size := strlen (mqtt_username s) |})) ;;
          '(err, _) <- string_get 4 mqtt_password set_mqtt_password
                         (SLM_MAX_PASSWORD + 1) ;;
          when (nonzero err) (return_ err) ;;
          modify (fun s => set_ctx s (ctx_set_password (ctx s)
                    {| utf8 := P_mqtt_password;
                       size := strlen (mqtt_password s) |})) ;;
          '(err, _) <- string_get 5 mqtt_broker_url set_mqtt_broker_url
                         (SLM_MAX_URL + 1) ;;
          when (nonzero err) (return_ err) ;;
          '(err, port) <- unsigned_short_get 6 ;;
          when (nonzero err) (return_ err) ;;
          modify (fun s => set_mqtt_broker_port s (u16 port)) ;;
          modify (fun s => set_ctx s (ctx_set_sec_tag (ctx s) INVALID_SEC_TAG)) ;;
          count <- valid_count_get ;;
          when (7 <? count)
            ('(err, tag) <- unsigned_int_get 7 ;;
             when (nonzero err) (return_ err) ;;
             modify (fun s => set_ctx s (ctx_set_sec_tag (ctx s) (s32 tag)))) ;;
          modify (fun s => set_ctx s (ctx_set_family (ctx s)
                    (if op =? MQTTC_CONNECT then AF_INET else AF_INET6))) ;;
          lift do_mqtt_connect
        else if op =? MQTTC_DISCONNECT then
          lift do_mqtt_disconnect
        else
          ret (- EINVAL)
    | AT_CMD_TYPE_READ_COMMAND =>
        c <- gets ctx ;;
        cid <- gets mqtt_clientid ;;
        url <- gets mqtt_broker_url ;;
        port <- gets mqtt_broker_port ;;
        (if nonzero (sec_tag c - INVALID_SEC_TAG) then
           sprintf_rsp_buf
             (CRLF ++ str "#XMQTTCON: " ++ fmt_d (bool_int (connected c))
                ++ str "," ++ DQUOTE ++ cstr cid ++ DQUOTE
                ++ str "," ++ DQUOTE ++ cstr url ++ DQUOTE
                ++ str "," ++ fmt_d port ++ str "," ++ fmt_d (sec_tag c) ++ CRLF)
         else
           sprintf_rsp_buf
             (CRLF ++ str "#XMQTTCON: " ++ fmt_d (bool_int (connected c))
                ++ str "," ++ DQUOTE ++ cstr cid ++ DQUOTE
                ++ str "," ++ DQUOTE ++ cstr url ++ DQUOTE
                ++ str "," ++ fmt_d port ++ CRLF)) ;;
        rsp_send_rsp_buf ;;
        ret 0
    | AT_CMD_TYPE_TEST_COMMAND =>
        sprintf_rsp_buf
          (CRLF ++ str "#XMQTTCON: (0,1,2),<cid>,<username>,<password>,<url>,<port>,<sec_tag>"
             ++ CRLF) ;;
        rsp_send_rsp_buf ;;
        ret 0
    | AT_CMD_TYPE_NONE => ret err
    end).

Definition mqtt_datamode_callback (op : Z) (data : bytes) (len : nat)
    : state -> Z * state :=
  fn (
    if op =? DATAMODE_SEND then
      r <- lift (do_mqtt_publish (P_bytes data) len) ;;
      call_ (LOG_INF "datamode send: %d" [r]) ;;
      ret r
    else if op =? DATAMODE_EXIT then
      call_ (LOG_DBG "MQTT datamode exit" []) ;;
      ret 0
    else
      ret 0).

(** The set command of [handle_at_mqtt_publish], in the two parts its
    comment separates.  First the parameters are read: the values of
    [qos], [retain], [topic_sz] and [msg_sz] when the part is left. *)
Definition publish_params (param_count : Z) : M (Z * Z * nat * nat) :=
  let qos := MQTT_QOS_0_AT_MOST_ONCE in
  let retain := 0 in
  let msg_sz := MQTT_MESSAGE_BUFFER_LEN in
  '(err, topic_sz) <- string_get 1 pub_topic set_pub_topic MQTT_MAX_TOPIC_LEN ;;
  when (nonzero err) (return_ err) ;;
  modify (fun s => set_pub_msg s (store0 (pub_msg s) NUL)) ;;
  ty <- type_get 3 ;;
  if at_param_type_eqb ty AT_PARAM_TYPE_STRING then
    '(err, msg_sz) <- string_get 3 pub_msg set_pub_msg msg_sz ;;
    when (nonzero err) (return_ err) ;;
    qos <- (if 4 <? param_count then
              '(err, v) <- unsigned_short_get 4 ;;
              when (nonzero err) (return_ err) ;;
              ret (u16 v)
            else ret qos) ;;
    retain <- (if 5 <? param_count then
                 '(err, v) <- unsigned_short_get 5 ;;
                 when (nonzero err) (return_ err) ;;
                 ret (u16 v)
               else ret retain) ;;
    ret (qos, retain, topic_sz, msg_sz)
  else if at_param_type_eqb ty AT_PARAM_TYPE_NUM_INT then
    '(err, v) <- unsigned_short_get 3 ;;
    when (nonzero err) (return_ err) ;;
    let qos := u16 v in
    retain <- (if 4 <? param_count then
                 '(err, v) <- unsigned_short_get 4 ;;
                 when (nonzero err) (return_ err) ;;
                 ret (u16 v)
               else ret retain) ;;
    ret (qos, retain, topic_sz, msg_sz)
  else ret (qos, retain, topic_sz, msg_sz).

(** Then the common publish parameters are checked and stored, the
    message id is taken and the publish is submitted. *)
Definition publish_common (qos retain : Z) (topic_sz msg_sz : nat) : M Z :=
  (if qos <=? MQTT_QOS_2_EXACTLY_ONCE then
     modify (fun s => set_pub_param s (pp_set_topic_qos (pub_param s) (u8 qos)))
   else return_ (- EINVAL)) ;;
  (if retain <=? 1 then
     modify (fun s => set_pub_param s
               (pp_set_retain_flag (pub_param s) (u8 retain)))
   else return_ (- EINVAL)) ;;
  modify (fun s => set_pub_param s
            (pp_set_topic_topic (pub_param s)
               {| utf8 := P_pub_topic; size := topic_sz |})) ;;
  modify (fun s => set_pub_param s (pp_set_dup_flag (pub_param s) 0)) ;;
  modify (fun s => set_pub_param s
            (pp_set_message_id (pub_param s)
               (next_message_id (message_id (pub_param s))))) ;;
  m <- gets pub_msg ;;
  if (strlen m =? 0)%nat then
    (* Publish payload in data mode *)
    call enter_datamode
  else
    lift (do_mqtt_publish P_pub_msg msg_sz).

Definition handle_at_mqtt_publish (cmd_type : at_cmd_type) : state -> Z * state :=
  fn (
    let err := - EINVAL in
    count <- valid_count_get ;;
    let param_count := u16 count in
    match cmd_type with
    | AT_CMD_TYPE_SET_COMMAND =>
        '(qos, retain, topic_sz, msg_sz) <- publish_params param_count ;;
        publish_common qos retain topic_sz msg_sz
    | AT_CMD_TYPE_TEST_COMMAND =>
        sprintf_rsp_buf
          (CRLF ++ str "#XMQTTPUB: <topic>,<msg>,(0,1,2),(0,1)" ++ CRLF) ;;
        rsp_send_rsp_buf ;;
        ret 0
    | _ => ret err
    end).

Definition handle_at_mqtt_subscribe (cmd_type : at_cmd_type) : state -> Z * state :=
  fn (
    let err := - EINVAL in
    match cmd_type with
    | AT_CMD_TYPE_SET_COMMAND =>
        count <- valid_count_get ;;
        if count =? 3 then
          '(err, topic, topic_sz) <- string_get_local 1 MQTT_MAX_TOPIC_LEN ;;
          when (err <? 0) (return_ err) ;;
          '(err, qos) <- unsigned_short_get 2 ;;
          when (err <? 0) (return_ err) ;;
          lift (do_mqtt_subscribe AT_MQTTSUB_SUB (P_bytes topic) topic_sz (u16 qos))
        else
          return_ (- EINVAL)
    | AT_CMD_TYPE_TEST_COMMAND =>
        sprintf_rsp_buf (CRLF ++ str "#XMQTTSUB: <topic>,(0,1,2)" ++ CRLF) ;;
        rsp_send_rsp_buf ;;
        ret 0
    | _ => ret err
    end).

Definition handle_at_mqtt_unsubscribe (cmd_type : at_cmd_type)
    : state -> Z * state :=
  fn (
    let err := - EINVAL in
    match cmd_type with
    | AT_CMD_TYPE_SET_COMMAND =>
        count <- valid_count_get ;;
        if count =? 2 then
          '(err, topic, topic_sz) <- string_get_local 1 MQTT_MAX_TOPIC_LEN ;;
          when (err <? 0) (return_ err) ;;
          lift (do_mqtt_subscribe AT_MQTTSUB_UNSUB (P_bytes topic) topic_sz 0)
        else
          return_ (- EINVAL)
    | AT_CMD_TYPE_TEST_COMMAND =>
        sprintf_rsp_buf (CRLF ++ str "#XMQTTUNSUB: <topic>" ++ CRLF) ;;
        rsp_send_rsp_buf ;;
        ret 0
    | _ => ret err
    end).

Definition utf8_zero : mqtt_utf8 := {| utf8 := NULL; size := 0 |}.

(** [memset(&ctx, 0, sizeof(ctx))]. *)
Definition ctx_zero : slm_mqtt_ctx :=
  {| family := 0;
     connected := false;
     client_id := utf8_zero;
     username := utf8_zero;
     password := utf8_zero;
     sec_tag := 0;
     broker := {| sin_addr := []; sin_port := 0 |} |}.

Definition slm_at_mqtt_init : state -> Z * state :=
  fn (
    modify (fun s => set_pub_param s (pp_set_message_id (pub_param s) 0)) ;;
    modify (fun s => set_ctx s ctx_zero) ;;
    modify (fun s => set_ctx s (ctx_set_sec_tag (ctx s) INVALID_SEC_TAG)) ;;
    return_ 0).

End Module.

(* ================================================================= *)
(** ** The module in operation *)

(** What can happen to the module once it is initialised: the AT host
    parses a command line into [at_param_list] and calls the handler of
    the command; the data-mode collaborator calls back; the engine raises
    an event; the driver thread takes a turn of its loop; the module is
    shut down.  [slm_at_mqtt_init] is not among them: it runs once, before
    any of these. *)
Inductive operation :=
| AT_XMQTTCON (cmd_type : at_cmd_type) (params : at_param_list_t)
| AT_XMQTTPUB (cmd_type : at_cmd_type) (params : at_param_list_t)
| AT_XMQTTSUB (cmd_type : at_cmd_type) (params : at_param_list_t)
| AT_XMQTTUNSUB (cmd_type : at_cmd_type) (params : at_param_list_t)
| Datamode (op : Z) (data : bytes) (len : nat)
| Event (evt : mqtt_evt)
| Thread_turn
| Uninit.

Definition run `{W : World} (o : operation) (s : state) : state :=
  match o with
  | AT_XMQTTCON c pl => snd (handle_at_mqtt_connect c (set_at_param_list s pl))
  | AT_XMQTTPUB c pl => snd (handle_at_mqtt_publish c (set_at_param_list s pl))
  | AT_XMQTTSUB c pl => snd (handle_at_mqtt_subscribe c (set_at_param_list s pl))
  | AT_XMQTTUNSUB c pl =>
      snd (handle_at_mqtt_unsubscribe c (set_at_param_list s pl))
  | Datamode op data len => snd (mqtt_datamode_callback op data len s)
  | Event evt => mqtt_evt_handler evt s
  | Thread_turn => snd (mqtt_thread_turn s)
  | Uninit => snd (slm_at_mqtt_uninit s)
  end.

Definition run_all `{W : World} (ops : list operation) (s : state) : state :=
  fold_left (fun s o => run o s) ops s.

(** The statics when the program is loaded: zero, whatever the extern
    buffers hold. *)
Definition boot_state `{W : World} (rsp : bytes) : state :=
  {| ctx := ctx_zero;
     mqtt_broker_url := repeat NUL (SLM_MAX_URL + 1);
     mqtt_broker_port := 0;
     mqtt_clientid := repeat NUL (MQTT_MAX_CID_LEN + 1);
     mqtt_username := repeat NUL (SLM_MAX_USERNAME + 1);
     mqtt_password := repeat NUL (SLM_MAX_PASSWORD + 1);
     pub_param :=
       {| message :=
            {| msg_topic := {| topic := utf8_zero; qos := 0 |};
               payload := {| data := NULL; len := 0 |} |};
          message_id := 0;
          dup_flag := 0;
          retain_flag := 0 |};
     pub_topic := repeat NUL MQTT_MAX_TOPIC_LEN;
     pub_msg := repeat NUL MQTT_MESSAGE_BUFFER_LEN;
     payload_buf := repeat NUL MQTT_MESSAGE_BUFFER_LEN;
     client :=
       {| broker_ref := NULL;
          evt_cb := cb_unset;
          cl_client_id := utf8_zero;
          cl_password := NULL;
          cl_user_name := NULL;
          protocol_version := 0;
          rx_buf := NULL;
          rx_buf_size := 0;
          tx_buf := NULL;
          tx_buf_size := 0;
          transport_type := MQTT_TRANSPORT_NON_SECURE;
          tls_config :=
            {| peer_verify := 0;
               cipher_list := NULL;
               cipher_count := 0;
               sec_tag_count := 0;
               sec_tag_list := NULL;
               hostname := NULL |} |};
     sub_message_id := 0;
     at_param_list := [];
     rsp_buf := rsp;
     trace := [] |}.

(** The states the module can be in: after initialisation, and after any
    operation from such a state. *)
Inductive reachable `{W : World} : state -> Prop :=
| reachable_init : forall rsp,
    reachable (snd (slm_at_mqtt_init (boot_state rsp)))
| reachable_run : forall o s,
    reachable s -> reachable (run o s).

(* ================================================================= *)
(** ** A concrete world

    The constants of Zephyr for the nRF9160 and a parser that behaves as
    its header documents, used to run the module on concrete inputs.
    The collaborators answer by [answer]; the engine delivers [rx] as the
    payload of a received publish and the resolver always finds
    192.0.2.1. *)
Module Concrete.

Definition unsigned_get (bound : Z) (pl : at_param_list_t) (index : nat)
    : Z * Z :=
  match nth_error pl index with
  | Some (AT_NUM v) => if (0 <=? v) && (v <=? bound) then (0, v) else (-22, 0)
  | _ => (-22, 0)
  end.

Definition param_type (pl : at_param_list_t) (index : nat) : at_param_type :=
  match nth_error pl index with
  | Some (AT_NUM _) => AT_PARAM_TYPE_NUM_INT
  | Some (AT_STRING _) => AT_PARAM_TYPE_STRING
  | Some AT_EMPTY => AT_PARAM_TYPE_EMPTY
  | None => AT_PARAM_TYPE_INVALID
  end.

(** The string is copied when it fits; it is terminated, and the call
    succeeds, when a byte is left for the terminator. *)
Definition string_get (pl : at_param_list_t) (index : nat) (buf : bytes)
    (cap : nat) : Z * bytes * nat :=
  match nth_error pl index with
  | Some (AT_STRING v) =>
      if (length v <? cap)%nat then (0, store buf (v ++ [NUL]), length v)
      else if (length v =? cap)%nat then (-12, store buf v, length v)
      else (-12, buf, cap)
  | _ => (-22, buf, cap)
  end.

Definition swap16 (x : Z) : Z :=
  Z.lor (Z.shiftl (Z.land x 255) 8) (Z.land (Z.shiftr x 8) 255).

Definition client0 : mqtt_client :=
  {| broker_ref := NULL;
     evt_cb := cb_unset;
     cl_client_id := {| utf8 := NULL; size := 0 |};
     cl_password := NULL;
     cl_user_name := NULL;
     protocol_version := 4;
     rx_buf := NULL;
     rx_buf_size := 0;
     tx_buf := NULL;
     tx_buf_size := 0;
     transport_type := MQTT_TRANSPORT_NON_SECURE;
     tls_config :=
       {| peer_verify := 0;
          cipher_list := NULL;
          cipher_count := 0;
          sec_tag_count := 0;
          sec_tag_list := NULL;
          hostname := NULL |} |}.

Definition world (answer : trace_t -> ext_call -> Z) (rx : bytes) : World :=
  {| EINVAL := 22;
     EISCONN := 127;
     ENOTCONN := 128;
     EMSGSIZE := 122;
     EINVAL_pos := eq_refl;
     EISCONN_pos := eq_refl;
     ENOTCONN_pos := eq_refl;
     EMSGSIZE_pos := eq_refl;
     AF_INET := 1;
     AF_INET6 := 2;
     POLLIN := 1;
     POLLERR := 8;
     POLLHUP := 16;
     POLLNVAL := 32;
     NET_IPV4_MTU := 576;
     htons := swap16;
     MQTT_VERSION_3_1_1 := 4;
     TLS_PEER_VERIFY_REQUIRED := 2;
     mqtt_client_init_value := client0;
     CONFIG_MQTT_KEEPALIVE := 60;
     CONFIG_MQTT_LIB_TLS := true;
     SLM_MAX_URL := 128;
     SLM_MAX_USERNAME := 32;
     SLM_MAX_PASSWORD := 32;
     INVALID_SEC_TAG := -1;
     DATAMODE_SEND := 0;
     DATAMODE_EXIT := 1;
     at_params_valid_count_get := fun pl => Z.of_nat (length pl);
     at_params_type_get := param_type;
     at_params_unsigned_short_get := unsigned_get 65535;
     at_params_unsigned_int_get := unsigned_get 4294967295;
     util_string_get := string_get;
     uninit := fun n => repeat NUL n;
     ext_ret := answer;
     getaddrinfo_result := fun _ =>
       {| sin_addr := ["192"; "000"; "002"; "001"]%char; sin_port := 0 |};
     readall_data := fun _ _ => rx;
     poll_revents := fun _ => 1;
     errno := fun _ => 0 |}.

(** Every collaborator succeeds. *)
Definition all_ok : trace_t -> ext_call -> Z := fun _ _ => 0.

(** Every collaborator succeeds except the one call [c], which answers
    [e]. *)
Definition failing (is_c : ext_call -> bool) (e : Z) : trace_t -> ext_call -> Z :=
  fun _ c => if is_c c then e else 0.

Definition is_mqtt_disconnect (c : ext_call) : bool :=
  match c with mqtt_disconnect => true | _ => false end.

Definition is_mqtt_connect (c : ext_call) : bool :=
  match c with mqtt_connect _ => true | _ => false end.

Definition is_getaddrinfo (c : ext_call) : bool :=
  match c with getaddrinfo _ _ => true | _ => false end.

Definition is_readall (c : ext_call) : bool :=
  match c with mqtt_readall_publish_payload _ => true | _ => false end.

(** The module right after [slm_at_mqtt_init], and with a session up. *)
Definition s_init : state :=
  snd (slm_at_mqtt_init (W := world all_ok []) (boot_state (W := world all_ok []) [])).

Definition s_connected : state :=
  run (W := world all_ok [])
    (AT_XMQTTCON AT_CMD_TYPE_SET_COMMAND
       [AT_STRING (str "AT#XMQTTCON"); AT_NUM 1; AT_STRING (str "dev1");
        AT_STRING (str ""); AT_STRING (str "");
        AT_STRING (str "broker.example"); AT_NUM 1883])
    s_init.

End Concrete.

(* ================================================================= *)
(** ** The vocabulary of the properties *)

(** What the specification says of a disconnect whose send fails: the
    driver thread is joined, the broker reference is released and the
    error of the send is returned. *)
Definition teardown_continues (W : World) (s : state) : Prop :=
  connected (ctx s) = true ->
  ext_ret (trace s) mqtt_disconnect <> 0 ->
  let (r, s') := do_mqtt_disconnect s in
  In (k_thread_join CONFIG_MQTT_KEEPALIVE) (trace s')
  /\ broker_ref (client s') = NULL
  /\ r = ext_ret (trace s) mqtt_disconnect.

(** The identity of the session, which a connect command stores, is the
    same in [s] and [s']. *)
Definition same_identity (s s' : state) : Prop :=
  mqtt_clientid s' = mqtt_clientid s
  /\ mqtt_username s' = mqtt_username s
  /\ mqtt_password s' = mqtt_password s
  /\ mqtt_broker_url s' = mqtt_broker_url s
  /\ mqtt_broker_port s' = mqtt_broker_port s
  /\ sec_tag (ctx s') = sec_tag (ctx s)
  /\ family (ctx s') = family (ctx s)
  /\ username (ctx s') = username (ctx s)
  /\ password (ctx s') = password (ctx s).

(** What the specification says of a connect command received while a
    session is up:
    it fails with [-EISCONN] and the identity of the session is as
    before. *)
Definition connect_rejected_without_mutation (W : World) (s : state) : Prop :=
  connected (ctx s) = true ->
  let (r, s') := handle_at_mqtt_connect AT_CMD_TYPE_SET_COMMAND s in
  r = - EISCONN /\ same_identity s s'.

(** The command line AT#XMQTTCON=2,"dev2","user","pw","other.example",8883,42. *)
Definition second_connect : at_param_list_t :=
  [AT_STRING (str "AT#XMQTTCON"); AT_NUM 2; AT_STRING (str "dev2");
   AT_STRING (str "user"); AT_STRING (str "pw");
   AT_STRING (str "other.example"); AT_NUM 8883; AT_NUM 42].

(** What a connect command leaves alone when a session is up: the
    flag, the broker address, the engine's client, the publish and
    receive statics, and the collaborators (no call is made). *)
Definition same_session (s s' : state) : Prop :=
  connected (ctx s') = connected (ctx s)
  /\ broker (ctx s') = broker (ctx s)
  /\ client_id (ctx s') = client_id (ctx s)
  /\ client s' = client s
  /\ trace s' = trace s
  /\ pub_param s' = pub_param s
  /\ pub_topic s' = pub_topic s
  /\ pub_msg s' = pub_msg s
  /\ payload_buf s' = payload_buf s
  /\ sub_message_id s' = sub_message_id s
  /\ rsp_buf s' = rsp_buf s
  /\ at_param_list s' = at_param_list s.

(** The security tag of a connect command, with the result of the
    parser: none when the command gives no tag; else the 32 bits the
    parser has stored through [&ctx.sec_tag], read as the [int] that
    [sec_tag_t] is. *)
Definition command_tag `{W : World} (pl : at_param_list_t) : Z * Z :=
  if 7 <? at_params_valid_count_get pl then
    let (e, t) := at_params_unsigned_int_get pl 7 in (e, s32 t)
  else (0, INVALID_SEC_TAG).

(** The command line
    AT#XMQTTCON=1,"dev3","user","pw","other.example",8883,3000000000. *)
Definition connect_tag_3000000000 : at_param_list_t :=
  [AT_STRING (str "AT#XMQTTCON"); AT_NUM 1; AT_STRING (str "dev3");
   AT_STRING (str "user"); AT_STRING (str "pw");
   AT_STRING (str "other.example"); AT_NUM 8883; AT_NUM 3000000000].

(** The statics after a connect command whose parameters were all read,
    received while a session is up. *)
Definition identity_stored `{W : World} (s : state) (op : Z)
    (cid usr pw url : bytes) (port tag : Z) : state :=
  set_ctx
    (set_mqtt_broker_port
       (set_mqtt_broker_url
          (set_mqtt_password
             (set_mqtt_username (set_mqtt_clientid s cid) usr) pw) url)
       (u16 port))
    {| family := if u16 op =? MQTTC_CONNECT then AF_INET else AF_INET6;
       connected := connected (ctx s);
       client_id := client_id (ctx s);
       username := {| utf8 := P_mqtt_username; size := strlen usr |};
       password := {| utf8 := P_mqtt_password; size := strlen pw |};
       sec_tag := tag;
       broker := broker (ctx s) |}.

(** The state after [sprintf(rsp_buf, ...); rsp_send(rsp_buf,
    strlen(rsp_buf));] with the formatted [text]. *)
Definition sent (text : bytes) (s : state) : state :=
  set_trace (set_rsp_buf s (store (rsp_buf s) (text ++ [NUL])))
    (trace s ++ [rsp_send text]).

(** The calls an execution from [s] to [s'] has added to the trace. *)
Definition new_calls (s s' : state) : trace_t :=
  skipn (length (trace s)) (trace s').

(** The members of a publish event the handler reads. *)
Definition evt_payload_len (evt : mqtt_evt) : nat :=
  len (payload (message (publish (param evt)))).
Definition evt_topic_size (evt : mqtt_evt) : nat :=
  size (topic (msg_topic (message (publish (param evt))))).
Definition evt_topic_utf8 (evt : mqtt_evt) : ptr :=
  utf8 (topic (msg_topic (message (publish (param evt))))).

(** The receive buffer after the engine has stored the payload. *)
Definition payload_stored `{W : World} (s : state) (n : nat) : bytes :=
  store (payload_buf s) (firstn n (readall_data (trace s) n)).

(** The five sends that frame a received publish. *)
Definition publish_framing `{W : World} (s : state) (evt : mqtt_evt) : trace_t :=
  [rsp_send (xmqttmsg (Z.of_nat (evt_topic_size evt))
                      (Z.of_nat (evt_payload_len evt)));
   rsp_send (firstn (evt_topic_size evt) (deref s (evt_topic_utf8 evt)));
   rsp_send CRLF;
   rsp_send (firstn (evt_payload_len evt) (payload_stored s (evt_payload_len evt)));
   rsp_send CRLF].

(** The texts handed to the response channel, in order. *)
Definition rsp_sends (t : trace_t) : list bytes :=
  flat_map (fun c => match c with rsp_send b => [b] | _ => [] end) t.

(** The steps of the QoS 2 handshake the module has asked for. *)
Definition handshake_calls (t : trace_t) : trace_t :=
  filter (fun c => match c with
                   | mqtt_publish_qos2_release _
                   | mqtt_publish_qos2_complete _ => true
                   | _ => false
                   end) t.

(** What the switch does, branch by branch: its value, the calls it
    makes and the flag it leaves. *)
Inductive switch_outcome `{W : World} (evt : mqtt_evt) (s : state)
  : Z -> trace_t -> bool -> Prop :=
| so_connack :
    type evt = MQTT_EVT_CONNACK ->
    switch_outcome evt s (result evt) []
      (if nonzero (result evt) then false else connected (ctx s))
| so_disconnect :
    type evt = MQTT_EVT_DISCONNECT ->
    switch_outcome evt s (result evt) [] false
| so_publish_too_large :
    type evt = MQTT_EVT_PUBLISH ->
    (MQTT_MESSAGE_BUFFER_LEN < evt_payload_len evt)%nat ->
    switch_outcome evt s (- EMSGSIZE) [] (connected (ctx s))
| so_publish_read_failed :
    let n := evt_payload_len evt in
    let r := ext_ret (trace s) (mqtt_readall_publish_payload n) in
    type evt = MQTT_EVT_PUBLISH ->
    (n <= MQTT_MESSAGE_BUFFER_LEN)%nat ->
    r < 0 ->
    switch_outcome evt s r [mqtt_readall_publish_payload n] (connected (ctx s))
| so_publish_read :
    let n := evt_payload_len evt in
    let r := ext_ret (trace s) (mqtt_readall_publish_payload n) in
    type evt = MQTT_EVT_PUBLISH ->
    (n <= MQTT_MESSAGE_BUFFER_LEN)%nat ->
    0 <= r ->
    switch_outcome evt s 0
      (mqtt_readall_publish_payload n :: publish_framing s evt)
      (connected (ctx s))
| so_pubrec :
    let id := pubrel_message_id (param evt) in
    let log := LOG_DBG "PUBREC packet id: %u" [pubrec_message_id (param evt)] in
    let r := ext_ret (trace s ++ [log]) (mqtt_publish_qos2_release id) in
    type evt = MQTT_EVT_PUBREC ->
    result evt = 0 ->
    switch_outcome evt s r
      [log; mqtt_publish_qos2_release id;
       if nonzero r then LOG_ERR "mqtt_publish_qos2_release: Fail! %d" [r]
       else LOG_DBG "Release, id %u" [pubrec_message_id (param evt)]]
      (connected (ctx s))
| so_pubrel :
    let id := pubrel_message_id (param evt) in
    let log := LOG_DBG "PUBREL packet id %u" [id] in
    let r := ext_ret (trace s ++ [log]) (mqtt_publish_qos2_complete id) in
    type evt = MQTT_EVT_PUBREL ->
    result evt = 0 ->
    switch_outcome evt s r
      [log; mqtt_publish_qos2_complete id;
       if nonzero r then LOG_ERR "mqtt_publish_qos2_complete Failed:%d" [r]
       else LOG_DBG "Complete, id %u" [id]]
      (connected (ctx s))
| so_log_only : forall log,
    type evt <> MQTT_EVT_CONNACK ->
    type evt <> MQTT_EVT_DISCONNECT ->
    type evt <> MQTT_EVT_PUBLISH ->
    (type evt = MQTT_EVT_PUBREC \/ type evt = MQTT_EVT_PUBREL ->
     result evt <> 0) ->
    log = [] \/ (exists f a, log = [LOG_DBG f a]) ->
    switch_outcome evt s (result evt) log (connected (ctx s)).

(** A PUBREC, a PUBREL and a failed PUBREL for message 7. *)
Definition ack_evt (t : mqtt_evt_type) (res id : Z) : mqtt_evt :=
  {| type := t;
     result := res;
     param :=
       {| publish :=
            {| message :=
                 {| msg_topic := {| topic := utf8_zero; qos := 0 |};
                    payload := {| data := NULL; len := 0 |} |};
               message_id := 0;
               dup_flag := 0;
               retain_flag := 0 |};
          ack_message_id := id |} |}.

(** What the specification says of a received publish whose payload fits the
    buffer: the handler sends the framing of the publish, then the
    notification of the event. *)
Definition received_publish_framed (W : World) (s : state) (evt : mqtt_evt)
    : Prop :=
  type evt = MQTT_EVT_PUBLISH ->
  (evt_payload_len evt <= MQTT_MESSAGE_BUFFER_LEN)%nat ->
  exists ret_,
    rsp_sends (new_calls s (mqtt_evt_handler evt s)) =
      rsp_sends (publish_framing s evt)
        ++ [xmqttevt (evt_type_int MQTT_EVT_PUBLISH) ret_].

(** A received publish on [topic] with a payload of [n] bytes. *)
Definition publish_evt (topic : bytes) (n : nat) : mqtt_evt :=
  {| type := MQTT_EVT_PUBLISH;
     result := 0;
     param :=
       {| publish :=
            {| message :=
                 {| msg_topic :=
                      {| topic := {| utf8 := P_bytes topic; size := length topic |};
                         qos := 0 |};
                    payload := {| data := NULL; len := n |} |};
               message_id := 0;
               dup_flag := 0;
               retain_flag := 0 |};
          ack_message_id := 0 |} |}.

(** [R] relates every state to the state a body, or a function, leaves
    when run from it. *)
Definition preserves (R : state -> state -> Prop) {A} (m : M A) : Prop :=
  forall s, R s (snd (m s)).

Definition fn_preserves (R : state -> state -> Prop) {A}
    (f : state -> A * state) : Prop :=
  forall s, R s (snd (f s)).

(** Relations that compose along a body, and relations that do not see
    the trace nor the response buffer. *)
Class Frame (R : state -> state -> Prop) : Prop := {
  frame_refl : forall s, R s s;
  frame_trans : forall s1 s2 s3, R s1 s2 -> R s2 s3 -> R s1 s3
}.

Class Blind (R : state -> state -> Prop) : Prop := {
  frame_trace : forall s t, R s (set_trace s t);
  frame_rsp_buf : forall s b, R s (set_rsp_buf s b)
}.

(** A session that is up stays up. *)
Definition flag_stays (s s' : state) : Prop :=
  connected (ctx s) = true -> connected (ctx s') = true.

(** The session context is as before. *)
Definition same_ctx (s s' : state) : Prop := ctx s' = ctx s.

(** A DISCONNECT event. *)
Definition disconnect_evt : mqtt_evt := ack_evt MQTT_EVT_DISCONNECT 0 0.

(** The driver threads an execution has created. *)
Definition threads_created (t : trace_t) : nat :=
  length (filter (fun c => match c with k_thread_create => true | _ => false end) t).

(** The state [s] with the connected flag set to [b]. *)
Definition with_flag (s : state) (b : bool) : state :=
  set_ctx s (ctx_set_connected (ctx s) b).

(** A body that runs the same whatever the flag, and leaves it alone. *)
Definition flag_blind {A} (m : M A) : Prop :=
  forall s b, m (with_flag s b) = (fst (m s), with_flag (snd (m s)) b).

Definition fn_flag_blind {A} (f : state -> A * state) : Prop :=
  forall s b, f (with_flag s b) = (fst (f s), with_flag (snd (f s)) b).

(** The list [do_mqtt_subscribe] submits. *)
Definition one_topic (topic_buf : ptr) (topic_len : nat) (qos id : Z)
    : mqtt_subscription_list :=
  {| sl_list := [{| topic := {| utf8 := topic_buf; size := topic_len |};
                    qos := u8 qos |}];
     sl_message_id := id |}.

(** What the specification says of a call with a qos outside 0..2: it fails with
    [-EINVAL] and no state changes. *)
Definition rejected_without_effect (W : World) (f : state -> Z * state)
    (s : state) : Prop :=
  f s = (- EINVAL, s).

(** The command line AT#XMQTTPUB="t/1","hello",3. *)
Definition publish_qos3 : at_param_list_t :=
  [AT_STRING (str "AT#XMQTTPUB"); AT_STRING (str "t/1"); AT_EMPTY;
   AT_STRING (str "hello"); AT_NUM 3].

(** Only the two buffers of the publish command differ. *)
Definition only_pub_buffers (s s' : state) : Prop :=
  exists t m, s' = set_pub_msg (set_pub_topic s t) m.

(** What a rejected publish command leaves alone. *)
Definition publish_untouched (s s' : state) : Prop :=
  trace s' = trace s
  /\ message_id (pub_param s') = message_id (pub_param s)
  /\ sub_message_id s' = sub_message_id s
  /\ ctx s' = ctx s
  /\ client s' = client s
  /\ payload_buf s' = payload_buf s.

(** The message ids have moved forward, each by some number of
    allocations. *)
Definition ids_advance (s s' : state) : Prop :=
  (exists n, message_id (pub_param s') =
             Nat.iter n next_message_id (message_id (pub_param s)))
  /\ (exists m, sub_message_id s' = Nat.iter m next_message_id (sub_message_id s)).

(** The id that follows [a] is [b]: one more, or 1 after 65534; never 0
    and never [UINT16_MAX]. *)
Definition follows (a b : Z) : Prop :=
  1 <= b <= 65534 /\ (a < 65534 -> b = a + 1) /\ (a = 65534 -> b = 1).

(** What the specification says of an allocation: the 16-bit counter is
    incremented and wraps from 0 back to 1, so that the ids run from 1 to
    65535. *)
Definition wraps_from_zero (id : Z) : Z :=
  let id' := u16 (id + 1) in
  if id' =? 0 then 1 else id'.

Definition allocates_as_specified (W : World) (s : state) : Prop :=
  (forall op topic_buf n qos,
     sub_message_id (snd (do_mqtt_subscribe op topic_buf n qos s)) =
       wraps_from_zero (sub_message_id s))
  /\
  (forall qos retain topic_sz msg_sz a s',
     publish_common qos retain topic_sz msg_sz s = (Next a, s') ->
     message_id (pub_param s') = wraps_from_zero (message_id (pub_param s))).

(** The commands AT#XMQTTSUB="t/1",1 and AT#XMQTTPUB="t/1","hello",0,0. *)
Definition subscribe_t1 : at_param_list_t :=
  [AT_STRING (str "AT#XMQTTSUB"); AT_STRING (str "t/1"); AT_NUM 1].

Definition publish_hello : at_param_list_t :=
  [AT_STRING (str "AT#XMQTTPUB"); AT_STRING (str "t/1"); AT_EMPTY;
   AT_STRING (str "hello"); AT_NUM 0; AT_NUM 0].

(* ================================================================= *)
(** ** The vocabulary of the further properties *)

(** How often the call [c] occurs in a trace. *)
Definition ext_call_eqb_simple (c d : ext_call) : bool :=
  match c, d with
  | mqtt_live, mqtt_live
  | mqtt_abort, mqtt_abort
  | mqtt_input, mqtt_input
  | mqtt_keepalive_time_left, mqtt_keepalive_time_left
  | freeaddrinfo, freeaddrinfo
  | k_thread_create, k_thread_create
  | enter_datamode, enter_datamode
  | mqtt_disconnect, mqtt_disconnect
  | mqtt_client_init, mqtt_client_init => true
  | _, _ => false
  end.

Definition count_call (c : ext_call) (t : trace_t) : nat :=
  length (filter (ext_call_eqb_simple c) t).

(** The calls to the engine and to the kernel on behalf of the session:
    everything but the logger. *)
Definition is_log (c : ext_call) : bool :=
  match c with
  | LOG_ERR _ _ | LOG_WRN _ _ | LOG_INF _ _ | LOG_DBG _ _ => true
  | _ => false
  end.

Definition not_logs (t : trace_t) : trace_t :=
  filter (fun c => negb (is_log c)) t.

(** The answers a turn of the driver loop gets: the time left to the
    keepalive, the result of the poll, the events the poll reports and the
    result of processing the input. *)
Definition turn_left `{W : World} (s : state) : Z :=
  ext_ret (trace s) mqtt_keepalive_time_left.

Definition turn_polled `{W : World} (s : state) : Z :=
  ext_ret (trace s ++ [mqtt_keepalive_time_left]) (poll (turn_left s)).

Definition turn_revents `{W : World} (s : state) : Z :=
  poll_revents (trace s ++ [mqtt_keepalive_time_left]).

Definition turn_input `{W : World} (s : state) (before : trace_t) : Z :=
  ext_ret (trace s ++ before) mqtt_input.

(** The first three calls of a turn whose poll succeeds. *)
Definition turn_head `{W : World} (s : state) : trace_t :=
  [mqtt_keepalive_time_left; poll (turn_left s); mqtt_live].

(** The input was processed, successfully, exactly if the socket was
    readable: [inp] is the call made for it. *)
Definition input_processed `{W : World} (s : state) (inp : trace_t) : Prop :=
  (inp = [] /\ Z.land (turn_revents s) POLLIN <> POLLIN)
  \/ (inp = [mqtt_input]
      /\ Z.land (turn_revents s) POLLIN = POLLIN
      /\ turn_input s (turn_head s) = 0).

(** The first socket condition among POLLERR, POLLHUP and POLLNVAL that
    the poll reports is the one logged as [msg]. *)
Definition socket_condition `{W : World} (s : state) (msg : string) : Prop :=
  let r := turn_revents s in
  (msg = "POLLERR"%string /\ Z.land r POLLERR = POLLERR)
  \/ (msg = "POLLHUP"%string /\ Z.land r POLLERR <> POLLERR
      /\ Z.land r POLLHUP = POLLHUP)
  \/ (msg = "POLLNVAL"%string /\ Z.land r POLLERR <> POLLERR
      /\ Z.land r POLLHUP <> POLLHUP /\ Z.land r POLLNVAL = POLLNVAL).

Definition no_socket_condition `{W : World} (s : state) : Prop :=
  let r := turn_revents s in
  Z.land r POLLERR <> POLLERR /\ Z.land r POLLHUP <> POLLHUP
  /\ Z.land r POLLNVAL <> POLLNVAL.

(** The ways a turn of the driver loop goes: whether the loop is left,
    and the calls of the turn. *)
Inductive turn_outcome `{W : World} (s : state) : bool -> trace_t -> Prop :=
| to_flag_clear :
    connected (ctx s) = false ->
    turn_outcome s true [LOG_WRN "MQTT disconnected" []]
| to_poll_failed :
    connected (ctx s) = true ->
    turn_polled s < 0 ->
    turn_outcome s true
      [mqtt_keepalive_time_left; poll (turn_left s);
       LOG_ERR "ERROR: poll %d"
         [errno (trace s ++ [mqtt_keepalive_time_left; poll (turn_left s)])]]
| to_input_failed :
    connected (ctx s) = true ->
    0 <= turn_polled s ->
    Z.land (turn_revents s) POLLIN = POLLIN ->
    turn_input s (turn_head s) <> 0 ->
    turn_outcome s true
      (turn_head s ++
       [mqtt_input;
        LOG_ERR "ERROR: mqtt_input %d" [turn_input s (turn_head s)];
        mqtt_abort])
| to_socket_condition : forall inp msg,
    connected (ctx s) = true ->
    0 <= turn_polled s ->
    input_processed s inp ->
    socket_condition s msg ->
    turn_outcome s true (turn_head s ++ inp ++ [LOG_ERR msg []; mqtt_abort])
| to_continue : forall inp,
    connected (ctx s) = true ->
    0 <= turn_polled s ->
    input_processed s inp ->
    no_socket_condition s ->
    turn_outcome s false (turn_head s ++ inp).

(** What [client_init] makes of the session context of [s]: the
    credentials, the transport and the buffers of the client [cl]. *)
Definition credentials_configured (s : state) (cl : mqtt_client) : Prop :=
  (cl_user_name cl = P_ctx_username \/ cl_user_name cl = NULL)
  /\ (cl_user_name cl = NULL <-> size (username (ctx s)) = 0%nat)
  /\ (cl_password cl = P_ctx_password \/ cl_password cl = NULL)
  /\ (cl_password cl = NULL <->
        size (username (ctx s)) = 0%nat \/ size (password (ctx s)) = 0%nat).

Definition transport_configured `{W : World} (s : state) (cl : mqtt_client)
    : Prop :=
  (transport_type cl = MQTT_TRANSPORT_SECURE <->
     CONFIG_MQTT_LIB_TLS = true /\ sec_tag (ctx s) <> INVALID_SEC_TAG)
  /\ (transport_type cl = MQTT_TRANSPORT_SECURE ->
        peer_verify (tls_config cl) = TLS_PEER_VERIFY_REQUIRED
        /\ cipher_count (tls_config cl) = 0
        /\ sec_tag_count (tls_config cl) = 1
        /\ sec_tag_list (tls_config cl) = P_ctx_sec_tag
        /\ hostname (tls_config cl) = P_mqtt_broker_url)
  /\ (transport_type cl <> MQTT_TRANSPORT_SECURE ->
        tls_config cl = tls_config mqtt_client_init_value).

Definition session_configured `{W : World} (s : state) (cl : mqtt_client)
    : Prop :=
  evt_cb cl = cb_mqtt_evt_handler
  /\ protocol_version cl = MQTT_VERSION_3_1_1
  /\ cl_client_id cl =
       {| utf8 := P_mqtt_clientid; size := strlen (mqtt_clientid s) |}
  /\ (broker_ref cl = if family (ctx s) =? AF_INET
                      then P_ctx_broker else P_ctx_broker6)
  /\ rx_buf cl = P_rx_buffer /\ tx_buf cl = P_tx_buffer
  /\ rx_buf_size cl = MQTT_MESSAGE_BUFFER_LEN
  /\ tx_buf_size cl = MQTT_MESSAGE_BUFFER_LEN.

(** The line a read of the connection reports: the flag, the client id,
    the URL and the port, and the security tag when there is one. *)
Definition xmqttcon_report (flag : bool) (cid url : bytes) (port : Z)
    (tag : option Z) : bytes :=
  CRLF ++ str "#XMQTTCON: " ++ fmt_d (bool_int flag)
    ++ str "," ++ DQUOTE ++ cid ++ DQUOTE
    ++ str "," ++ DQUOTE ++ url ++ DQUOTE
    ++ str "," ++ fmt_d port
    ++ match tag with
       | Some t => str "," ++ fmt_d t ++ CRLF
       | None => CRLF
       end.

Definition reported_tag `{W : World} (tag : Z) : option Z :=
  if tag =? INVALID_SEC_TAG then None else Some tag.

Definition session_report `{W : World} (s : state) : bytes :=
  xmqttcon_report (connected (ctx s)) (cstr (mqtt_clientid s))
    (cstr (mqtt_broker_url s)) (mqtt_broker_port s)
    (reported_tag (sec_tag (ctx s))).

(** The syntax lines of the four commands. *)
Definition xmqttcon_syntax : bytes :=
  CRLF ++ str "#XMQTTCON: (0,1,2),<cid>,<username>,<password>,<url>,<port>,<sec_tag>"
    ++ CRLF.
Definition xmqttpub_syntax : bytes :=
  CRLF ++ str "#XMQTTPUB: <topic>,<msg>,(0,1,2),(0,1)" ++ CRLF.
Definition xmqttsub_syntax : bytes :=
  CRLF ++ str "#XMQTTSUB: <topic>,(0,1,2)" ++ CRLF.
Definition xmqttunsub_syntax : bytes :=
  CRLF ++ str "#XMQTTUNSUB: <topic>" ++ CRLF.

(** The publish a publish command prepares in [s]: the topic buffer with
    [topic_sz] bytes, the qos and the retain flag of the command, no
    duplicate flag and the message id that follows the current one. *)
Definition publish_request (s : state) (qos retain : Z) (topic_sz : nat)
    (pl : mqtt_binstr) : mqtt_publish_param :=
  {| message :=
       {| msg_topic :=
            {| topic := {| utf8 := P_pub_topic; size := topic_sz |};
               qos := qos |};
          payload := pl |};
     message_id := next_message_id (message_id (pub_param s));
     dup_flag := 0;
     retain_flag := retain |}.

(** The publishes among the calls of a trace. *)
Definition publishes (t : trace_t) : list mqtt_publish_param :=
  flat_map (fun c => match c with mqtt_publish p => [p] | _ => [] end) t.

(** The data-mode collaborator hands over the chunks [chunks], one
    callback each. *)
Definition send_chunks `{W : World} (chunks : list (bytes * nat)) (s : state)
    : state :=
  fold_left
    (fun s c => snd (mqtt_datamode_callback DATAMODE_SEND (fst c) (snd c) s))
    chunks s.

(** The payload a chunk of data-mode input makes. *)
Definition chunk_payload (c : bytes * nat) : mqtt_binstr :=
  {| data := P_bytes (fst c); len := snd c |}.

(** What the event handler leaves alone: every static but the connected
    flag, the receive buffer and the response buffer. *)
Definition event_frame (s s' : state) : Prop :=
  family (ctx s') = family (ctx s)
  /\ client_id (ctx s') = client_id (ctx s)
  /\ username (ctx s') = username (ctx s)
  /\ password (ctx s') = password (ctx s)
  /\ sec_tag (ctx s') = sec_tag (ctx s)
  /\ broker (ctx s') = broker (ctx s)
  /\ mqtt_broker_url s' = mqtt_broker_url s
  /\ mqtt_broker_port s' = mqtt_broker_port s
  /\ mqtt_clientid s' = mqtt_clientid s
  /\ mqtt_username s' = mqtt_username s
  /\ mqtt_password s' = mqtt_password s
  /\ pub_param s' = pub_param s
  /\ pub_topic s' = pub_topic s
  /\ pub_msg s' = pub_msg s
  /\ client s' = client s
  /\ sub_message_id s' = sub_message_id s
  /\ at_param_list s' = at_param_list s.

Definition same_payload_buf (s s' : state) : Prop :=
  payload_buf s' = payload_buf s.

(** The calls the event handler makes: to the logger, to the response
    channel, and to the engine for the payload of a publish and for the
    steps of the QoS 2 handshake. *)
Definition event_call (c : ext_call) : bool :=
  match c with
  | LOG_ERR _ _ | LOG_WRN _ _ | LOG_INF _ _ | LOG_DBG _ _
  | rsp_send _
  | mqtt_readall_publish_payload _
  | mqtt_publish_qos2_release _
  | mqtt_publish_qos2_complete _ => true
  | _ => false
  end.

(** The last call of the driver thread. *)
Definition thread_terminated : ext_call := LOG_INF "MQTT thread terminated" [].

(** The command line
    AT#XMQTTCON=1,"dev4","user","pw","other.example",8883,4294967295. *)
Definition connect_tag_4294967295 : at_param_list_t :=
  [AT_STRING (str "AT#XMQTTCON"); AT_NUM 1; AT_STRING (str "dev4");
   AT_STRING (str "user"); AT_STRING (str "pw");
   AT_STRING (str "other.example"); AT_NUM 8883; AT_NUM 4294967295].

(** The driver thread with the engine calling back.  [mqtt_input] hands
    what it has read to [client.evt_cb], which [client_init] sets to
    [mqtt_evt_handler]: the events that [inbound] gives for the calls made
    so far are handled, in order, before [mqtt_input] returns. *)
Definition dispatch `{W : World} (evts : list mqtt_evt) (s : state) : state :=
  fold_left (fun s evt => mqtt_evt_handler evt s) evts s.

Definition mqtt_input_with_events `{W : World}
    (inbound : trace_t -> list mqtt_evt) : M Z :=
  fun s =>
    let t := trace s in
    (Next (ext_ret t mqtt_input),
     dispatch (inbound t) (set_trace s (t ++ [mqtt_input]))).

(** One turn of the loop of [mqtt_thread_fn], and the loop for at most
    [turns] turns, with those events. *)
Definition mqtt_thread_turn_with_events `{W : World}
    (inbound : trace_t -> list mqtt_evt) : state -> bool * state :=
  fun s =>
    let body : M Z :=
      c <- gets (fun s => connected (ctx s)) ;;
      when (negb c)
        (call_ (LOG_WRN "MQTT disconnected" []) ;; return_ 1) ;;
      left <- call mqtt_keepalive_time_left ;;
      revents <- gets (fun s => poll_revents (trace s)) ;;
      err <- call (poll left) ;;
      when (err <? 0)
        (e <- gets (fun s => errno (trace s)) ;;
         call_ (LOG_ERR "ERROR: poll %d" [e]) ;; return_ 1) ;;
      call_ mqtt_live ;;
      when (Z.land revents POLLIN =? POLLIN)
        (err <- mqtt_input_with_events inbound ;;
         when (nonzero err)
           (call_ (LOG_ERR "ERROR: mqtt_input %d" [err]) ;;
            call_ mqtt_abort ;;
            return_ 1)) ;;
      when (Z.land revents POLLERR =? POLLERR)
        (call_ (LOG_ERR "POLLERR" []) ;; call_ mqtt_abort ;; return_ 1) ;;
      when (Z.land revents POLLHUP =? POLLHUP)
        (call_ (LOG_ERR "POLLHUP" []) ;; call_ mqtt_abort ;; return_ 1) ;;
      when (Z.land revents POLLNVAL =? POLLNVAL)
        (call_ (LOG_ERR "POLLNVAL" []) ;; call_ mqtt_abort ;; return_ 1) ;;
      ret 0
    in
    let (r, s') := fn body s in (nonzero r, s').

Fixpoint mqtt_thread_fn_with_events `{W : World}
    (inbound : trace_t -> list mqtt_evt) (turns : nat) (s : state)
    : bool * state :=
  match turns with
  | O => (false, s)
  | S n =>
      let (brk, s') := mqtt_thread_turn_with_events inbound s in
      if brk then
        (true, set_trace s' (trace s' ++ [LOG_INF "MQTT thread terminated" []]))
      else mqtt_thread_fn_with_events inbound n s'
  end.

(* ================================================================= *)
(** * Properties *)

Local Open Scope Z_scope.

(** ** Formatted text and the response buffer *)

Lemma strlen_terminated : forall (l r : bytes),
  Forall (fun c => c <> NUL) l -> strlen (l ++ NUL :: r) = length l.
Proof.
  induction l as [|c l IH]; intros r Hl; simpl.
  - reflexivity.
  - inversion Hl as [|? ? Hc Hl']; subst.
    destruct (Ascii.eqb_spec c NUL) as [E|_]; [contradiction|].
    now rewrite IH.
Qed.

Lemma store_terminated : forall (buf l : bytes),
  Forall (fun c => c <> NUL) l ->
  let b := store buf (l ++ [NUL]) in
  firstn (strlen b) b = l.
Proof.
  intros buf l Hl b. subst b. unfold store.
  rewrite <- app_assoc. simpl.
  rewrite strlen_terminated by assumption.
  now rewrite firstn_app, firstn_all, Nat.sub_diag, app_nil_r.
Qed.

Lemma uint_no_nul : forall u : Decimal.uint,
  Forall (fun c => c <> NUL) (str (NilEmpty.string_of_uint u)).
Proof.
  induction u; simpl; constructor; solve [assumption | discriminate].
Qed.

Lemma fmt_d_no_nul : forall z, Forall (fun c => c <> NUL) (fmt_d z).
Proof.
  intro z. unfold fmt_d, NilZero.string_of_int, NilZero.string_of_uint.
  destruct (Z.to_int z) as [u|u]; destruct u;
    repeat (first [ apply uint_no_nul
                  | apply Forall_cons; [discriminate|]
                  | apply Forall_nil
                  | progress simpl ]).
Qed.

Lemma no_nul_app : forall a b : bytes,
  Forall (fun c => c <> NUL) a -> Forall (fun c => c <> NUL) b ->
  Forall (fun c => c <> NUL) (a ++ b).
Proof. intros. apply Forall_app. now split. Qed.

Lemma xmqttevt_no_nul : forall t r, Forall (fun c => c <> NUL) (xmqttevt t r).
Proof.
  intros. unfold xmqttevt.
  repeat (apply no_nul_app; [ | ]); try apply fmt_d_no_nul;
    repeat (constructor; try discriminate).
Qed.

Lemma xmqttmsg_no_nul : forall t r, Forall (fun c => c <> NUL) (xmqttmsg t r).
Proof.
  intros. unfold xmqttmsg.
  repeat (apply no_nul_app; [ | ]); try apply fmt_d_no_nul;
    repeat (constructor; try discriminate).
Qed.

(** Unfolding the control-flow combinators. *)
Ltac run_body :=
  unfold fn, bind, when, ret, return_, gets, modify, lift, call, call_,
    set_connected; cbn.

Lemma nonzero_true : forall z, z <> 0 -> nonzero z = true.
Proof. intros z H. unfold nonzero. now apply Z.eqb_neq in H as ->. Qed.

Lemma new_calls_app : forall s s' l, trace s' = trace s ++ l -> new_calls s s' = l.
Proof.
  intros s s' l H. unfold new_calls. rewrite H.
  now rewrite skipn_app, skipn_all, Nat.sub_diag.
Qed.

(* ----------------------------------------------------------------- *)
(** ** Disconnect *)

(** C1, counterexample: with a session up and the engine answering -5 to
    [mqtt_disconnect], the thread is not joined and the broker reference
    stays. *)
Lemma teardown_aborted_on_send_failure :
  ~ teardown_continues
      (Concrete.world (Concrete.failing Concrete.is_mqtt_disconnect (-5)) [])
      Concrete.s_connected.
Proof.
  unfold teardown_continues. intro H.
  assert (Hc : connected (ctx Concrete.s_connected) = true) by reflexivity.
  specialize (H Hc). clear Hc.
  assert (He : @ext_ret (Concrete.world
                  (Concrete.failing Concrete.is_mqtt_disconnect (-5)) [])
                 (trace Concrete.s_connected) mqtt_disconnect <> 0)
    by (vm_compute; discriminate).
  specialize (H He). clear He.
  vm_compute in H. destruct H as [_ [H _]]. discriminate H.
Qed.

(** [do_mqtt_disconnect] with a session up, for either answer of the
    engine to [mqtt_disconnect]. *)
Lemma do_mqtt_disconnect_outcome :
  forall (W : World) (s : state),
    connected (ctx s) = true ->
    let err := ext_ret (trace s) mqtt_disconnect in
    let t1 := trace s ++ [mqtt_disconnect] in
    let join := k_thread_join CONFIG_MQTT_KEEPALIVE in
    (err <> 0 ->
     do_mqtt_disconnect s =
       (err, set_trace s (t1 ++ [LOG_ERR "ERROR: mqtt_disconnect %d" [err]])))
    /\
    (err = 0 ->
     do_mqtt_disconnect s =
       (0, set_client
             (set_trace s
                (if nonzero (ext_ret t1 join)
                 then t1 ++ [join; LOG_WRN "Wait for thread terminate failed" []]
                 else t1 ++ [join]))
             (cl_set_broker (client s) NULL))).
Proof.
  intros W s Hc err t1 join. subst err t1 join.
  unfold do_mqtt_disconnect, slm_at_mqtt_uninit. run_body. rewrite Hc. cbn.
  split; intro He.
  - rewrite (nonzero_true _ He). cbn. rewrite <- app_assoc. reflexivity.
  - rewrite He. cbn.
    destruct (nonzero (ext_ret _ (k_thread_join CONFIG_MQTT_KEEPALIVE))); cbn;
      rewrite <- ?app_assoc; reflexivity.
Qed.

(** C1, as the code has it: with a session up, [do_mqtt_disconnect]
    returns the answer of the engine to [mqtt_disconnect].  When that
    answer is an error, the error is logged and nothing else is done: the
    thread is not joined and no static changes, the broker reference
    included.  When it is 0, the thread is joined for at most the
    keepalive interval and the broker reference is cleared, whether or
    not the join succeeded. *)
Theorem disconnect_aborts_when_send_fails :
  forall (W : World) (s : state),
    connected (ctx s) = true ->
    let err := ext_ret (trace s) mqtt_disconnect in
    let s' := snd (do_mqtt_disconnect s) in
    let join := k_thread_join CONFIG_MQTT_KEEPALIVE in
    fst (do_mqtt_disconnect s) = err
    /\
    (err <> 0 ->
     s' = set_trace s (trace s')
     /\ new_calls s s' =
          [mqtt_disconnect; LOG_ERR "ERROR: mqtt_disconnect %d" [err]])
    /\
    (err = 0 ->
     s' = set_client (set_trace s (trace s')) (cl_set_broker (client s) NULL)
     /\ (new_calls s s' = [mqtt_disconnect; join]
         \/ new_calls s s' =
              [mqtt_disconnect; join;
               LOG_WRN "Wait for thread terminate failed" []])).
Proof.
  intros W s Hc err s' join. subst s'.
  destruct (do_mqtt_disconnect_outcome W s Hc) as [Hfail Hok].
  fold err in Hfail, Hok. fold join in Hok.
  destruct (Z.eq_dec err 0) as [E|E].
  - rewrite (Hok E). split; [symmetry; exact E|].
    split; [intro; contradiction|]. intros _. cbn. split; [reflexivity|].
    destruct (nonzero _); [right|left];
      apply new_calls_app; cbn; rewrite <- app_assoc; reflexivity.
  - rewrite (Hfail E). split; [reflexivity|].
    split; [|intro; contradiction]. intros _. cbn. split; [reflexivity|].
    apply new_calls_app. cbn. rewrite <- app_assoc. reflexivity.
Qed.

(** C1, witness: the session of [Concrete.s_connected], the engine
    answering -5 to [mqtt_disconnect]. *)
Lemma disconnect_aborts_when_send_fails_witness :
  let W := Concrete.world (Concrete.failing Concrete.is_mqtt_disconnect (-5)) [] in
  let s := Concrete.s_connected in
  fst (do_mqtt_disconnect s) = -5
  /\ new_calls s (snd (do_mqtt_disconnect s)) =
       [mqtt_disconnect; LOG_ERR "ERROR: mqtt_disconnect %d" [-5]].
Proof.
  intros W s.
  destruct (disconnect_aborts_when_send_fails W s eq_refl) as [Hr [Hfail _]].
  split; [exact Hr|].
  apply Hfail. vm_compute. discriminate.
Defined.

(* ----------------------------------------------------------------- *)
(** ** State errors *)

(** C2, counterexample: a second connect command on the session of
    [Concrete.s_connected] is rejected, but its client id has replaced
    the one of the session. *)
Lemma connect_while_connected_overwrites_identity :
  ~ connect_rejected_without_mutation (Concrete.world Concrete.all_ok [])
      (set_at_param_list Concrete.s_connected second_connect).
Proof.
  unfold connect_rejected_without_mutation. intro H.
  specialize (H eq_refl).
  destruct (handle_at_mqtt_connect AT_CMD_TYPE_SET_COMMAND
     (set_at_param_list Concrete.s_connected second_connect)) as [r s'] eqn:E.
  destruct H as [_ [Hid _]].
  assert (Hs : s' = snd (handle_at_mqtt_connect AT_CMD_TYPE_SET_COMMAND
     (set_at_param_list Concrete.s_connected second_connect)))
    by (rewrite E; reflexivity).
  rewrite Hs in Hid. vm_compute in Hid. discriminate Hid.
Qed.

Ltac destruct_getters :=
  repeat match goal with
    | |- context [util_string_get ?a ?b ?c ?d] =>
        let e := fresh "E" in
        destruct (util_string_get a b c d) as [[? ?] ?] eqn:e; cbn
    | |- context [at_params_unsigned_short_get ?a ?b] =>
        let e := fresh "E" in
        destruct (at_params_unsigned_short_get a b) as [? ?] eqn:e; cbn
    | |- context [at_params_unsigned_int_get ?a ?b] =>
        let e := fresh "E" in
        destruct (at_params_unsigned_int_get a b) as [? ?] eqn:e; cbn
    | |- context [nonzero ?z] =>
        let e := fresh "E" in destruct (nonzero z) eqn:e; cbn
    | |- context [Z.ltb ?a ?b] =>
        let e := fresh "E" in destruct (Z.ltb a b) eqn:e; cbn
    end.

(** [do_mqtt_connect] with a session up. *)
Lemma do_mqtt_connect_connected : forall (W : World) (s : state),
  connected (ctx s) = true -> do_mqtt_connect s = (- EISCONN, s).
Proof.
  intros W s Hc. unfold do_mqtt_connect. run_body. now rewrite Hc.
Qed.

(** [do_mqtt_disconnect] with no session. *)
Lemma do_mqtt_disconnect_not_connected : forall (W : World) (s : state),
  connected (ctx s) = false -> do_mqtt_disconnect s = (- ENOTCONN, s).
Proof.
  intros W s Hc. unfold do_mqtt_disconnect. run_body. now rewrite Hc.
Qed.

Lemma nonzero_true_inv : forall z, nonzero z = true -> z <> 0.
Proof. unfold nonzero. intros z H E. subst. discriminate. Qed.

Lemma nonzero_false_inv : forall z, nonzero z = false -> z = 0.
Proof.
  unfold nonzero. intros z H. destruct (Z.eqb_spec z 0); [assumption|discriminate].
Qed.

Lemma connect_command_connected_frame :
  forall (W : World) (s : state) (op : Z),
    connected (ctx s) = true ->
    at_params_unsigned_short_get (at_param_list s) 1 = (0, op) ->
    u16 op = MQTTC_CONNECT \/ u16 op = MQTTC_CONNECT6 ->
    let (r, s') := handle_at_mqtt_connect AT_CMD_TYPE_SET_COMMAND s in
    r <> 0 /\ same_session s s'.
Proof.
  intros W s op Hc Hop Hconn.
  unfold handle_at_mqtt_connect, unsigned_short_get, unsigned_int_get,
    valid_count_get, string_get, do_mqtt_connect.
  run_body. rewrite Hop. cbn.
  assert (Hb : (u16 op =? MQTTC_CONNECT) || (u16 op =? MQTTC_CONNECT6) = true).
  { destruct Hconn as [-> | ->]; reflexivity. }
  rewrite Hb. cbn.
  pose proof EISCONN_pos as Hpos.
  destruct_getters; rewrite ?Hc; cbn.
  all: split; [ | unfold same_session; cbn; rewrite ?Hc; repeat split ].
  all: try (apply nonzero_true_inv; assumption).
  all: lia.
Qed.

Lemma connect_command_connected_stores :
  forall (W : World) (s : state) (op port tag : Z) (cid usr pw url : bytes)
         (n1 n2 n3 n4 : nat),
    let pl := at_param_list s in
    connected (ctx s) = true ->
    at_params_unsigned_short_get pl 1 = (0, op) ->
    u16 op = MQTTC_CONNECT \/ u16 op = MQTTC_CONNECT6 ->
    util_string_get pl 2 (mqtt_clientid s) (MQTT_MAX_CID_LEN + 1) = (0, cid, n1) ->
    util_string_get pl 3 (mqtt_username s) (SLM_MAX_USERNAME + 1) = (0, usr, n2) ->
    util_string_get pl 4 (mqtt_password s) (SLM_MAX_PASSWORD + 1) = (0, pw, n3) ->
    util_string_get pl 5 (mqtt_broker_url s) (SLM_MAX_URL + 1) = (0, url, n4) ->
    at_params_unsigned_short_get pl 6 = (0, port) ->
    command_tag pl = (0, tag) ->
    handle_at_mqtt_connect AT_CMD_TYPE_SET_COMMAND s =
      (- EISCONN, identity_stored s op cid usr pw url port tag).
Proof.
  intros W s op port tag cid usr pw url n1 n2 n3 n4 pl
    Hc Hop Hconn Hcid Husr Hpw Hurl Hport Htag. subst pl.
  unfold handle_at_mqtt_connect, unsigned_short_get, unsigned_int_get,
    valid_count_get, string_get, do_mqtt_connect.
  run_body. rewrite Hop. cbn.
  assert (Hb : (u16 op =? MQTTC_CONNECT) || (u16 op =? MQTTC_CONNECT6) = true).
  { destruct Hconn as [-> | ->]; reflexivity. }
  cbn in Hcid, Husr, Hpw, Hurl.
  rewrite Hb, Hcid. cbn. rewrite Husr. cbn. rewrite Hpw. cbn.
  rewrite Hurl. cbn. rewrite Hport. cbn.
  unfold command_tag in Htag.
  destruct (7 <? at_params_valid_count_get (at_param_list s)); cbn.
  - destruct (at_params_unsigned_int_get (at_param_list s) 7) as [e t].
    injection Htag as -> <-. cbn. rewrite Hc. reflexivity.
  - injection Htag as <-. rewrite Hc. reflexivity.
Qed.

(** C2, as the code has it.  A disconnect with no session fails with
    [-ENOTCONN] and changes nothing, also through the command handler.
    [do_mqtt_connect] with a session up fails with [-EISCONN] and changes
    nothing; but the command handler has stored the parameters of the
    command before it calls [do_mqtt_connect]: a connect command received
    while a session is up fails, leaves the flag, the broker address, the
    engine's client and the other statics alone and calls no
    collaborator, and, when its parameters were all read, fails with
    [-EISCONN] with the client id, user name, password, URL, port,
    security tag and address family of the command in place; the
    security tag in place is the number of the command read as a 32-bit
    [int], so a number from 2147483648 on is held as that number less
    4294967296. *)
Theorem state_errors :
  forall (W : World),
    (forall s, connected (ctx s) = false ->
       do_mqtt_disconnect s = (- ENOTCONN, s))
    /\
    (forall s op, connected (ctx s) = false ->
       at_params_unsigned_short_get (at_param_list s) 1 = (0, op) ->
       u16 op = MQTTC_DISCONNECT ->
       handle_at_mqtt_connect AT_CMD_TYPE_SET_COMMAND s = (- ENOTCONN, s))
    /\
    (forall s, connected (ctx s) = true ->
       do_mqtt_connect s = (- EISCONN, s))
    /\
    (forall s op, connected (ctx s) = true ->
       at_params_unsigned_short_get (at_param_list s) 1 = (0, op) ->
       u16 op = MQTTC_CONNECT \/ u16 op = MQTTC_CONNECT6 ->
       let (r, s') := handle_at_mqtt_connect AT_CMD_TYPE_SET_COMMAND s in
       r <> 0 /\ same_session s s')
    /\
    (forall s op port tag cid usr pw url n1 n2 n3 n4,
       let pl := at_param_list s in
       connected (ctx s) = true ->
       at_params_unsigned_short_get pl 1 = (0, op) ->
       u16 op = MQTTC_CONNECT \/ u16 op = MQTTC_CONNECT6 ->
       util_string_get pl 2 (mqtt_clientid s) (MQTT_MAX_CID_LEN + 1) = (0, cid, n1) ->
       util_string_get pl 3 (mqtt_username s) (SLM_MAX_USERNAME + 1) = (0, usr, n2) ->
       util_string_get pl 4 (mqtt_password s) (SLM_MAX_PASSWORD + 1) = (0, pw, n3) ->
       util_string_get pl 5 (mqtt_broker_url s) (SLM_MAX_URL + 1) = (0, url, n4) ->
       at_params_unsigned_short_get pl 6 = (0, port) ->
       command_tag pl = (0, tag) ->
       handle_at_mqtt_connect AT_CMD_TYPE_SET_COMMAND s =
         (- EISCONN, identity_stored s op cid usr pw url port tag)).
Proof.
  intro W. repeat split.
  - apply do_mqtt_disconnect_not_connected.
  - intros s op Hc Hop Hd.
    unfold handle_at_mqtt_connect, unsigned_short_get. run_body.
    rewrite Hop. cbn. rewrite Hd. cbn.
    rewrite do_mqtt_disconnect_not_connected by assumption. reflexivity.
  - apply do_mqtt_connect_connected.
  - apply connect_command_connected_frame.
  - intros. eapply connect_command_connected_stores; eassumption.
Qed.

(** C2, witness: a disconnect command before any session, the second
    connect command on the session of [Concrete.s_connected], and a
    connect command with the security tag 3000000000 on that session,
    which leaves the tag -1294967296. *)
Lemma state_errors_witness :
  let W := Concrete.world Concrete.all_ok [] in
  let disconnect_cmd := [AT_STRING (str "AT#XMQTTCON"); AT_NUM 0] in
  let s0 := set_at_param_list Concrete.s_init disconnect_cmd in
  let s1 := set_at_param_list Concrete.s_connected second_connect in
  let s2 := set_at_param_list Concrete.s_connected connect_tag_3000000000 in
  handle_at_mqtt_connect AT_CMD_TYPE_SET_COMMAND s0 = (-128, s0)
  /\ fst (handle_at_mqtt_connect AT_CMD_TYPE_SET_COMMAND s1) = -127
  /\ trace (snd (handle_at_mqtt_connect AT_CMD_TYPE_SET_COMMAND s1)) = trace s1
  /\ fst (handle_at_mqtt_connect AT_CMD_TYPE_SET_COMMAND s2) = -127
  /\ sec_tag (ctx (snd (handle_at_mqtt_connect AT_CMD_TYPE_SET_COMMAND s2)))
       = -1294967296.
Proof.
  intros W disconnect_cmd s0 s1 s2.
  destruct (state_errors W) as [_ [Hdisc [_ [Hframe Hstored]]]].
  split.
  - apply (Hdisc s0 0); reflexivity.
  - specialize (Hframe s1 2 eq_refl eq_refl (or_intror eq_refl)).
    split.
    + vm_compute. reflexivity.
    + split.
      * destruct (handle_at_mqtt_connect AT_CMD_TYPE_SET_COMMAND s1) as [r s'].
        destruct Hframe as [_ Hf]. unfold same_session in Hf. cbn [snd].
        tauto.
      * pose (g := fun i buf cap =>
                     util_string_get (at_param_list s2) i (buf s2) cap).
        assert (H2 : g 2%nat mqtt_clientid (MQTT_MAX_CID_LEN + 1)%nat =
                     (0, snd (fst (g 2%nat mqtt_clientid 65%nat)),
                      snd (g 2%nat mqtt_clientid 65%nat)))
          by (vm_compute; reflexivity).
        assert (H3 : g 3%nat mqtt_username (SLM_MAX_USERNAME + 1)%nat =
                     (0, snd (fst (g 3%nat mqtt_username 33%nat)),
                      snd (g 3%nat mqtt_username 33%nat)))
          by (vm_compute; reflexivity).
        assert (H4 : g 4%nat mqtt_password (SLM_MAX_PASSWORD + 1)%nat =
                     (0, snd (fst (g 4%nat mqtt_password 33%nat)),
                      snd (g 4%nat mqtt_password 33%nat)))
          by (vm_compute; reflexivity).
        assert (H5 : g 5%nat mqtt_broker_url (SLM_MAX_URL + 1)%nat =
                     (0, snd (fst (g 5%nat mqtt_broker_url 129%nat)),
                      snd (g 5%nat mqtt_broker_url 129%nat)))
          by (vm_compute; reflexivity).
        assert (Ht : command_tag (at_param_list s2) = (0, -1294967296))
          by (vm_compute; reflexivity).
        rewrite (Hstored s2 1 8883 (-1294967296) _ _ _ _ _ _ _ _
                   eq_refl eq_refl (or_introl eq_refl) H2 H3 H4 H5 eq_refl Ht).
        split; reflexivity.
Defined.

(* ----------------------------------------------------------------- *)
(** ** The event handler *)

(** A formatted text that holds no NUL is sent whole. *)
Lemma sprintf_then_send :
  forall (A : Type) (text : bytes) (k : M A) (s : state),
    Forall (fun c => c <> NUL) text ->
    bind (sprintf_rsp_buf text) (fun _ => bind rsp_send_rsp_buf (fun _ => k)) s =
      k (sent text s).
Proof.
  intros A text k s Ht.
  unfold sprintf_rsp_buf, rsp_send_rsp_buf, do_rsp_send, sent. run_body.
  now rewrite (store_terminated (rsp_buf s) text Ht).
Qed.

(** [publish_get_payload]. *)
Lemma publish_get_payload_too_large : forall (W : World) (n : nat) (s : state),
  (MQTT_MESSAGE_BUFFER_LEN < n)%nat ->
  publish_get_payload n s = (- EMSGSIZE, s).
Proof.
  intros W n s H. unfold publish_get_payload, fn.
  apply Nat.ltb_lt in H. now rewrite H.
Qed.

Lemma publish_get_payload_fits : forall (W : World) (n : nat) (s : state),
  (n <= MQTT_MESSAGE_BUFFER_LEN)%nat ->
  publish_get_payload n s =
    (ext_ret (trace s) (mqtt_readall_publish_payload n),
     set_trace
       (set_payload_buf s
          (store (payload_buf s) (firstn n (readall_data (trace s) n))))
       (trace s ++ [mqtt_readall_publish_payload n])).
Proof.
  intros W n s H. unfold publish_get_payload, readall_into_payload_buf, fn.
  apply Nat.ltb_ge in H. now rewrite H.
Qed.

Lemma handle_mqtt_publish_evt_too_large :
  forall (W : World) (evt : mqtt_evt) (s : state),
    (MQTT_MESSAGE_BUFFER_LEN < evt_payload_len evt)%nat ->
    handle_mqtt_publish_evt evt s = (- EMSGSIZE, s).
Proof.
  intros W evt s H. unfold handle_mqtt_publish_evt. unfold fn at 1.
  unfold bind at 1. unfold lift.
  fold (evt_payload_len evt).
  rewrite publish_get_payload_too_large by assumption.
  pose proof EMSGSIZE_pos.
  assert (E : (- EMSGSIZE <? 0) = true) by (apply Z.ltb_lt; lia).
  rewrite E. reflexivity.
Qed.

Lemma handle_mqtt_publish_evt_read_failed :
  forall (W : World) (evt : mqtt_evt) (s : state),
    let n := evt_payload_len evt in
    let r := ext_ret (trace s) (mqtt_readall_publish_payload n) in
    (n <= MQTT_MESSAGE_BUFFER_LEN)%nat ->
    r < 0 ->
    handle_mqtt_publish_evt evt s =
      (r, set_trace (set_payload_buf s (payload_stored s n))
            (trace s ++ [mqtt_readall_publish_payload n])).
Proof.
  intros W evt s n r Hn Hr. unfold handle_mqtt_publish_evt. unfold fn at 1.
  unfold bind at 1. unfold lift.
  fold (evt_payload_len evt). fold n.
  rewrite publish_get_payload_fits by assumption. fold r.
  apply Z.ltb_lt in Hr. rewrite Hr. reflexivity.
Qed.

Lemma handle_mqtt_publish_evt_read :
  forall (W : World) (evt : mqtt_evt) (s : state),
    let n := evt_payload_len evt in
    let r := ext_ret (trace s) (mqtt_readall_publish_payload n) in
    (n <= MQTT_MESSAGE_BUFFER_LEN)%nat ->
    0 <= r ->
    exists s', handle_mqtt_publish_evt evt s = (0, s')
      /\ trace s' = trace s ++ mqtt_readall_publish_payload n :: publish_framing s evt
      /\ ctx s' = ctx s
      /\ payload_buf s' = payload_stored s n.
Proof.
  intros W evt s n r Hn Hr. unfold handle_mqtt_publish_evt. unfold fn at 1.
  unfold bind at 1. unfold lift.
  fold (evt_payload_len evt). fold n.
  rewrite publish_get_payload_fits by assumption. fold r.
  assert (E : (r <? 0) = false) by (apply Z.ltb_ge; lia).
  rewrite E.
  rewrite sprintf_then_send by apply xmqttmsg_no_nul.
  unfold do_rsp_send, sent. run_body.
  eexists. split; [reflexivity|]. cbn.
  split; [|split; reflexivity].
  rewrite <- !app_assoc. cbn. unfold publish_framing.
  fold (evt_topic_size evt) (evt_topic_utf8 evt).
  repeat f_equal.
Qed.

(** The handler is its switch followed by the notification of the
    event. *)
Lemma mqtt_evt_handler_eq :
  forall (W : World) (evt : mqtt_evt) (s s1 : state) (r : Z),
    mqtt_evt_switch evt s = (Next r, s1) ->
    mqtt_evt_handler evt s = sent (xmqttevt (evt_type_int (type evt)) r) s1.
Proof.
  intros W evt s s1 r H. unfold mqtt_evt_handler, fn. unfold bind at 1.
  rewrite H. rewrite sprintf_then_send by apply xmqttevt_no_nul.
  reflexivity.
Qed.

Lemma mqtt_evt_switch_outcome :
  forall (W : World) (evt : mqtt_evt) (s : state),
  exists r s1 actions c,
    mqtt_evt_switch evt s = (Next r, s1)
    /\ trace s1 = trace s ++ actions
    /\ connected (ctx s1) = c
    /\ switch_outcome evt s r actions c.
Proof.
  intros W evt s. unfold mqtt_evt_switch.
  destruct (type evt) eqn:Ht.
  - (* CONNACK *)
    run_body. destruct (nonzero (result evt)) eqn:E; cbn;
      do 4 eexists; (split; [reflexivity|]); cbn;
      (split; [symmetry; apply app_nil_r|]);
      (split; [reflexivity|]);
      pose proof (so_connack evt s Ht) as H; rewrite E in H; exact H.
  - (* DISCONNECT *)
    run_body. do 4 eexists. split; [reflexivity|]. cbn.
    split; [symmetry; apply app_nil_r|]. split; [reflexivity|].
    now apply so_disconnect.
  - (* PUBLISH *)
    unfold lift.
    destruct (Nat.le_gt_cases (evt_payload_len evt) MQTT_MESSAGE_BUFFER_LEN)
      as [Hn|Hn].
    + destruct (Z.lt_ge_cases
                  (ext_ret (trace s)
                     (mqtt_readall_publish_payload (evt_payload_len evt))) 0)
        as [Hr|Hr].
      * rewrite handle_mqtt_publish_evt_read_failed by assumption.
        do 4 eexists. split; [reflexivity|]. cbn.
        split; [reflexivity|]. split; [reflexivity|].
        now apply so_publish_read_failed.
      * destruct (handle_mqtt_publish_evt_read W evt s Hn Hr)
          as [s' [E [Ht' [Hc Hp]]]].
        rewrite E. do 4 eexists. split; [reflexivity|].
        split; [exact Ht'|]. split; [reflexivity|]. rewrite Hc.
        now apply so_publish_read.
    + rewrite handle_mqtt_publish_evt_too_large by assumption.
      do 4 eexists. split; [reflexivity|].
      split; [symmetry; apply app_nil_r|]. split; [reflexivity|].
      now apply so_publish_too_large.
  - (* PUBACK *)
    run_body. destruct (result evt =? 0); cbn;
      do 4 eexists; (split; [reflexivity|]); cbn;
      (split; [first [reflexivity | symmetry; apply app_nil_r]|]);
      (split; [reflexivity|]);
      apply so_log_only; try congruence;
      try (intros [?|?]; congruence); eauto.
  - (* PUBREC *)
    destruct (nonzero (result evt)) eqn:E.
    + run_body. do 4 eexists. split; [reflexivity|]. cbn.
      split; [symmetry; apply app_nil_r|]. split; [reflexivity|].
      apply so_log_only; try congruence; auto.
      intros _. now apply nonzero_true_inv.
    + run_body.
      destruct (nonzero (ext_ret _ (mqtt_publish_qos2_release _))) eqn:E2; cbn;
        do 4 eexists; (split; [reflexivity|]); cbn;
        (split; [rewrite <- !app_assoc; reflexivity|]);
        (split; [reflexivity|]);
        pose proof (so_pubrec evt s Ht (nonzero_false_inv _ E)) as H;
        cbv zeta in H; rewrite E2 in H; exact H.
  - (* PUBREL *)
    destruct (nonzero (result evt)) eqn:E.
    + run_body. do 4 eexists. split; [reflexivity|]. cbn.
      split; [symmetry; apply app_nil_r|]. split; [reflexivity|].
      apply so_log_only; try congruence; auto.
      intros _. now apply nonzero_true_inv.
    + run_body.
      destruct (nonzero (ext_ret _ (mqtt_publish_qos2_complete _))) eqn:E2; cbn;
        do 4 eexists; (split; [reflexivity|]); cbn;
        (split; [rewrite <- !app_assoc; reflexivity|]);
        (split; [reflexivity|]);
        pose proof (so_pubrel evt s Ht (nonzero_false_inv _ E)) as H;
        cbv zeta in H; rewrite E2 in H; exact H.
  - (* PUBCOMP *)
    run_body. destruct (result evt =? 0); cbn;
      do 4 eexists; (split; [reflexivity|]); cbn;
      (split; [first [reflexivity | symmetry; apply app_nil_r]|]);
      (split; [reflexivity|]);
      apply so_log_only; try congruence;
      try (intros [?|?]; congruence); eauto.
  - (* SUBACK *)
    run_body. destruct (result evt =? 0); cbn;
      do 4 eexists; (split; [reflexivity|]); cbn;
      (split; [first [reflexivity | symmetry; apply app_nil_r]|]);
      (split; [reflexivity|]);
      apply so_log_only; try congruence;
      try (intros [?|?]; congruence); eauto.
  - (* UNSUBACK *)
    run_body. do 4 eexists. split; [reflexivity|]. cbn.
    split; [reflexivity|]. split; [reflexivity|].
    apply so_log_only; try congruence;
      try (intros [?|?]; congruence); eauto.
  - (* PINGRESP *)
    run_body. do 4 eexists. split; [reflexivity|]. cbn.
    split; [reflexivity|]. split; [reflexivity|].
    apply so_log_only; try congruence;
      try (intros [?|?]; congruence); eauto.
Qed.

(** The handler as a whole: the outcome of the switch, then one
    notification. *)
Lemma mqtt_evt_handler_outcome :
  forall (W : World) (evt : mqtt_evt) (s : state),
  exists r s1 actions c,
    switch_outcome evt s r actions c
    /\ mqtt_evt_switch evt s = (Next r, s1)
    /\ trace s1 = trace s ++ actions
    /\ trace (mqtt_evt_handler evt s) =
         trace s ++ actions ++ [rsp_send (xmqttevt (evt_type_int (type evt)) r)]
    /\ connected (ctx (mqtt_evt_handler evt s)) = c.
Proof.
  intros W evt s.
  destruct (mqtt_evt_switch_outcome W evt s) as [r [s1 [a [c [E [Ht [Hc Ho]]]]]]].
  exists r, s1, a, c. repeat split; try assumption.
  - rewrite (mqtt_evt_handler_eq W evt s s1 r E). unfold sent. cbn.
    rewrite Ht. now rewrite app_assoc.
  - rewrite (mqtt_evt_handler_eq W evt s s1 r E). unfold sent. cbn. exact Hc.
Qed.

Lemma rsp_sends_app : forall a b, rsp_sends (a ++ b) = rsp_sends a ++ rsp_sends b.
Proof. intros. unfold rsp_sends. apply flat_map_app. Qed.

Lemma handshake_calls_app : forall a b,
  handshake_calls (a ++ b) = handshake_calls a ++ handshake_calls b.
Proof. intros. unfold handshake_calls. apply filter_app. Qed.

(** C8: whatever the event and whatever its branch does, the handler
    ends with one send of the notification of the event, after the calls
    of the branch; the branch itself sends nothing, or, for a received
    publish, the five texts that frame it.  The notification is the line
    "#XMQTTEVT: " with the number of the event type, a comma and the
    result code in decimal, between two line ends.  The result code is
    the result of the event, except that for a received publish it is
    the outcome of reading the payload (0, the error of the engine, or
    [-EMSGSIZE]), and for a PUBREC or PUBREL with result 0 the answer of
    the engine to the release or the completion. *)
Theorem every_event_notified_once :
  forall (W : World) (evt : mqtt_evt) (s : state),
  exists (ret_ : Z) (s1 : state) (actions : trace_t),
    let notification :=
      CRLF ++ str "#XMQTTEVT: " ++ fmt_d (evt_type_int (type evt))
           ++ str "," ++ fmt_d ret_ ++ CRLF in
    mqtt_evt_switch evt s = (Next ret_, s1)
    /\ trace s1 = trace s ++ actions
    /\ trace (mqtt_evt_handler evt s) =
         trace s ++ actions ++ [rsp_send notification]
    /\ rsp_sends (new_calls s (mqtt_evt_handler evt s)) =
         rsp_sends actions ++ [notification]
    /\ (rsp_sends actions = []
        \/ type evt = MQTT_EVT_PUBLISH
           /\ rsp_sends actions = rsp_sends (publish_framing s evt))
    /\ (type evt = MQTT_EVT_PUBLISH ->
          let n := evt_payload_len evt in
          let r := ext_ret (trace s) (mqtt_readall_publish_payload n) in
          ((MQTT_MESSAGE_BUFFER_LEN < n)%nat -> ret_ = - EMSGSIZE)
          /\ ((n <= MQTT_MESSAGE_BUFFER_LEN)%nat -> r < 0 -> ret_ = r)
          /\ ((n <= MQTT_MESSAGE_BUFFER_LEN)%nat -> 0 <= r -> ret_ = 0))
    /\ (type evt = MQTT_EVT_PUBREC -> result evt = 0 ->
          ret_ = ext_ret
                   (trace s ++ [LOG_DBG "PUBREC packet id: %u"
                                  [pubrec_message_id (param evt)]])
                   (mqtt_publish_qos2_release (pubrel_message_id (param evt))))
    /\ (type evt = MQTT_EVT_PUBREL -> result evt = 0 ->
          ret_ = ext_ret
                   (trace s ++ [LOG_DBG "PUBREL packet id %u"
                                  [pubrel_message_id (param evt)]])
                   (mqtt_publish_qos2_complete (pubrel_message_id (param evt))))
    /\ (type evt <> MQTT_EVT_PUBLISH ->
        (type evt = MQTT_EVT_PUBREC \/ type evt = MQTT_EVT_PUBREL ->
         result evt <> 0) ->
        ret_ = result evt).
Proof.
  intros W evt s.
  destruct (mqtt_evt_handler_outcome W evt s)
    as [r [s1 [a [c [Ho [E [Ht [Hh Hc]]]]]]]].
  exists r, s1, a. cbv zeta.
  change (CRLF ++ str "#XMQTTEVT: " ++ fmt_d (evt_type_int (type evt))
               ++ str "," ++ fmt_d r ++ CRLF)
    with (xmqttevt (evt_type_int (type evt)) r).
  split; [exact E|]. split; [exact Ht|]. split; [exact Hh|].
  split; [rewrite (new_calls_app _ _ _ Hh), rsp_sends_app; reflexivity|].
  split.
  - inversion Ho; subst; try (left; reflexivity).
    + right. split; [assumption|reflexivity].
    + left. cbn. now destruct (nonzero _).
    + left. cbn. now destruct (nonzero _).
    + left. match goal with H : _ \/ _ |- _ =>
        destruct H as [-> | [f [x ->]]]; reflexivity end.
  - clear E Ht Hh Hc.
    inversion Ho; subst;
      repeat match goal with x := _ |- _ => subst x end;
      (split; [|split; [|split]]); intros;
      try congruence; try reflexivity;
      try (repeat split; intros; first [congruence | lia | reflexivity]);
      exfalso;
      match goal with
      | H : _ \/ _ -> result evt <> 0, T : type evt = MQTT_EVT_PUBREC,
        R : result evt = 0 |- _ => exact (H (or_introl T) R)
      | H : _ \/ _ -> result evt <> 0, T : type evt = MQTT_EVT_PUBREL,
        R : result evt = 0 |- _ => exact (H (or_intror T) R)
      | H : _ \/ _ -> result evt <> 0, R : result evt = 0 |- _ =>
          apply H; [|exact R]; auto
      end.
Qed.

(** C8, witness: on the session of [Concrete.s_connected] a DISCONNECT
    event with result 0 and a PUBREL event with result -5 are each
    answered by one line, and by nothing else. *)
Lemma every_event_notified_once_witness :
  let W := Concrete.world Concrete.all_ok [] in
  let s := Concrete.s_connected in
  rsp_sends (new_calls s (mqtt_evt_handler disconnect_evt s)) =
    [["013"; "010"]%char ++ str "#XMQTTEVT: 1,0" ++ ["013"; "010"]%char]
  /\ rsp_sends (new_calls s
                  (mqtt_evt_handler (ack_evt MQTT_EVT_PUBREL (-5) 7) s)) =
    [["013"; "010"]%char ++ str "#XMQTTEVT: 5,-5" ++ ["013"; "010"]%char].
Proof.
  intros W s. split.
  - destruct (every_event_notified_once W disconnect_evt s)
      as [r [s1 [a [_ [_ [_ [Hs [Hfr [_ [_ [_ Hr]]]]]]]]]]].
    rewrite Hs.
    rewrite (Hr ltac:(discriminate) ltac:(intros [H|H]; discriminate H)).
    destruct Hfr as [-> | [H _]]; [reflexivity | discriminate H].
  - destruct (every_event_notified_once W (ack_evt MQTT_EVT_PUBREL (-5) 7) s)
      as [r [s1 [a [_ [_ [_ [Hs [Hfr [_ [_ [_ Hr]]]]]]]]]]].
    rewrite Hs.
    rewrite (Hr ltac:(discriminate) ltac:(intros _; discriminate)).
    destruct Hfr as [-> | [H _]]; [reflexivity | discriminate H].
Defined.

(** C3: a PUBREC with result 0 makes the handler ask for exactly one
    release, and a PUBREL with result 0 for exactly one completion, each
    with the message id of the event; an event with a result other than 0
    asks for no step of the handshake. *)
Theorem qos2_sequencing :
  forall (W : World) (evt : mqtt_evt) (s : state),
    let new := new_calls s (mqtt_evt_handler evt s) in
    (type evt = MQTT_EVT_PUBREC -> result evt = 0 ->
       handshake_calls new =
         [mqtt_publish_qos2_release (pubrec_message_id (param evt))])
    /\
    (type evt = MQTT_EVT_PUBREL -> result evt = 0 ->
       handshake_calls new =
         [mqtt_publish_qos2_complete (pubrel_message_id (param evt))])
    /\
    (result evt <> 0 -> handshake_calls new = []).
Proof.
  intros W evt s new. subst new.
  destruct (mqtt_evt_handler_outcome W evt s)
    as [r [s1 [a [c [Ho [E [Ht [Hh Hc]]]]]]]].
  rewrite (new_calls_app _ _ _ Hh), handshake_calls_app. cbn.
  rewrite app_nil_r.
  repeat split.
  - intros Hty Hres. inversion Ho; subst; try congruence.
    + cbn. now destruct (nonzero _).
    + match goal with H : _ \/ _ -> _ |- _ => exfalso; apply H; auto end.
  - intros Hty Hres. inversion Ho; subst; try congruence.
    + cbn. now destruct (nonzero _).
    + match goal with H : _ \/ _ -> _ |- _ => exfalso; apply H; auto end.
  - intros Hres. inversion Ho; subst; try reflexivity; try congruence.
    match goal with H : _ \/ _ |- _ =>
      destruct H as [-> | [f [x ->]]]; reflexivity end.
Qed.

(** C3, witness: on the session of [Concrete.s_connected]. *)
Lemma qos2_sequencing_witness :
  let W := Concrete.world Concrete.all_ok [] in
  let s := Concrete.s_connected in
  handshake_calls (new_calls s (mqtt_evt_handler (ack_evt MQTT_EVT_PUBREC 0 7) s))
    = [mqtt_publish_qos2_release 7]
  /\ handshake_calls (new_calls s (mqtt_evt_handler (ack_evt MQTT_EVT_PUBREL 0 7) s))
    = [mqtt_publish_qos2_complete 7]
  /\ handshake_calls (new_calls s (mqtt_evt_handler (ack_evt MQTT_EVT_PUBREL (-5) 7) s))
    = [].
Proof.
  intros W s. split; [|split].
  - apply (qos2_sequencing W (ack_evt MQTT_EVT_PUBREC 0 7) s); reflexivity.
  - apply (qos2_sequencing W (ack_evt MQTT_EVT_PUBREL 0 7) s); reflexivity.
  - apply (qos2_sequencing W (ack_evt MQTT_EVT_PUBREL (-5) 7) s). discriminate.
Defined.

(* ----------------------------------------------------------------- *)
(** ** Received publishes *)

(** C6, counterexample: a publish on "t/1" with a payload of 5 bytes,
    when the engine answers -5 to the read of the payload: nothing but
    the notification of the event is sent. *)
Lemma received_publish_not_framed_when_read_fails :
  ~ received_publish_framed
      (Concrete.world (Concrete.failing Concrete.is_readall (-5)) (str "hello"))
      Concrete.s_connected (publish_evt (str "t/1") 5).
Proof.
  unfold received_publish_framed. intro H.
  destruct (H eq_refl) as [r Hr].
  - vm_compute. repeat constructor.
  - apply (f_equal (@length bytes)) in Hr.
    rewrite length_app in Hr. vm_compute in Hr. discriminate Hr.
Qed.

Lemma firstn_store_length : forall (buf d : bytes) (n : nat),
  (n <= length buf)%nat -> length (firstn n (store buf d)) = n.
Proof.
  intros buf d n H. rewrite length_firstn. unfold store.
  rewrite length_app, length_skipn. lia.
Qed.

Lemma firstn_store_data : forall (buf d : bytes) (n : nat),
  (n <= length d)%nat -> firstn n (store buf (firstn n d)) = firstn n d.
Proof.
  intros buf d n H. unfold store.
  rewrite firstn_app, length_firstn.
  replace (n - Nat.min n (length d))%nat with O by lia.
  rewrite firstn_firstn, Nat.min_id. cbn. apply app_nil_r.
Qed.

(** C6, as the code has it.  For a received publish with a payload of
    [n] bytes: when [n] is at most the size of the buffer and the engine
    reads the payload, the handler sends the text that reports the size of
    the topic and [n], the bytes of the topic, and [n] bytes of the
    receive buffer, which are the bytes the engine stored, then the
    notification of the event with 0; when the engine fails to read the
    payload, only the notification of the event, with the error of the
    engine; when [n] exceeds the size of the buffer, only the notification
    of the event, with [-EMSGSIZE], and the engine is not asked to read.
    The connected flag is as before in each case. *)
Theorem received_publish :
  forall (W : World) (evt : mqtt_evt) (s : state),
    type evt = MQTT_EVT_PUBLISH ->
    let n := evt_payload_len evt in
    let r := ext_ret (trace s) (mqtt_readall_publish_payload n) in
    let s' := mqtt_evt_handler evt s in
    let notified x := rsp_send (xmqttevt (evt_type_int MQTT_EVT_PUBLISH) x) in
    ((n <= MQTT_MESSAGE_BUFFER_LEN)%nat -> 0 <= r ->
       new_calls s s' =
         mqtt_readall_publish_payload n :: publish_framing s evt ++ [notified 0]
       /\ (length (payload_buf s) = MQTT_MESSAGE_BUFFER_LEN ->
           length (firstn n (payload_stored s n)) = n)
       /\ ((n <= length (readall_data (trace s) n))%nat ->
           firstn n (payload_stored s n) = firstn n (readall_data (trace s) n))
       /\ connected (ctx s') = connected (ctx s))
    /\
    ((n <= MQTT_MESSAGE_BUFFER_LEN)%nat -> r < 0 ->
       new_calls s s' = [mqtt_readall_publish_payload n; notified r]
       /\ connected (ctx s') = connected (ctx s))
    /\
    ((MQTT_MESSAGE_BUFFER_LEN < n)%nat ->
       new_calls s s' = [notified (- EMSGSIZE)]
       /\ connected (ctx s') = connected (ctx s)
       /\ payload_buf s' = payload_buf s).
Proof.
  intros W evt s Hty n r s' notified. subst s' notified.
  assert (Hsw : mqtt_evt_switch evt s = lift (handle_mqtt_publish_evt evt) s).
  { unfold mqtt_evt_switch. now rewrite Hty. }
  unfold lift in Hsw.
  split; [|split].
  - intros Hn Hr.
    destruct (handle_mqtt_publish_evt_read W evt s Hn Hr)
      as [s1 [E [Ht [Hc Hp]]]].
    rewrite E in Hsw. rewrite (mqtt_evt_handler_eq W evt s s1 0 Hsw).
    rewrite Hty. split; [|split; [|split]].
    + apply new_calls_app. unfold sent. cbn. rewrite Ht.
      rewrite <- app_assoc. reflexivity.
    + intro Hlen. apply firstn_store_length. subst n. lia.
    + intro Hd. apply firstn_store_data. exact Hd.
    + unfold sent. cbn. now rewrite Hc.
  - intros Hn Hr.
    rewrite (handle_mqtt_publish_evt_read_failed W evt s Hn Hr) in Hsw.
    rewrite (mqtt_evt_handler_eq W evt s _ _ Hsw). rewrite Hty. split.
    + apply new_calls_app. unfold sent. cbn. rewrite <- app_assoc. reflexivity.
    + reflexivity.
  - intros Hn.
    rewrite (handle_mqtt_publish_evt_too_large W evt s Hn) in Hsw.
    rewrite (mqtt_evt_handler_eq W evt s _ _ Hsw). rewrite Hty.
    split; [|split; reflexivity].
    apply new_calls_app. reflexivity.
Qed.

(** C6, witness: the publish on "t/1" with the payload "hello". *)
Lemma received_publish_witness :
  let W := Concrete.world Concrete.all_ok (str "hello") in
  let s := Concrete.s_connected in
  rsp_sends (new_calls s (mqtt_evt_handler (publish_evt (str "t/1") 5) s)) =
    [CRLF ++ str "#XMQTTMSG: 3,5" ++ CRLF; str "t/1"; CRLF; str "hello"; CRLF;
     CRLF ++ str "#XMQTTEVT: 2,0" ++ CRLF]
  /\ rsp_sends (new_calls s (mqtt_evt_handler (publish_evt (str "t/1") 577) s)) =
    [CRLF ++ str "#XMQTTEVT: 2,-122" ++ CRLF].
Proof.
  intros W s.
  destruct (received_publish W (publish_evt (str "t/1") 5) s eq_refl)
    as [Hfit _].
  destruct (received_publish W (publish_evt (str "t/1") 577) s eq_refl)
    as [_ [_ Hbig]].
  split.
  - destruct Hfit as [Hnew _].
    + vm_compute. repeat constructor.
    + vm_compute. discriminate.
    + rewrite Hnew. vm_compute. reflexivity.
  - destruct Hbig as [Hnew _].
    + vm_compute. repeat constructor.
    + rewrite Hnew. vm_compute. reflexivity.
Defined.

(* ----------------------------------------------------------------- *)
(** ** What an execution leaves alone

    A relation [R] between the state before and the state after that is
    reflexive, transitive and blind to the trace holds of a body as soon
    as it holds of each assignment in it. *)

Section Preserves.

Context {W : World} (R : state -> state -> Prop) {F : Frame R} {Bl : Blind R}.

Lemma preserves_ret : forall A (a : A), preserves R (ret a).
Proof. intros A a s. apply frame_refl. Qed.

Lemma preserves_return : forall A (r : Z), preserves R (@return_ A r).
Proof. intros A r s. apply frame_refl. Qed.

Lemma preserves_gets : forall A (f : state -> A), preserves R (gets f).
Proof. intros A f s. apply frame_refl. Qed.

Lemma preserves_call : forall c, preserves R (call c).
Proof. intros c s. apply frame_trace. Qed.

Lemma preserves_call_ : forall c, preserves R (call_ c).
Proof. intros c s. apply frame_trace. Qed.

Lemma preserves_modify : forall f,
  (forall s, R s (f s)) -> preserves R (modify f).
Proof. intros f H s. apply H. Qed.

Lemma preserves_bind : forall A B (m : M A) (k : A -> M B),
  preserves R m -> (forall a, preserves R (k a)) -> preserves R (bind m k).
Proof.
  intros A B m k Hm Hk s. unfold bind.
  specialize (Hm s). destruct (m s) as [[a|r] s1]; cbn in *.
  - eapply frame_trans; [exact Hm|apply Hk].
  - exact Hm.
Qed.

Lemma preserves_when : forall (b : bool) (m : M unit),
  preserves R m -> preserves R (when b m).
Proof. intros [|] m H; [exact H|apply preserves_ret]. Qed.

Lemma preserves_fn : forall (body : M Z),
  preserves R body -> fn_preserves R (fn body).
Proof.
  intros body H s. unfold fn. specialize (H s).
  now destruct (body s) as [[a|r] s1].
Qed.

Lemma preserves_lift : forall A (f : state -> A * state),
  fn_preserves R f -> preserves R (lift f).
Proof.
  intros A f H s. unfold lift. specialize (H s).
  now destruct (f s) as [a s1].
Qed.

Lemma preserves_sprintf : forall t, preserves R (sprintf_rsp_buf t).
Proof. intros t s. apply frame_rsp_buf. Qed.

Lemma preserves_rsp_send_rsp_buf : preserves R rsp_send_rsp_buf.
Proof.
  unfold rsp_send_rsp_buf, do_rsp_send.
  apply preserves_bind; [apply preserves_gets|intro; apply preserves_call_].
Qed.

Lemma preserves_do_rsp_send : forall b n, preserves R (do_rsp_send b n).
Proof. intros. apply preserves_call_. Qed.

End Preserves.

(** Walking through a body, leaving the assignments to be checked. *)
Ltac preserve_step :=
  match goal with
  | |- preserves ?R (bind _ _) => apply (preserves_bind R); [|intros]
  | |- preserves ?R (ret _) => apply (preserves_ret R)
  | |- preserves ?R (return_ _) => apply (preserves_return R)
  | |- preserves ?R (gets _) => apply (preserves_gets R)
  | |- preserves ?R (call _) => apply (preserves_call R)
  | |- preserves ?R (call_ _) => apply (preserves_call_ R)
  | |- preserves ?R (when _ _) => apply (preserves_when R)
  | |- preserves ?R (sprintf_rsp_buf _) => apply (preserves_sprintf R)
  | |- preserves ?R rsp_send_rsp_buf => apply (preserves_rsp_send_rsp_buf R)
  | |- preserves ?R (do_rsp_send _ _) => apply (preserves_do_rsp_send R)
  | |- preserves ?R (unsigned_short_get _) => apply (preserves_gets R)
  | |- preserves ?R (unsigned_int_get _) => apply (preserves_gets R)
  | |- preserves ?R valid_count_get => apply (preserves_gets R)
  | |- preserves ?R (type_get _) => apply (preserves_gets R)
  | |- preserves ?R (string_get_local _ _) => apply (preserves_gets R)
  | |- preserves ?R (lift _) => apply (preserves_lift R)
  | |- preserves ?R (modify _) => apply (preserves_modify R); intros
  | |- preserves ?R (set_connected _) => apply (preserves_modify R); intros
  | |- fn_preserves ?R (fn _) => apply (preserves_fn R)
  | |- preserves _ (if ?b then _ else _) => destruct b
  | |- preserves _ (match ?x with _ => _ end) => destruct x
  | |- preserves _ (let (_, _) := ?x in _) => destruct x
  end.

Lemma preserves_string_get :
  forall (W : World) (R : state -> state -> Prop) (index : nat)
         (rd : state -> bytes) (wr : state -> bytes -> state) (cap : nat),
    (forall s b, R s (wr s b)) -> preserves R (string_get index rd wr cap).
Proof.
  intros W R index rd wr cap H s. unfold string_get.
  destruct (util_string_get (at_param_list s) index (rd s) cap) as [[e b] n].
  apply H.
Qed.

Lemma preserves_readall :
  forall (W : World) (R : state -> state -> Prop) {F : Frame R} {B : Blind R}
         (n : nat),
    (forall s b, R s (set_payload_buf s b)) ->
    preserves R (readall_into_payload_buf n).
Proof.
  intros W R F B n H s. unfold readall_into_payload_buf. cbn.
  eapply frame_trans; [apply H|apply frame_trace].
Qed.

Ltac frame_step :=
  first [ preserve_step
        | apply preserves_string_get; intros
        | match goal with
          | |- preserves ?R (readall_into_payload_buf _) =>
              apply (preserves_readall _ R); intros
          end ].

Ltac frame := repeat frame_step.

#[local] Instance flag_stays_frame : Frame flag_stays.
Proof. split; unfold flag_stays; cbn; auto. Qed.

#[local] Instance flag_stays_blind : Blind flag_stays.
Proof. split; unfold flag_stays; cbn; auto. Qed.

#[local] Instance same_ctx_frame : Frame same_ctx.
Proof.
  split; unfold same_ctx; cbn; auto.
  intros s1 s2 s3 -> ->. auto.
Qed.

#[local] Instance same_ctx_blind : Blind same_ctx.
Proof. split; unfold same_ctx; cbn; auto. Qed.

Ltac frame_goal := unfold flag_stays, same_ctx; cbn; auto.

Section Frames.

Context {W : World}.


Lemma do_mqtt_disconnect_same_ctx : fn_preserves same_ctx do_mqtt_disconnect.
Proof. unfold do_mqtt_disconnect, slm_at_mqtt_uninit. frame; frame_goal. Qed.

Lemma slm_at_mqtt_uninit_same_ctx : fn_preserves same_ctx slm_at_mqtt_uninit.
Proof. unfold slm_at_mqtt_uninit. frame; frame_goal. Qed.

Lemma do_mqtt_publish_same_ctx : forall msg n,
  fn_preserves same_ctx (do_mqtt_publish msg n).
Proof. intros. unfold do_mqtt_publish. frame; frame_goal. Qed.

Lemma do_mqtt_subscribe_same_ctx : forall op t n q,
  fn_preserves same_ctx (do_mqtt_subscribe op t n q).
Proof. intros. unfold do_mqtt_subscribe. frame; frame_goal. Qed.



Lemma handle_at_mqtt_publish_same_ctx : forall c,
  fn_preserves same_ctx (handle_at_mqtt_publish c).
Proof.
  intro c. unfold handle_at_mqtt_publish, publish_params, publish_common.
  frame; try solve [frame_goal].
  apply do_mqtt_publish_same_ctx.
Qed.

Lemma handle_at_mqtt_subscribe_same_ctx : forall c,
  fn_preserves same_ctx (handle_at_mqtt_subscribe c).
Proof.
  intro c. unfold handle_at_mqtt_subscribe.
  frame; try solve [frame_goal].
  apply do_mqtt_subscribe_same_ctx.
Qed.

Lemma handle_at_mqtt_unsubscribe_same_ctx : forall c,
  fn_preserves same_ctx (handle_at_mqtt_unsubscribe c).
Proof.
  intro c. unfold handle_at_mqtt_unsubscribe.
  frame; try solve [frame_goal].
  apply do_mqtt_subscribe_same_ctx.
Qed.

Lemma mqtt_datamode_callback_same_ctx : forall op d n,
  fn_preserves same_ctx (mqtt_datamode_callback op d n).
Proof.
  intros. unfold mqtt_datamode_callback.
  frame; try solve [frame_goal].
  apply do_mqtt_publish_same_ctx.
Qed.

Lemma mqtt_thread_turn_same_ctx : fn_preserves same_ctx mqtt_thread_turn.
Proof.
  intro s. unfold mqtt_thread_turn.
  match goal with |- same_ctx s (snd (let (r, s') := fn ?b s in _)) =>
    assert (H : fn_preserves same_ctx (fn b)) by (frame; frame_goal);
    specialize (H s); destruct (fn b s) end.
  exact H.
Qed.

End Frames.

(* ----------------------------------------------------------------- *)
(** ** Who writes the connected flag *)

Lemma set_trace_same : forall s, set_trace s (trace s) = s.
Proof. now destruct s. Qed.



Lemma mqtt_evt_handler_disconnect :
  forall (W : World) (evt : mqtt_evt) (s : state),
    type evt = MQTT_EVT_DISCONNECT ->
    connected (ctx (mqtt_evt_handler evt s)) = false.
Proof.
  intros W evt s Hty.
  destruct (mqtt_evt_handler_outcome W evt s)
    as [r [s1 [a [c [Ho [E [Ht [Hh Hcc]]]]]]]].
  rewrite Hcc. inversion Ho; subst; congruence.
Qed.



(* ----------------------------------------------------------------- *)
(** ** Connect *)

(** The three ways a connect attempt ends when no session is up. *)
Lemma do_mqtt_connect_cases :
  forall (W : World) (s : state),
    connected (ctx s) = false ->
    let resolve := getaddrinfo (cstr (mqtt_broker_url s)) (family (ctx s)) in
    let e1 := ext_ret (trace s) resolve in
    let pre := [resolve; freeaddrinfo; mqtt_client_init] in
    let r := fst (do_mqtt_connect s) in
    let s' := snd (do_mqtt_connect s) in
    (e1 <> 0 /\ r = e1 /\ connected (ctx s') = false
     /\ new_calls s s' = [resolve; LOG_ERR "ERROR: getaddrinfo failed %d" [e1]])
    \/
    (e1 = 0 /\
     let cl := client s' in
     let e2 := ext_ret (trace s ++ pre) (mqtt_connect cl) in
     (e2 <> 0 /\ r = e2 /\ connected (ctx s') = false
      /\ new_calls s s' =
           pre ++ [mqtt_connect cl; LOG_ERR "ERROR: mqtt_connect %d" [e2]])
     \/
     (e2 = 0 /\ r = 0 /\ connected (ctx s') = true
      /\ new_calls s s' = pre ++ [mqtt_connect cl; k_thread_create])).
Proof.
  intros W s Hc resolve e1 pre r s'. subst r s' pre e1 resolve.
  unfold do_mqtt_connect, broker_init, client_init. run_body. rewrite Hc. cbn.
  destruct (nonzero (ext_ret (trace s)
              (getaddrinfo (cstr (mqtt_broker_url s)) (family (ctx s))))) eqn:E1;
    cbn; rewrite ?E1; cbn.
  - left. split; [now apply nonzero_true_inv|].
    split; [reflexivity|]. split; [auto|].
    apply new_calls_app. cbn. now rewrite <- app_assoc.
  - right. split; [now apply nonzero_false_inv|].
    destruct (family (ctx s) =? AF_INET); cbn;
      rewrite <- !app_assoc; cbn;
      match goal with |- context [nonzero ?e] => destruct (nonzero e) eqn:E2 end;
      cbn; rewrite <- ?app_assoc; cbn.
    all: first
      [ left; split; [now apply nonzero_true_inv|];
        split; [reflexivity|]; split; [auto|];
        apply new_calls_app; cbn; rewrite <- ?app_assoc; reflexivity
      | right; split; [now apply nonzero_false_inv|];
        split; [reflexivity|]; split; [reflexivity|];
        apply new_calls_app; cbn; rewrite <- ?app_assoc; reflexivity ].
Qed.

(** C7: a connect attempt made when no session is up either returns 0,
    and then the flag is set and exactly one driver thread has been
    created, or returns the error of the resolver or of the handshake,
    and then the flag is still clear and no thread has been created.  It
    returns 0 exactly when the resolver and the handshake both succeed.
    An attempt made while a session is up returns [-EISCONN] and does
    nothing. *)
Theorem connect_attempt :
  forall (W : World) (s : state),
    let r := fst (do_mqtt_connect s) in
    let s' := snd (do_mqtt_connect s) in
    let resolve := getaddrinfo (cstr (mqtt_broker_url s)) (family (ctx s)) in
    let handshake := mqtt_connect (client s') in
    (connected (ctx s) = false ->
       (r = 0 ->
          connected (ctx s') = true /\ threads_created (new_calls s s') = 1%nat)
       /\
       (r <> 0 ->
          connected (ctx s') = false /\ threads_created (new_calls s s') = 0%nat)
       /\
       (r = 0 <->
          ext_ret (trace s) resolve = 0
          /\ ext_ret (trace s ++ [resolve; freeaddrinfo; mqtt_client_init])
               handshake = 0))
    /\
    (connected (ctx s) = true -> r = - EISCONN /\ s' = s).
Proof.
  intros W s r s' resolve handshake. split.
  - intro Hc.
    destruct (do_mqtt_connect_cases W s Hc)
      as [[E1 [Hr [Hf Hn]]] | [E1 [[E2 [Hr [Hf Hn]]] | [E2 [Hr [Hf Hn]]]]]];
      fold r s' resolve handshake in E1, Hr, Hf, Hn; cbv zeta in *;
      try fold r s' resolve handshake in E2.
    + rewrite Hn. split; [|split].
      * intro. congruence.
      * intro. split; [assumption|reflexivity].
      * split; [congruence|intros [? _]; congruence].
    + rewrite Hn. split; [|split].
      * intro. congruence.
      * intro. split; [assumption|reflexivity].
      * split; [congruence|intros [_ ?]; congruence].
    + rewrite Hn. split; [|split].
      * intro. split; [assumption|reflexivity].
      * intro. congruence.
      * split; [intro; split; assumption|intro; assumption].
  - intro Hc. subst r s'.
    rewrite (do_mqtt_connect_connected W s Hc). split; reflexivity.
Qed.

(** C7, witness: the first connect on [Concrete.s_init], with every
    collaborator succeeding and with the handshake failing. *)
Lemma connect_attempt_witness :
  let s := set_at_param_list Concrete.s_init [] in
  (connected (ctx (snd (do_mqtt_connect (W := Concrete.world Concrete.all_ok []) s)))
     = true
   /\ threads_created
        (new_calls s (snd (do_mqtt_connect (W := Concrete.world Concrete.all_ok []) s)))
      = 1%nat)
  /\
  (connected
     (ctx (snd (do_mqtt_connect
             (W := Concrete.world (Concrete.failing Concrete.is_mqtt_connect (-12)) [])
             s))) = false
   /\ threads_created
        (new_calls s
           (snd (do_mqtt_connect
              (W := Concrete.world (Concrete.failing Concrete.is_mqtt_connect (-12)) [])
              s))) = 0%nat).
Proof.
  intro s. split.
  - apply (connect_attempt (Concrete.world Concrete.all_ok []) s); reflexivity.
  - apply (connect_attempt
             (Concrete.world (Concrete.failing Concrete.is_mqtt_connect (-12)) [])
             s); [reflexivity|].
    vm_compute. discriminate.
Defined.

(* ----------------------------------------------------------------- *)
(** ** Publish and subscribe do not look at the connected flag *)

Section FlagBlind.

Context {W : World}.

Lemma flag_blind_ret : forall A (a : A), flag_blind (ret a).
Proof. intros A a s b. reflexivity. Qed.

Lemma flag_blind_return : forall A (r : Z), flag_blind (@return_ A r).
Proof. intros A r s b. reflexivity. Qed.

Lemma flag_blind_gets : forall A (f : state -> A),
  (forall s b, f (with_flag s b) = f s) -> flag_blind (gets f).
Proof. intros A f H s b. unfold gets. cbn. now rewrite H. Qed.

Lemma flag_blind_modify : forall f,
  (forall s b, f (with_flag s b) = with_flag (f s) b) -> flag_blind (modify f).
Proof. intros f H s b. unfold modify. cbn. now rewrite H. Qed.

Lemma flag_blind_call : forall c, flag_blind (call c).
Proof. intros c s b. reflexivity. Qed.

Lemma flag_blind_call_ : forall c, flag_blind (call_ c).
Proof. intros c s b. reflexivity. Qed.

Lemma flag_blind_bind : forall A B (m : M A) (k : A -> M B),
  flag_blind m -> (forall a, flag_blind (k a)) -> flag_blind (bind m k).
Proof.
  intros A B m k Hm Hk s b. unfold bind. rewrite Hm.
  destruct (m s) as [[a|r] s1]; cbn.
  - apply Hk.
  - reflexivity.
Qed.

Lemma flag_blind_when : forall (c : bool) (m : M unit),
  flag_blind m -> flag_blind (when c m).
Proof. intros [|] m H; [exact H|apply flag_blind_ret]. Qed.

Lemma flag_blind_fn : forall (body : M Z),
  flag_blind body -> fn_flag_blind (fn body).
Proof.
  intros body H s b. unfold fn. rewrite H.
  now destruct (body s) as [[a|r] s1].
Qed.

Lemma flag_blind_lift : forall A (f : state -> A * state),
  fn_flag_blind f -> flag_blind (lift f).
Proof.
  intros A f H s b. unfold lift. rewrite H.
  now destruct (f s) as [a s1].
Qed.

Lemma flag_blind_string_get : forall index rd wr cap,
  (forall s b, rd (with_flag s b) = rd s) ->
  (forall s b v, wr (with_flag s b) v = with_flag (wr s v) b) ->
  flag_blind (string_get index rd wr cap).
Proof.
  intros index rd wr cap Hrd Hwr s b. unfold string_get. rewrite Hrd.
  cbn [at_param_list with_flag set_ctx].
  destruct (util_string_get (at_param_list s) index (rd s) cap) as [[e v] n].
  cbn. now rewrite Hwr.
Qed.

End FlagBlind.

Ltac flag_blind_step :=
  match goal with
  | |- flag_blind (bind _ _) => apply flag_blind_bind; [|intros]
  | |- flag_blind (ret _) => apply flag_blind_ret
  | |- flag_blind (return_ _) => apply flag_blind_return
  | |- flag_blind (call _) => apply flag_blind_call
  | |- flag_blind (call_ _) => apply flag_blind_call_
  | |- flag_blind (when _ _) => apply flag_blind_when
  | |- flag_blind (lift _) => apply flag_blind_lift
  | |- flag_blind (sprintf_rsp_buf _) =>
      unfold sprintf_rsp_buf; apply flag_blind_modify; intros; reflexivity
  | |- flag_blind rsp_send_rsp_buf => unfold rsp_send_rsp_buf, do_rsp_send
  | |- flag_blind (unsigned_short_get _) =>
      apply flag_blind_gets; intros; reflexivity
  | |- flag_blind valid_count_get => apply flag_blind_gets; intros; reflexivity
  | |- flag_blind (type_get _) => apply flag_blind_gets; intros; reflexivity
  | |- flag_blind (string_get_local _ _) =>
      apply flag_blind_gets; intros; reflexivity
  | |- flag_blind (string_get _ _ _ _) =>
      apply flag_blind_string_get; intros; reflexivity
  | |- flag_blind (gets _) => apply flag_blind_gets; intros; reflexivity
  | |- flag_blind (modify _) => apply flag_blind_modify; intros; reflexivity
  | |- fn_flag_blind (fn _) => apply flag_blind_fn
  | |- flag_blind (if ?c then _ else _) => destruct c
  | |- flag_blind (match ?x with _ => _ end) => destruct x
  end.

Ltac flag_blindness := repeat flag_blind_step.

Section FlagBlindFunctions.

Context {W : World}.

Lemma do_mqtt_publish_flag_blind : forall msg n,
  fn_flag_blind (do_mqtt_publish msg n).
Proof. intros. unfold do_mqtt_publish. flag_blindness. Qed.

Lemma do_mqtt_subscribe_flag_blind : forall op t n q,
  fn_flag_blind (do_mqtt_subscribe op t n q).
Proof. intros. unfold do_mqtt_subscribe. flag_blindness. Qed.

Lemma handle_at_mqtt_publish_flag_blind : forall c,
  fn_flag_blind (handle_at_mqtt_publish c).
Proof.
  intro c. unfold handle_at_mqtt_publish, publish_params, publish_common.
  flag_blindness. apply do_mqtt_publish_flag_blind.
Qed.

Lemma handle_at_mqtt_subscribe_flag_blind : forall c,
  fn_flag_blind (handle_at_mqtt_subscribe c).
Proof.
  intro c. unfold handle_at_mqtt_subscribe.
  flag_blindness. apply do_mqtt_subscribe_flag_blind.
Qed.

Lemma handle_at_mqtt_unsubscribe_flag_blind : forall c,
  fn_flag_blind (handle_at_mqtt_unsubscribe c).
Proof.
  intro c. unfold handle_at_mqtt_unsubscribe.
  flag_blindness. apply do_mqtt_subscribe_flag_blind.
Qed.

End FlagBlindFunctions.

(** C9: publish, subscribe and unsubscribe never test the connected
    flag.  In any state, connected or not, [do_mqtt_publish] calls the
    engine's publish and returns its answer; [do_mqtt_subscribe] with a
    qos of at most 2 calls the engine's subscribe, or unsubscribe, and
    returns its answer; and the three command handlers run the same, with
    the same calls and the same result, whatever the flag is. *)
Theorem publish_subscribe_ignore_connected :
  forall (W : World),
    (forall s msg n,
       let p := pp_set_payload (pub_param s) {| data := msg; len := n |} in
       do_mqtt_publish msg n s =
         (ext_ret (trace s) (mqtt_publish p),
          set_trace (set_pub_param s p) (trace s ++ [mqtt_publish p])))
    /\
    (forall s topic_buf n qos,
       0 <= qos <= 2 ->
       let id := next_message_id (sub_message_id s) in
       let l := one_topic topic_buf n qos id in
       do_mqtt_subscribe AT_MQTTSUB_SUB topic_buf n qos s =
         (ext_ret (trace s) (mqtt_subscribe l),
          set_trace (set_sub_message_id s id) (trace s ++ [mqtt_subscribe l])))
    /\
    (forall s topic_buf n,
       let id := next_message_id (sub_message_id s) in
       let l := one_topic topic_buf n 0 id in
       do_mqtt_subscribe AT_MQTTSUB_UNSUB topic_buf n 0 s =
         (ext_ret (trace s) (mqtt_unsubscribe l),
          set_trace (set_sub_message_id s id) (trace s ++ [mqtt_unsubscribe l])))
    /\
    (forall c s b,
       handle_at_mqtt_publish c (with_flag s b) =
         (fst (handle_at_mqtt_publish c s),
          with_flag (snd (handle_at_mqtt_publish c s)) b)
       /\ handle_at_mqtt_subscribe c (with_flag s b) =
         (fst (handle_at_mqtt_subscribe c s),
          with_flag (snd (handle_at_mqtt_subscribe c s)) b)
       /\ handle_at_mqtt_unsubscribe c (with_flag s b) =
         (fst (handle_at_mqtt_unsubscribe c s),
          with_flag (snd (handle_at_mqtt_unsubscribe c s)) b)).
Proof.
  intro W. split; [|split; [|split]].
  - intros s msg n p. subst p. unfold do_mqtt_publish. run_body. reflexivity.
  - intros s topic_buf n qos Hq id l. subst l id.
    unfold do_mqtt_subscribe, one_topic. run_body.
    assert (E : (qos <=? MQTT_QOS_2_EXACTLY_ONCE) = true)
      by (apply Z.leb_le; unfold MQTT_QOS_2_EXACTLY_ONCE; lia).
    rewrite E. cbn. reflexivity.
  - intros s topic_buf n id l. subst l id.
    unfold do_mqtt_subscribe, one_topic. run_body. reflexivity.
  - intros c s b. split; [|split].
    + apply handle_at_mqtt_publish_flag_blind.
    + apply handle_at_mqtt_subscribe_flag_blind.
    + apply handle_at_mqtt_unsubscribe_flag_blind.
Qed.

(** C9, witness: a subscribe with qos 1 before any session; the engine
    answers [-ENOTCONN] and that is what is returned. *)
Lemma publish_subscribe_ignore_connected_witness :
  let W := Concrete.world (fun _ _ => -128) [] in
  let s := Concrete.s_init in
  connected (ctx s) = false
  /\ do_mqtt_subscribe AT_MQTTSUB_SUB (P_bytes (str "t/1")) 3 1 s =
       (-128,
        set_trace (set_sub_message_id s 1)
          [mqtt_subscribe (one_topic (P_bytes (str "t/1")) 3 1 1)]).
Proof.
  intros W s. split; [reflexivity|].
  destruct (publish_subscribe_ignore_connected W) as [_ [Hsub _]].
  rewrite (Hsub s (P_bytes (str "t/1")) 3%nat 1); [reflexivity|lia].
Defined.

(* ----------------------------------------------------------------- *)
(** ** Invalid arguments *)

(** C5, counterexample: right after initialisation, a subscribe with
    qos 3 leaves the subscribe message id at 1, and a publish command with
    qos 3 leaves its topic in [pub_topic]. *)
Lemma invalid_qos_changes_state :
  let W := Concrete.world Concrete.all_ok [] in
  ~ rejected_without_effect W
      (do_mqtt_subscribe AT_MQTTSUB_SUB (P_bytes (str "t/1")) 3 3)
      Concrete.s_init
  /\
  ~ rejected_without_effect W
      (handle_at_mqtt_publish AT_CMD_TYPE_SET_COMMAND)
      (set_at_param_list Concrete.s_init publish_qos3).
Proof.
  intro W. unfold rejected_without_effect. split; intro H.
  - apply (f_equal (fun x => sub_message_id (snd x))) in H.
    vm_compute in H. discriminate H.
  - apply (f_equal (fun x => firstn 3 (pub_topic (snd x)))) in H.
    vm_compute in H. discriminate H.
Qed.

#[local] Instance only_pub_buffers_frame : Frame only_pub_buffers.
Proof.
  split; unfold only_pub_buffers.
  - intro s. exists (pub_topic s), (pub_msg s). now destruct s.
  - intros s1 s2 s3 [t1 [m1 ->]] [t2 [m2 ->]]. now exists t2, m2.
Qed.

Lemma publish_params_only_pub_buffers : forall (W : World) (count : Z),
  preserves only_pub_buffers (publish_params count).
Proof.
  intros W count. unfold publish_params. frame.
  all: unfold only_pub_buffers; cbn.
  - exists b, (pub_msg s). now destruct s.
  - exists (pub_topic s), (store0 (pub_msg s) NUL). now destruct s.
  - exists (pub_topic s), b. now destruct s.
Qed.

Lemma publish_common_invalid_qos :
  forall (W : World) (qos retain : Z) (topic_sz msg_sz : nat) (s : state),
    2 < qos ->
    publish_common qos retain topic_sz msg_sz s = (Return (- EINVAL), s).
Proof.
  intros W qos retain topic_sz msg_sz s H. unfold publish_common. run_body.
  assert (E : (qos <=? MQTT_QOS_2_EXACTLY_ONCE) = false)
    by (apply Z.leb_gt; unfold MQTT_QOS_2_EXACTLY_ONCE; lia).
  now rewrite E.
Qed.

Lemma publish_common_invalid_retain :
  forall (W : World) (qos retain : Z) (topic_sz msg_sz : nat) (s : state),
    qos <= 2 -> 1 < retain ->
    publish_common qos retain topic_sz msg_sz s =
      (Return (- EINVAL),
       set_pub_param s (pp_set_topic_qos (pub_param s) (u8 qos))).
Proof.
  intros W qos retain topic_sz msg_sz s Hq Hr. unfold publish_common. run_body.
  assert (E : (qos <=? MQTT_QOS_2_EXACTLY_ONCE) = true)
    by (apply Z.leb_le; unfold MQTT_QOS_2_EXACTLY_ONCE; lia).
  assert (E' : (retain <=? 1) = false) by (apply Z.leb_gt; lia).
  rewrite E. cbn. now rewrite E'.
Qed.

Lemma do_mqtt_subscribe_invalid_qos :
  forall (W : World) (op : Z) (topic_buf : ptr) (n : nat) (qos : Z) (s : state),
    2 < qos ->
    do_mqtt_subscribe op topic_buf n qos s =
      (- EINVAL, set_sub_message_id s (next_message_id (sub_message_id s))).
Proof.
  intros W op topic_buf n qos s H. unfold do_mqtt_subscribe. run_body.
  assert (E : (qos <=? MQTT_QOS_2_EXACTLY_ONCE) = false)
    by (apply Z.leb_gt; unfold MQTT_QOS_2_EXACTLY_ONCE; lia).
  now rewrite E.
Qed.

(** C5, as the code has it.  A subscribe or unsubscribe with a qos above
    2 fails with [-EINVAL] and calls no collaborator; no static other
    than the subscribe message id differs afterwards.  The checks of a
    publish command fail with [-EINVAL] for a qos above 2, changing
    nothing, and for a retain above 1, having stored the qos; so a publish
    command whose parameters were read and are out of range fails with
    [-EINVAL], calls no collaborator and leaves the publish message id,
    the subscribe message id, the session context and the client alone:
    only the buffers that received its topic and message, and the stored
    qos, may differ. *)
Theorem invalid_arguments :
  forall (W : World),
    (forall s op topic_buf n qos,
       2 < qos ->
       exists id,
         do_mqtt_subscribe op topic_buf n qos s =
           (- EINVAL, set_sub_message_id s id))
    /\
    (forall s topic n e1 e2 q,
       at_params_valid_count_get (at_param_list s) = 3 ->
       util_string_get (at_param_list s) 1 (uninit MQTT_MAX_TOPIC_LEN)
         MQTT_MAX_TOPIC_LEN = (e1, topic, n) ->
       at_params_unsigned_short_get (at_param_list s) 2 = (e2, q) ->
       0 <= e1 -> 0 <= e2 -> 2 < u16 q ->
       exists id,
         handle_at_mqtt_subscribe AT_CMD_TYPE_SET_COMMAND s =
           (- EINVAL, set_sub_message_id s id))
    /\
    (forall s qos retain topic_sz msg_sz,
       2 < qos ->
       publish_common qos retain topic_sz msg_sz s = (Return (- EINVAL), s))
    /\
    (forall s qos retain topic_sz msg_sz,
       qos <= 2 -> 1 < retain ->
       publish_common qos retain topic_sz msg_sz s =
         (Return (- EINVAL),
          set_pub_param s (pp_set_topic_qos (pub_param s) (u8 qos))))
    /\
    (forall s s1 qos retain topic_sz msg_sz,
       publish_params (u16 (at_params_valid_count_get (at_param_list s))) s =
         (Next (qos, retain, topic_sz, msg_sz), s1) ->
       2 < qos \/ 1 < retain ->
       let (r, s') := handle_at_mqtt_publish AT_CMD_TYPE_SET_COMMAND s in
       r = - EINVAL /\ publish_untouched s s').
Proof.
  intro W. split; [|split; [|split; [|split]]].
  - intros s op topic_buf n qos Hq. eexists.
    now apply do_mqtt_subscribe_invalid_qos.
  - intros s topic n e1 e2 q Hcount Htopic Hq He1 He2 Hbad. eexists.
    unfold handle_at_mqtt_subscribe, valid_count_get, string_get_local,
      unsigned_short_get.
    run_body. rewrite Hcount. cbn. cbn in Htopic. rewrite Htopic. cbn.
    assert (E1 : (e1 <? 0) = false) by (apply Z.ltb_ge; lia).
    assert (E2 : (e2 <? 0) = false) by (apply Z.ltb_ge; lia).
    rewrite E1. cbn. rewrite Hq. cbn. rewrite E2. cbn.
    rewrite (do_mqtt_subscribe_invalid_qos W _ _ _ _ _ Hbad). reflexivity.
  - intros. now apply publish_common_invalid_qos.
  - intros. now apply publish_common_invalid_retain.
  - intros s s1 qos retain topic_sz msg_sz Hp Hbad.
    pose proof (publish_params_only_pub_buffers W
                  (u16 (at_params_valid_count_get (at_param_list s))) s) as Hf.
    rewrite Hp in Hf. cbn in Hf. destruct Hf as [t [m ->]].
    unfold handle_at_mqtt_publish, valid_count_get, fn.
    unfold bind at 1. unfold gets at 1. unfold bind at 1. rewrite Hp.
    destruct (Z.lt_ge_cases 2 qos) as [Hq|Hq].
    + rewrite publish_common_invalid_qos by assumption.
      split; [reflexivity|]. unfold publish_untouched. cbn. tauto.
    + destruct Hbad as [Hbad|Hbad]; [lia|].
      rewrite publish_common_invalid_retain by assumption.
      split; [reflexivity|]. unfold publish_untouched. cbn. tauto.
Qed.

(** C5, witness: the subscribe with qos 3 and the publish command with
    qos 3, right after initialisation. *)
Lemma invalid_arguments_witness :
  let W := Concrete.world Concrete.all_ok [] in
  let s := set_at_param_list Concrete.s_init publish_qos3 in
  (exists id,
     do_mqtt_subscribe AT_MQTTSUB_SUB (P_bytes (str "t/1")) 3 3 Concrete.s_init =
       (-22, set_sub_message_id Concrete.s_init id))
  /\ fst (handle_at_mqtt_publish AT_CMD_TYPE_SET_COMMAND s) = -22
  /\ trace (snd (handle_at_mqtt_publish AT_CMD_TYPE_SET_COMMAND s)) = trace s.
Proof.
  intros W s.
  destruct (invalid_arguments W) as [Hsub [_ [_ [_ Hpub]]]].
  split.
  - apply (Hsub Concrete.s_init AT_MQTTSUB_SUB (P_bytes (str "t/1")) 3%nat 3).
    reflexivity.
  - specialize (Hpub s
      (snd (publish_params (u16 (at_params_valid_count_get (at_param_list s))) s))
      3 0 3%nat 5%nat).
    destruct (handle_at_mqtt_publish AT_CMD_TYPE_SET_COMMAND s) as [r s'].
    destruct Hpub as [Hr [Ht _]].
    + vm_compute. reflexivity.
    + left. reflexivity.
    + split; [exact Hr|exact Ht].
Defined.

(* ----------------------------------------------------------------- *)
(** ** Message ids *)

Lemma iter_add : forall (f : Z -> Z) (n m : nat) (x : Z),
  Nat.iter m f (Nat.iter n f x) = Nat.iter (m + n) f x.
Proof. intros f n m x. symmetry. apply Nat.iter_add. Qed.

#[local] Instance ids_advance_frame : Frame ids_advance.
Proof.
  split; unfold ids_advance.
  - intro s. split; exists O; reflexivity.
  - intros s1 s2 s3 [[n1 H1] [m1 H1']] [[n2 H2] [m2 H2']]. split.
    + exists (n2 + n1)%nat. now rewrite H2, H1, iter_add.
    + exists (m2 + m1)%nat. now rewrite H2', H1', iter_add.
Qed.

#[local] Instance ids_advance_blind : Blind ids_advance.
Proof. split; unfold ids_advance; cbn; split; exists O; reflexivity. Qed.

Ltac ids_goal :=
  unfold ids_advance; cbn;
  split; first [ exists O; reflexivity | exists 1%nat; reflexivity ].

Section Ids.

Context {W : World}.

Lemma handle_at_mqtt_connect_ids : forall c,
  fn_preserves ids_advance (handle_at_mqtt_connect c).
Proof.
  intro c.
  unfold handle_at_mqtt_connect, do_mqtt_connect, do_mqtt_disconnect,
    broker_init, client_init, slm_at_mqtt_uninit.
  frame; ids_goal.
Qed.

Lemma handle_at_mqtt_publish_ids : forall c,
  fn_preserves ids_advance (handle_at_mqtt_publish c).
Proof.
  intro c.
  unfold handle_at_mqtt_publish, publish_params, publish_common, do_mqtt_publish.
  frame; ids_goal.
Qed.

Lemma handle_at_mqtt_subscribe_ids : forall c,
  fn_preserves ids_advance (handle_at_mqtt_subscribe c).
Proof.
  intro c. unfold handle_at_mqtt_subscribe, do_mqtt_subscribe.
  frame; ids_goal.
Qed.

Lemma handle_at_mqtt_unsubscribe_ids : forall c,
  fn_preserves ids_advance (handle_at_mqtt_unsubscribe c).
Proof.
  intro c. unfold handle_at_mqtt_unsubscribe, do_mqtt_subscribe.
  frame; ids_goal.
Qed.

Lemma mqtt_datamode_callback_ids : forall op d n,
  fn_preserves ids_advance (mqtt_datamode_callback op d n).
Proof.
  intros. unfold mqtt_datamode_callback, do_mqtt_publish.
  frame; ids_goal.
Qed.

Lemma mqtt_evt_handler_ids : forall evt s,
  ids_advance s (mqtt_evt_handler evt s).
Proof.
  intros evt s. unfold mqtt_evt_handler.
  match goal with |- ids_advance s (snd (fn ?b s)) =>
    assert (H : fn_preserves ids_advance (fn b)) end.
  { unfold mqtt_evt_switch, handle_mqtt_publish_evt, publish_get_payload.
    frame; ids_goal. }
  apply H.
Qed.

Lemma mqtt_thread_turn_ids : fn_preserves ids_advance mqtt_thread_turn.
Proof.
  intro s. unfold mqtt_thread_turn.
  match goal with |- ids_advance s (snd (let (r, s') := fn ?b s in _)) =>
    assert (H : fn_preserves ids_advance (fn b)) by (frame; ids_goal);
    specialize (H s); destruct (fn b s) end.
  exact H.
Qed.

Lemma slm_at_mqtt_uninit_ids : fn_preserves ids_advance slm_at_mqtt_uninit.
Proof. unfold slm_at_mqtt_uninit. frame; ids_goal. Qed.

Lemma run_ids : forall o s, ids_advance s (run o s).
Proof.
  intros o s. destruct o; cbn [run].
  - apply (handle_at_mqtt_connect_ids cmd_type (set_at_param_list s params)).
  - apply (handle_at_mqtt_publish_ids cmd_type (set_at_param_list s params)).
  - apply (handle_at_mqtt_subscribe_ids cmd_type (set_at_param_list s params)).
  - apply (handle_at_mqtt_unsubscribe_ids cmd_type (set_at_param_list s params)).
  - apply mqtt_datamode_callback_ids.
  - apply mqtt_evt_handler_ids.
  - apply mqtt_thread_turn_ids.
  - apply slm_at_mqtt_uninit_ids.
Qed.

End Ids.

Lemma next_message_id_follows : forall id,
  0 <= id <= 65534 -> follows id (next_message_id id).
Proof.
  intros id H. unfold follows, next_message_id, u16, UINT16_MAX.
  rewrite Z.mod_small by lia.
  destruct (Z.eqb_spec (id + 1) 65535); lia.
Qed.

Lemma iter_next_message_id_range : forall n id,
  0 <= id <= 65534 -> 0 <= Nat.iter n next_message_id id <= 65534.
Proof.
  induction n as [|n IH]; intros id H.
  - exact H.
  - change (Nat.iter (S n) next_message_id id)
      with (next_message_id (Nat.iter n next_message_id id)).
    destruct (next_message_id_follows _ (IH id H)) as [Hr _]. lia.
Qed.

(** In every reachable state the two ids are below [UINT16_MAX]. *)
Lemma reachable_ids_range : forall (W : World) (s : state),
  reachable s ->
  0 <= message_id (pub_param s) <= 65534 /\ 0 <= sub_message_id s <= 65534.
Proof.
  intros W s H. induction H as [rsp|o s H IH].
  - cbn. lia.
  - destruct (run_ids o s) as [[n Hn] [m Hm]]. rewrite Hn, Hm.
    destruct IH as [IH1 IH2].
    split; now apply iter_next_message_id_range.
Qed.

(** The checks of the publish command: when they pass, the publish id is
    the next one; when they do not, it is as before.  The subscribe id is
    as before in both cases. *)
Lemma publish_common_ids :
  forall (W : World) (qos retain : Z) (topic_sz msg_sz : nat) (s : state),
    let (o, s') := publish_common qos retain topic_sz msg_sz s in
    sub_message_id s' = sub_message_id s
    /\ match o with
       | Next _ =>
           message_id (pub_param s') = next_message_id (message_id (pub_param s))
       | Return _ => message_id (pub_param s') = message_id (pub_param s)
       end.
Proof.
  intros W qos retain topic_sz msg_sz s.
  unfold publish_common, do_mqtt_publish. run_body.
  destruct (qos <=? MQTT_QOS_2_EXACTLY_ONCE); cbn; [|auto].
  destruct (retain <=? 1); cbn; [|auto].
  destruct (strlen (pub_msg s) =? 0)%nat; cbn; auto.
Qed.

(** The set command of [handle_at_mqtt_publish], part by part. *)
Lemma handle_at_mqtt_publish_set : forall (W : World) (s : state),
  handle_at_mqtt_publish AT_CMD_TYPE_SET_COMMAND s =
    match publish_params (u16 (at_params_valid_count_get (at_param_list s))) s with
    | (Next (qos, retain, topic_sz, msg_sz), s1) =>
        fn (publish_common qos retain topic_sz msg_sz) s1
    | (Return r, s1) => (r, s1)
    end.
Proof.
  intros W s. unfold handle_at_mqtt_publish, fn, valid_count_get.
  unfold bind at 1. unfold gets at 1. unfold bind at 1.
  destruct (publish_params (u16 (at_params_valid_count_get (at_param_list s))) s)
    as [[[[[q r] t] m]|r] s1]; reflexivity.
Qed.

Lemma handle_at_mqtt_publish_ids_step :
  forall (W : World) (c : at_cmd_type) (s : state),
    let s' := snd (handle_at_mqtt_publish c s) in
    sub_message_id s' = sub_message_id s
    /\ (message_id (pub_param s') = message_id (pub_param s)
        \/ message_id (pub_param s') = next_message_id (message_id (pub_param s))).
Proof.
  intros W c s s'. subst s'.
  destruct c; try (cbn; auto; fail).
  rewrite handle_at_mqtt_publish_set.
  pose proof (publish_params_only_pub_buffers W
                (u16 (at_params_valid_count_get (at_param_list s))) s) as Hf.
  destruct (publish_params (u16 (at_params_valid_count_get (at_param_list s))) s)
    as [[[[[q r] t] m]|r] s1].
  - cbn in Hf. destruct Hf as [t' [m' ->]]. unfold fn.
    pose proof (publish_common_ids W q r t m
                  (set_pub_msg (set_pub_topic s t') m')) as Hc.
    destruct (publish_common q r t m (set_pub_msg (set_pub_topic s t') m'))
      as [[a|r'] s2]; cbn in *; destruct Hc as [-> ->]; auto.
  - cbn in Hf. destruct Hf as [t' [m' ->]]. cbn. auto.
Qed.

Lemma do_mqtt_subscribe_ids_step :
  forall (W : World) (op : Z) (topic_buf : ptr) (n : nat) (qos : Z) (s : state),
    let s' := snd (do_mqtt_subscribe op topic_buf n qos s) in
    message_id (pub_param s') = message_id (pub_param s)
    /\ sub_message_id s' = next_message_id (sub_message_id s).
Proof.
  intros W op topic_buf n qos s. unfold do_mqtt_subscribe. run_body.
  destruct (qos <=? MQTT_QOS_2_EXACTLY_ONCE); cbn; [|auto].
  destruct (op =? 1); cbn; [auto|].
  destruct (op =? 0); cbn; auto.
Qed.

(** Running a body to its leaves. *)
Ltac crunch :=
  repeat (cbn;
          match goal with
          | |- context [match ?x with _ => _ end] =>
              lazymatch x with
              | context [match _ with _ => _ end] => fail
              | _ => destruct x
              end
          end).

Lemma handle_at_mqtt_subscribe_ids_step :
  forall (W : World) (c : at_cmd_type) (s : state),
    let s' := snd (handle_at_mqtt_subscribe c s) in
    message_id (pub_param s') = message_id (pub_param s)
    /\ (sub_message_id s' = sub_message_id s
        \/ sub_message_id s' = next_message_id (sub_message_id s)).
Proof.
  intros W c s s'. subst s'.
  unfold handle_at_mqtt_subscribe, do_mqtt_subscribe, valid_count_get,
    string_get_local, unsigned_short_get.
  run_body. crunch; auto.
Qed.

Lemma handle_at_mqtt_unsubscribe_ids_step :
  forall (W : World) (c : at_cmd_type) (s : state),
    let s' := snd (handle_at_mqtt_unsubscribe c s) in
    message_id (pub_param s') = message_id (pub_param s)
    /\ (sub_message_id s' = sub_message_id s
        \/ sub_message_id s' = next_message_id (sub_message_id s)).
Proof.
  intros W c s s'. subst s'.
  unfold handle_at_mqtt_unsubscribe, do_mqtt_subscribe, valid_count_get,
    string_get_local.
  run_body. crunch; auto.
Qed.

(** C4, counterexample: with the subscribe id at 65534, where 65534
    subscribes lead, the next subscribe takes the id 1: the counter is
    reset when it reaches 65535, not when it has wrapped to 0, so the id
    65535 the specification has next is never handed out. *)
Lemma id_65535_is_never_allocated :
  ~ allocates_as_specified (Concrete.world Concrete.all_ok [])
      (set_sub_message_id Concrete.s_connected 65534).
Proof.
  unfold allocates_as_specified. intros [H _].
  specialize (H AT_MQTTSUB_SUB NULL 0%nat 0).
  vm_compute in H. discriminate H.
Qed.

(** C4, as the code has it: in every state the module can reach, the
    publish id and the subscribe id are between 0 and 65534.  A publish
    command that passes its checks takes as publish id the id that
    follows the current one, and every subscribe or unsubscribe takes as
    subscribe id the id that follows the current one: one more, or 1
    after 65534, so never 0 and never 65535.  A publish command leaves
    the subscribe id alone, a subscribe or unsubscribe command leaves the
    publish id alone, and each command allocates at most once. *)
Theorem message_id_allocation :
  forall (W : World) (s : state),
    reachable s ->
    let p := message_id (pub_param s) in
    let q := sub_message_id s in
    (0 <= p <= 65534 /\ 0 <= q <= 65534)
    /\
    (forall qos retain topic_sz msg_sz a s',
       publish_common qos retain topic_sz msg_sz s = (Next a, s') ->
       follows p (message_id (pub_param s')) /\ sub_message_id s' = q)
    /\
    (forall op topic_buf n qos,
       let s' := snd (do_mqtt_subscribe op topic_buf n qos s) in
       follows q (sub_message_id s') /\ message_id (pub_param s') = p)
    /\
    (forall c params,
       let s' := run (AT_XMQTTPUB c params) s in
       sub_message_id s' = q
       /\ (message_id (pub_param s') = p \/ follows p (message_id (pub_param s'))))
    /\
    (forall c params,
       let s' := run (AT_XMQTTSUB c params) s in
       message_id (pub_param s') = p
       /\ (sub_message_id s' = q \/ follows q (sub_message_id s')))
    /\
    (forall c params,
       let s' := run (AT_XMQTTUNSUB c params) s in
       message_id (pub_param s') = p
       /\ (sub_message_id s' = q \/ follows q (sub_message_id s'))).
Proof.
  intros W s Hreach p q.
  destruct (reachable_ids_range W s Hreach) as [Hp Hq]. fold p in Hp. fold q in Hq.
  split; [auto|].
  split; [|split; [|split; [|split]]].
  - intros qos retain topic_sz msg_sz a s' E.
    pose proof (publish_common_ids W qos retain topic_sz msg_sz s) as H.
    rewrite E in H. destruct H as [H1 H2]. split; [|exact H1].
    rewrite H2. now apply next_message_id_follows.
  - intros op topic_buf n qos s'.
    destruct (do_mqtt_subscribe_ids_step W op topic_buf n qos s) as [H1 H2].
    subst s'. split; [|exact H1].
    rewrite H2. now apply next_message_id_follows.
  - intros c params s'.
    destruct (handle_at_mqtt_publish_ids_step W c (set_at_param_list s params))
      as [H1 H2].
    subst s'. cbn [run]. split; [exact H1|].
    destruct H2 as [H2|H2]; [left; exact H2|right].
    rewrite H2. now apply next_message_id_follows.
  - intros c params s'.
    destruct (handle_at_mqtt_subscribe_ids_step W c (set_at_param_list s params))
      as [H1 H2].
    subst s'. cbn [run]. split; [exact H1|].
    destruct H2 as [H2|H2]; [left; exact H2|right].
    rewrite H2. now apply next_message_id_follows.
  - intros c params s'.
    destruct (handle_at_mqtt_unsubscribe_ids_step W c (set_at_param_list s params))
      as [H1 H2].
    subst s'. cbn [run]. split; [exact H1|].
    destruct H2 as [H2|H2]; [left; exact H2|right].
    rewrite H2. now apply next_message_id_follows.
Qed.

(** The first ids, and the id after the last one. *)
Example next_message_id_first : next_message_id 0 = 1.
Proof. reflexivity. Qed.

Example next_message_id_wraps : next_message_id 65534 = 1.
Proof. reflexivity. Qed.

(** C4, witness: after a connect and two subscribes, a publish command
    takes publish id 1 and leaves the subscribe id at 2. *)
Lemma message_id_allocation_witness :
  let W := Concrete.world Concrete.all_ok [] in
  let s :=
    run_all [AT_XMQTTSUB AT_CMD_TYPE_SET_COMMAND subscribe_t1;
             AT_XMQTTSUB AT_CMD_TYPE_SET_COMMAND subscribe_t1]
      Concrete.s_connected in
  let s' := run (AT_XMQTTPUB AT_CMD_TYPE_SET_COMMAND publish_hello) s in
  sub_message_id s = 2
  /\ sub_message_id s' = sub_message_id s
  /\ (message_id (pub_param s') = message_id (pub_param s)
      \/ follows (message_id (pub_param s)) (message_id (pub_param s')))
  /\ message_id (pub_param s') = 1.
Proof.
  intros W s s'.
  assert (Hreach : reachable s).
  { subst s. unfold run_all. cbn [fold_left].
    do 3 apply reachable_run. apply (reachable_init (W := W) []). }
  destruct (message_id_allocation W s Hreach) as [_ [_ [_ [Hpub _]]]].
  destruct (Hpub AT_CMD_TYPE_SET_COMMAND publish_hello) as [H1 H2].
  split; [reflexivity|]. split; [exact H1|]. split; [exact H2|reflexivity].
Defined.

(* ================================================================= *)
(** * Further properties *)

Lemma skipn_exact : forall (A : Type) (t l : list A),
  skipn (length t) (t ++ l) = l.
Proof.
  intros A t l. now rewrite skipn_app, skipn_all, Nat.sub_diag.
Qed.

(** Reading the new calls off a computed trace. *)
Ltac new_calls_norm :=
  unfold new_calls; cbn;
  rewrite <- ?app_assoc; cbn;
  rewrite ?skipn_exact, ?skipn_all.

(* ----------------------------------------------------------------- *)
(** ** The driver thread *)

(** The turn of the loop changes nothing but the trace. *)
Lemma mqtt_thread_turn_only_trace : forall (W : World) (s : state),
  snd (mqtt_thread_turn s) = set_trace s (trace (snd (mqtt_thread_turn s)))
  /\ exists l, trace (snd (mqtt_thread_turn s)) = trace s ++ l.
Proof.
  intros W s. unfold mqtt_thread_turn. run_body.
  crunch; cbn; rewrite <- ?app_assoc; (split; [reflexivity|eexists; reflexivity]).
Qed.

(** Running a body to its leaves, keeping what each test found. *)
Ltac crunch_eq :=
  repeat (cbn;
          match goal with
          | |- context [match ?x with _ => _ end] =>
              lazymatch x with
              | context [match _ with _ => _ end] => fail
              | _ => destruct x eqn:?
              end
          end).

Ltac bool_hyps :=
  repeat match goal with
    | H : (_ <? _) = true |- _ => apply Z.ltb_lt in H
    | H : (_ <? _) = false |- _ => apply Z.ltb_ge in H
    | H : (_ <=? _) = true |- _ => apply Z.leb_le in H
    | H : (_ <=? _) = false |- _ => apply Z.leb_gt in H
    | H : (_ =? _) = true |- _ => apply Z.eqb_eq in H
    | H : (_ =? _) = false |- _ => apply Z.eqb_neq in H
    | H : nonzero _ = true |- _ => apply nonzero_true_inv in H
    | H : nonzero _ = false |- _ => apply nonzero_false_inv in H
    end.

(** X1: a driver thread that finds the connected flag clear at the top of
    its loop terminates at once: it logs, and calls neither the socket
    layer nor the engine. *)
Theorem driver_exits_when_flag_clear :
  forall (W : World) (turns : nat) (s : state),
    connected (ctx s) = false ->
    mqtt_thread_fn (S turns) s =
      (true,
       set_trace s
         (trace s ++ [LOG_WRN "MQTT disconnected" [];
                      LOG_INF "MQTT thread terminated" []])).
Proof.
  intros W turns s Hc. cbn [mqtt_thread_fn]. unfold mqtt_thread_turn.
  run_body. rewrite Hc. cbn. rewrite <- app_assoc. reflexivity.
Qed.

(** X1, witness: the driver started right after initialisation. *)
Lemma driver_exits_when_flag_clear_witness :
  let W := Concrete.world Concrete.all_ok [] in
  fst (mqtt_thread_fn 3 Concrete.s_init) = true
  /\ trace (snd (mqtt_thread_fn 3 Concrete.s_init)) =
       [LOG_WRN "MQTT disconnected" []; LOG_INF "MQTT thread terminated" []].
Proof.
  intro W.
  rewrite (driver_exits_when_flag_clear W 2 Concrete.s_init eq_refl).
  split; reflexivity.
Defined.

(** As long as the engine raises no event while the thread runs, the
    state the thread leaves differs from the state it found by the calls
    it has added to the trace, and by nothing else. *)
Lemma mqtt_thread_fn_only_trace :
  forall (W : World) (turns : nat) (s : state),
    let s' := snd (mqtt_thread_fn turns s) in
    s' = set_trace s (trace s') /\ exists l, trace s' = trace s ++ l.
Proof.
  intros W turns. induction turns as [|n IH]; intros s s'; subst s'.
  - cbn. split; [symmetry; apply set_trace_same|exists []; now rewrite app_nil_r].
  - cbn [mqtt_thread_fn].
    destruct (mqtt_thread_turn_only_trace W s) as [Hs [l Hl]].
    destruct (mqtt_thread_turn s) as [brk s1]. cbn [snd] in Hs, Hl.
    destruct brk.
    + cbn. rewrite Hs at 1. cbn. split; [reflexivity|].
      rewrite Hl, <- app_assoc. eexists. reflexivity.
    + destruct (IH s1) as [Hs' [l' Hl']]. split.
      * rewrite Hs' at 1. rewrite Hs at 1. reflexivity.
      * rewrite Hl', Hl, <- app_assoc. eexists. reflexivity.
Qed.



(** Every turn of the driver loop goes one of the ways of
    [turn_outcome]. *)
Lemma mqtt_thread_turn_outcome : forall (W : World) (s : state),
  exists l,
    trace (snd (mqtt_thread_turn s)) = trace s ++ l
    /\ turn_outcome s (fst (mqtt_thread_turn s)) l.
Proof.
  intros W s. unfold mqtt_thread_turn. run_body.
  destruct (connected (ctx s)) eqn:Hc; cbn.
  2:{ eexists. split; [reflexivity|]. now apply to_flag_clear. }
  destruct (ext_ret (trace s ++ [mqtt_keepalive_time_left])
              (poll (ext_ret (trace s) mqtt_keepalive_time_left)) <? 0) eqn:Hp;
    cbn; bool_hyps.
  { eexists. split; [rewrite <- ?app_assoc; reflexivity|].
    now apply to_poll_failed. }
  destruct (Z.land (poll_revents (trace s ++ [mqtt_keepalive_time_left])) POLLIN
            =? POLLIN) eqn:Hin; cbn; bool_hyps.
  - rewrite <- !app_assoc. cbn.
    destruct (nonzero (ext_ret (trace s ++ turn_head s) mqtt_input)) eqn:He;
      unfold turn_head, turn_left in He; rewrite He; cbn; bool_hyps.
    { eexists. split; [rewrite <- ?app_assoc; reflexivity|].
      now apply to_input_failed. }
    assert (Hi : input_processed s [mqtt_input]).
    { right. split; [reflexivity|]. split; assumption. }
    destruct (Z.land (poll_revents (trace s ++ [mqtt_keepalive_time_left])) POLLERR
              =? POLLERR) eqn:H1; cbn; bool_hyps.
    { eexists. split; [rewrite <- ?app_assoc; reflexivity|].
      apply (to_socket_condition s [mqtt_input] "POLLERR"); auto.
      left. split; [reflexivity|assumption]. }
    destruct (Z.land (poll_revents (trace s ++ [mqtt_keepalive_time_left])) POLLHUP
              =? POLLHUP) eqn:H2; cbn; bool_hyps.
    { eexists. split; [rewrite <- ?app_assoc; reflexivity|].
      apply (to_socket_condition s [mqtt_input] "POLLHUP"); auto.
      right. left. split; [reflexivity|]. split; assumption. }
    destruct (Z.land (poll_revents (trace s ++ [mqtt_keepalive_time_left])) POLLNVAL
              =? POLLNVAL) eqn:H3; cbn; bool_hyps.
    { eexists. split; [rewrite <- ?app_assoc; reflexivity|].
      apply (to_socket_condition s [mqtt_input] "POLLNVAL"); auto.
      right. right. split; [reflexivity|]. repeat split; assumption. }
    eexists. split; [rewrite <- ?app_assoc; reflexivity|].
    apply (to_continue s [mqtt_input]); auto. repeat split; assumption.
  - assert (Hi : input_processed s []).
    { left. split; [reflexivity|assumption]. }
    destruct (Z.land (poll_revents (trace s ++ [mqtt_keepalive_time_left])) POLLERR
              =? POLLERR) eqn:H1; cbn; bool_hyps.
    { eexists. split; [rewrite <- ?app_assoc; reflexivity|].
      apply (to_socket_condition s [] "POLLERR"); auto.
      left. split; [reflexivity|assumption]. }
    destruct (Z.land (poll_revents (trace s ++ [mqtt_keepalive_time_left])) POLLHUP
              =? POLLHUP) eqn:H2; cbn; bool_hyps.
    { eexists. split; [rewrite <- ?app_assoc; reflexivity|].
      apply (to_socket_condition s [] "POLLHUP"); auto.
      right. left. split; [reflexivity|]. split; assumption. }
    destruct (Z.land (poll_revents (trace s ++ [mqtt_keepalive_time_left])) POLLNVAL
              =? POLLNVAL) eqn:H3; cbn; bool_hyps.
    { eexists. split; [rewrite <- ?app_assoc; reflexivity|].
      apply (to_socket_condition s [] "POLLNVAL"); auto.
      right. right. split; [reflexivity|]. repeat split; assumption. }
    eexists. split; [rewrite <- ?app_assoc; reflexivity|].
    apply (to_continue s []); auto. repeat split; assumption.
Qed.

(** Membership in, and absence from, an explicit list of calls. *)
Ltac in_calls :=
  cbn; first [ left; reflexivity | right; in_calls ].

Ltac not_in_calls H :=
  cbn in H;
  repeat (destruct H as [H|H]; [discriminate H|]);
  contradiction.

(** X3: a turn of the driver loop taken while the flag is set asks the
    engine for the time left to the keepalive and polls for that long.
    When the poll fails the loop is left without another call to the
    engine.  Otherwise the keepalive is attempted exactly once, inbound
    data are processed exactly when the socket is readable, and the loop
    is left exactly when the transport has been aborted, which happens
    at most once and as the last call of the turn. *)
Theorem driver_turn :
  forall (W : World) (s : state),
    connected (ctx s) = true ->
    let brk := fst (mqtt_thread_turn s) in
    let new := not_logs (new_calls s (snd (mqtt_thread_turn s))) in
    firstn 2 new = [mqtt_keepalive_time_left; poll (turn_left s)]
    /\
    (turn_polled s < 0 ->
       brk = true /\ new = [mqtt_keepalive_time_left; poll (turn_left s)])
    /\
    (0 <= turn_polled s ->
       count_call mqtt_live new = 1%nat
       /\ (In mqtt_input new <-> Z.land (turn_revents s) POLLIN = POLLIN)
       /\ (brk = true <-> In mqtt_abort new)
       /\ (count_call mqtt_abort new <= 1)%nat
       /\ (brk = true -> last new mqtt_live = mqtt_abort)).
Proof.
  intros W s Hc brk new. subst brk new.
  destruct (mqtt_thread_turn_outcome W s) as [l [Ht Ho]].
  rewrite (new_calls_app _ _ _ Ht).
  destruct Ho as [Hf | _ Hp | _ Hp Hin He | inp msg _ Hp Hi Hs | inp _ Hp Hi Hs].
  - congruence.
  - cbn. split; [reflexivity|]. split; [auto|]. intro. lia.
  - cbn - [In]. split; [reflexivity|]. split; [intro; lia|]. intros _.
    split; [reflexivity|].
    split; [split; [intros _; assumption | intros _; in_calls]|].
    split; [split; [intros _; in_calls | reflexivity]|].
    split; [lia | reflexivity].
  - destruct Hi as [[-> Hin] | [-> [Hin He]]]; cbn - [In];
      (split; [reflexivity|]); (split; [intro; lia|]); intros _;
      (split; [reflexivity|]);
      (split; [split; [intro E; first [assumption | not_in_calls E]
                      | intro; first [contradiction | in_calls]]|]);
      (split; [split; [intros _; in_calls | reflexivity]|]);
      (split; [lia | reflexivity]).
  - destruct Hi as [[-> Hin] | [-> [Hin He]]]; cbn - [In];
      (split; [reflexivity|]); (split; [intro; lia|]); intros _;
      (split; [reflexivity|]);
      (split; [split; [intro E; first [assumption | not_in_calls E]
                      | intro; first [contradiction | in_calls]]|]);
      (split; [split; [discriminate | intro E; not_in_calls E]|]);
      (split; [lia | discriminate]).
Qed.

(** X3, witness: a turn with a session up, a readable socket and an
    engine that accepts everything. *)
Lemma driver_turn_witness :
  let W := Concrete.world Concrete.all_ok [] in
  connected (ctx Concrete.s_connected) = true
  /\ 0 <= turn_polled Concrete.s_connected
  /\ count_call mqtt_live
       (not_logs (new_calls Concrete.s_connected
                    (snd (mqtt_thread_turn Concrete.s_connected)))) = 1%nat.
Proof.
  intro W.
  assert (Hp : 0 <= turn_polled Concrete.s_connected)
    by (vm_compute; discriminate).
  split; [reflexivity|]. split; [exact Hp|].
  destruct (driver_turn W Concrete.s_connected eq_refl) as [_ [_ H]].
  exact (proj1 (H Hp)).
Defined.

Lemma count_call_app : forall c a b,
  count_call c (a ++ b) = (count_call c a + count_call c b)%nat.
Proof.
  intros. unfold count_call. now rewrite filter_app, length_app.
Qed.

Lemma count_call_In : forall c l,
  ext_call_eqb_simple c c = true -> In c l -> (1 <= count_call c l)%nat.
Proof.
  intros c l Hc. unfold count_call.
  induction l as [|x l IH]; [intros []|intros [E|H]].
  - subst x. cbn. rewrite Hc. cbn. lia.
  - cbn. destruct (ext_call_eqb_simple c x); cbn; [lia|now apply IH].
Qed.

Lemma last_app_nonempty : forall (a b : trace_t) (d : ext_call),
  b <> [] -> last (a ++ b) d = last b d.
Proof.
  intros a b d Hb. induction a as [|x a IH]; [reflexivity|].
  cbn. rewrite IH. destruct (a ++ b) eqn:E; [|reflexivity].
  apply app_eq_nil in E. destruct E as [_ E]. contradiction.
Qed.

(** The calls of one turn. *)
Lemma turn_outcome_calls :
  forall (W : World) (s : state) (brk : bool) (l : trace_t),
    turn_outcome s brk l ->
    (count_call mqtt_abort l <= 1)%nat
    /\ ~ In thread_terminated l
    /\ (brk = false ->
        count_call mqtt_abort l = 0%nat
        /\ count_call mqtt_live l = 1%nat
        /\ count_call mqtt_keepalive_time_left l = 1%nat).
Proof.
  intros W s brk l Ho.
  destruct Ho as [Hf | _ Hp | _ Hp Hin He | inp msg _ Hp Hi Hs | inp _ Hp Hi Hs];
    try (destruct Hi as [[-> Hin] | [-> [Hin He]]]);
    cbn; (split; [lia|]);
    (split; [intro H; not_in_calls H|]);
    intro H; try discriminate H; repeat split.
Qed.

(** X4: the life of the driver thread.  Over all its turns the thread
    aborts the transport at most once, and only in its last turn; it has
    terminated exactly when it has logged its termination, which is then
    its last call; and as long as it has not terminated, every turn has
    asked once for the time left to the keepalive and attempted the
    keepalive once. *)
Theorem driver_thread_life :
  forall (W : World) (turns : nat) (s : state),
    let done := fst (mqtt_thread_fn turns s) in
    let new := new_calls s (snd (mqtt_thread_fn turns s)) in
    (count_call mqtt_abort new <= 1)%nat
    /\ (In mqtt_abort new -> done = true)
    /\ (done = true <-> In thread_terminated new)
    /\ (done = true -> last new mqtt_live = thread_terminated)
    /\ (done = false ->
        count_call mqtt_live new = turns
        /\ count_call mqtt_keepalive_time_left new = turns).
Proof.
  intros W turns s done new. subst done new.
  assert (H : exists l,
            trace (snd (mqtt_thread_fn turns s)) = trace s ++ l
            /\ (count_call mqtt_abort l <= 1)%nat
            /\ (In mqtt_abort l -> fst (mqtt_thread_fn turns s) = true)
            /\ (fst (mqtt_thread_fn turns s) = true <-> In thread_terminated l)
            /\ (fst (mqtt_thread_fn turns s) = true ->
                last l mqtt_live = thread_terminated)
            /\ (fst (mqtt_thread_fn turns s) = false ->
                count_call mqtt_live l = turns
                /\ count_call mqtt_keepalive_time_left l = turns)).
  { revert s. induction turns as [|n IH]; intro s.
    - exists []. cbn. rewrite app_nil_r.
      split; [reflexivity|]. split; [lia|]. split; [intros []|].
      split; [split; [discriminate|intros []]|].
      split; [discriminate|]. intros _. split; reflexivity.
    - cbn [mqtt_thread_fn].
      destruct (mqtt_thread_turn_outcome W s) as [l1 [Ht1 Ho]].
      destruct (turn_outcome_calls W s _ l1 Ho) as [Ha [Hnt Hcont]].
      destruct (mqtt_thread_turn s) as [brk s1]. cbn [fst snd] in *.
      destruct brk.
      + exists (l1 ++ [thread_terminated]). cbn [fst snd trace set_trace].
        split; [rewrite Ht1; now rewrite <- app_assoc|].
        split; [rewrite count_call_app; cbn; lia|].
        split; [reflexivity|].
        split; [split; [intros _; apply in_or_app; right; now left|reflexivity]|].
        split; [intros _; apply last_last|discriminate].
      + destruct (Hcont eq_refl) as [Ha0 [Hl1 Hk1]].
        destruct (IH s1) as [l' [Ht' [Ha' [Hin' [Hterm' [Hlast' Hcnt']]]]]].
        exists (l1 ++ l').
        split; [rewrite Ht', Ht1; now rewrite <- app_assoc|].
        split; [rewrite count_call_app; lia|].
        split.
        { intro H. apply in_app_or in H. destruct H as [H|H]; [|now apply Hin'].
          apply (count_call_In mqtt_abort l1 eq_refl) in H. lia. }
        split.
        { split.
          - intro H. apply in_or_app. right. now apply Hterm'.
          - intro H. apply in_app_or in H. destruct H as [H|H];
              [contradiction|now apply Hterm']. }
        split.
        { intro H. rewrite last_app_nonempty; [now apply Hlast'|].
          apply Hterm' in H. intro E. rewrite E in H. destruct H. }
        intro H. destruct (Hcnt' H) as [Hl' Hk'].
        rewrite !count_call_app. split; lia. }
  destruct H as [l [Ht H]]. rewrite (new_calls_app _ _ _ Ht). exact H.
Qed.

(** X4, witness: three turns on a session that is up, the socket
    always readable and the engine always content. *)
Lemma driver_thread_life_witness :
  let W := Concrete.world Concrete.all_ok [] in
  let s := Concrete.s_connected in
  fst (mqtt_thread_fn 3 s) = false
  /\ count_call mqtt_live (new_calls s (snd (mqtt_thread_fn 3 s))) = 3%nat.
Proof.
  intros W s.
  assert (Hd : fst (mqtt_thread_fn 3 s) = false) by (vm_compute; reflexivity).
  split; [exact Hd|].
  destruct (driver_thread_life W 3 s) as [_ [_ [_ [_ H]]]].
  exact (proj1 (H Hd)).
Defined.

(* ----------------------------------------------------------------- *)
(** ** The client handed to the engine *)

Lemma client_init_configured : forall (W : World) (s : state),
  let cl := client (snd (client_init s)) in
  credentials_configured s cl /\ transport_configured s cl
  /\ session_configured s cl.
Proof.
  intros W s. unfold client_init. run_body.
  split; [|split].
  - unfold credentials_configured. cbn.
    destruct (size (username (ctx s))); destruct (size (password (ctx s)));
      cbn;
      (split; [auto|]);
      (split; [split; [try discriminate; auto | intro; try lia; auto]|]);
      (split; [auto|]);
      (split; [try discriminate; auto | intros [H|H]; try lia; auto]).
  - unfold transport_configured. cbn.
    destruct CONFIG_MQTT_LIB_TLS; cbn;
      [destruct (nonzero (sec_tag (ctx s) - INVALID_SEC_TAG)) eqn:E; cbn;
       [apply nonzero_true_inv in E | apply nonzero_false_inv in E]|].
    + split; [split; [intros _; split; [reflexivity|lia] | reflexivity]|].
      split; [intros _; repeat split | intro H; now elim H].
    + split; [split; [discriminate | intros [_ H]; elim H; lia]|].
      split; [discriminate | reflexivity].
    + split; [split; [discriminate | intros [H _]; discriminate H]|].
      split; [discriminate | reflexivity].
  - unfold session_configured. cbn. repeat split.
Qed.

Lemma broker_init_keeps_identity : forall (W : World) (s : state),
  let s' := snd (broker_init s) in
  username (ctx s') = username (ctx s)
  /\ password (ctx s') = password (ctx s)
  /\ sec_tag (ctx s') = sec_tag (ctx s)
  /\ family (ctx s') = family (ctx s)
  /\ connected (ctx s') = connected (ctx s)
  /\ mqtt_clientid s' = mqtt_clientid s.
Proof.
  intros W s. unfold broker_init. run_body.
  destruct (nonzero _); cbn; [repeat split|].
  destruct (family (ctx s) =? AF_INET); cbn; repeat split.
Qed.

Lemma do_mqtt_connect_client : forall (W : World) (s : state),
  connected (ctx s) = false ->
  ext_ret (trace s)
    (getaddrinfo (cstr (mqtt_broker_url s)) (family (ctx s))) = 0 ->
  client (snd (do_mqtt_connect s)) =
    client (snd (client_init (snd (broker_init s)))).
Proof.
  intros W s Hc E1.
  unfold do_mqtt_connect, broker_init, client_init. run_body.
  rewrite Hc. cbn. rewrite !E1. cbn.
  destruct (family (ctx s) =? AF_INET); cbn;
    destruct (nonzero _); reflexivity.
Qed.

(** X5: the client a connect attempt hands to the engine.  The
    handshake is tried only when no session is up and the resolver has
    succeeded, and the client of the handshake is the module's client as
    [client_init] has just filled it from the session context: a user
    name exactly when the stored user name is not empty, a password
    exactly when neither the user name nor the password is empty (so
    never a password without a user name), the secure transport exactly
    when TLS is built in and a security tag is set, then with peer
    verification required, the one security tag and the broker URL as
    host name; the event handler, the protocol version and the buffers
    of the module. *)
Theorem connect_hands_over_configured_client :
  forall (W : World) (s : state) (cl : mqtt_client),
    In (mqtt_connect cl) (new_calls s (snd (do_mqtt_connect s))) ->
    connected (ctx s) = false
    /\ ext_ret (trace s)
         (getaddrinfo (cstr (mqtt_broker_url s)) (family (ctx s))) = 0
    /\ client (snd (do_mqtt_connect s)) = cl
    /\ credentials_configured s cl
    /\ (cl_password cl <> NULL -> cl_user_name cl <> NULL)
    /\ transport_configured s cl
    /\ session_configured s cl.
Proof.
  intros W s cl Hin.
  destruct (connected (ctx s)) eqn:Hc.
  { rewrite (do_mqtt_connect_connected W s Hc) in Hin.
    unfold new_calls in Hin. rewrite skipn_all in Hin. destruct Hin. }
  split; [reflexivity|].
  assert (H : ext_ret (trace s)
                (getaddrinfo (cstr (mqtt_broker_url s)) (family (ctx s))) = 0
              /\ client (snd (do_mqtt_connect s)) = cl).
  { destruct (do_mqtt_connect_cases W s Hc)
      as [[_ [_ [_ Hn]]] | [E1 [[_ [_ [_ Hn]]] | [_ [_ [_ Hn]]]]]];
      rewrite Hn in Hin.
    - not_in_calls Hin.
    - split; [exact E1|].
      cbn in Hin. destruct Hin as [Hin|[Hin|[Hin|[Hin|[Hin|[]]]]]];
        try discriminate Hin. now injection Hin.
    - split; [exact E1|].
      cbn in Hin. destruct Hin as [Hin|[Hin|[Hin|[Hin|[Hin|[]]]]]];
        try discriminate Hin. now injection Hin. }
  destruct H as [E1 Hcl]. split; [exact E1|]. split; [exact Hcl|].
  rewrite (do_mqtt_connect_client W s Hc E1) in Hcl. subst cl.
  destruct (client_init_configured W (snd (broker_init s)))
    as [Hcr [Htr Hse]].
  destruct (broker_init_keeps_identity W s) as [Eu [Ep [Et [Ef [_ Ei]]]]].
  unfold credentials_configured, transport_configured, session_configured in *.
  rewrite Eu, Ep in Hcr. rewrite Et in Htr. rewrite Ef, Ei in Hse.
  split; [exact Hcr|]. split; [|split; assumption].
  destruct Hcr as [_ [Hu [_ Hp]]]. intros Hpw Hun.
  apply Hpw. apply Hp. left. now apply Hu.
Qed.

(** X5, witness: a connect attempt right after initialisation, with
    every collaborator succeeding. *)
Lemma connect_hands_over_configured_client_witness :
  let W := Concrete.world Concrete.all_ok [] in
  let s := Concrete.s_init in
  let cl := client (snd (do_mqtt_connect s)) in
  In (mqtt_connect cl) (new_calls s (snd (do_mqtt_connect s)))
  /\ credentials_configured s cl.
Proof.
  intros W s cl.
  assert (Hin : In (mqtt_connect cl) (new_calls s (snd (do_mqtt_connect s)))).
  { vm_compute. right. right. right. left. reflexivity. }
  split; [exact Hin|].
  apply (connect_hands_over_configured_client W s cl Hin).
Defined.

(* ----------------------------------------------------------------- *)
(** ** Resolving the broker *)

(** X6: [broker_init] asks the resolver once, for the stored URL in the
    address family of the session, and returns its answer.  When the
    resolver fails, the session context is left as it was and nothing is
    freed.  When it succeeds, the broker address of the session becomes
    the address found with the stored port in network byte order,
    whatever the family, and the result of the resolver is freed exactly
    once, as the last call.  Nothing but the session context and the
    trace changes, and within the context nothing but the broker
    address. *)
Theorem broker_init_resolves_and_frees :
  forall (W : World) (s : state),
    let resolve := getaddrinfo (cstr (mqtt_broker_url s)) (family (ctx s)) in
    let e := ext_ret (trace s) resolve in
    let r := fst (broker_init s) in
    let s' := snd (broker_init s) in
    let new := new_calls s s' in
    r = e
    /\ not_logs new = resolve :: (if nonzero e then [] else [freeaddrinfo])
    /\ (e <> 0 -> ctx s' = ctx s /\ count_call freeaddrinfo new = 0%nat)
    /\ (e = 0 ->
          broker (ctx s') =
            {| sin_addr := sin_addr (getaddrinfo_result (trace s));
               sin_port := htons (mqtt_broker_port s) |}
          /\ count_call freeaddrinfo new = 1%nat)
    /\ s' = set_trace (set_ctx s (ctx_set_broker (ctx s) (broker (ctx s'))))
              (trace s').
Proof.
  intros W s resolve e r s'. subst resolve e r s'.
  unfold broker_init. run_body.
  destruct (nonzero (ext_ret (trace s) _)) eqn:E; cbn.
  - apply nonzero_true_inv in E.
    new_calls_norm. cbn.
    split; [reflexivity|]. split; [reflexivity|].
    split; [intros _; split; reflexivity|].
    split; [intro H; now elim E|].
    destruct s as [c]; destruct c; reflexivity.
  - apply nonzero_false_inv in E.
    destruct (family (ctx s) =? AF_INET); cbn; new_calls_norm; cbn;
      (split; [symmetry; exact E|]); (split; [reflexivity|]);
      (split; [intro H; now elim H|]);
      (split; [intros _; split; reflexivity|]);
      reflexivity.
Qed.

(** X6, witness: the resolver succeeding right after initialisation. *)
Lemma broker_init_resolves_and_frees_witness :
  let W := Concrete.world Concrete.all_ok [] in
  let s := Concrete.s_init in
  count_call freeaddrinfo (new_calls s (snd (broker_init s))) = 1%nat.
Proof.
  intros W s.
  destruct (broker_init_resolves_and_frees W s) as [_ [_ [_ [H _]]]].
  exact (proj2 (H eq_refl)).
Defined.

(* ----------------------------------------------------------------- *)
(** ** Initialisation *)

(** X7: [slm_at_mqtt_init] returns 0 and calls no collaborator.  It
    leaves the session context cleared, with the flag off and no
    security tag, whatever the context was, and the publish message id at
    0.  It resets neither the subscribe message id nor the engine's
    client nor any buffer, and running it twice is the same as running
    it once. *)
Theorem init_resets_session :
  forall (W : World) (s : state),
    let s' := snd (slm_at_mqtt_init s) in
    fst (slm_at_mqtt_init s) = 0
    /\ ctx s' = ctx_set_sec_tag ctx_zero INVALID_SEC_TAG
    /\ connected (ctx s') = false
    /\ message_id (pub_param s') = 0
    /\ s' = set_ctx (set_pub_param s (pp_set_message_id (pub_param s) 0))
              (ctx s')
    /\ sub_message_id s' = sub_message_id s
    /\ client s' = client s
    /\ trace s' = trace s
    /\ slm_at_mqtt_init s' = (0, s').
Proof.
  intros W s. unfold slm_at_mqtt_init. run_body.
  repeat split.
Qed.

(* ----------------------------------------------------------------- *)
(** ** Reading the connection back *)

Lemma cstr_no_nul : forall b : bytes, Forall (fun c => c <> NUL) (cstr b).
Proof.
  unfold cstr. induction b as [|c b IH]; simpl; [constructor|].
  destruct (Ascii.eqb_spec c NUL) as [E|E]; simpl; [constructor|].
  now constructor.
Qed.

Lemma xmqttcon_report_no_nul : forall flag cid url port tag,
  Forall (fun c => c <> NUL) cid -> Forall (fun c => c <> NUL) url ->
  Forall (fun c => c <> NUL) (xmqttcon_report flag cid url port tag).
Proof.
  intros flag cid url port tag Hc Hu. unfold xmqttcon_report.
  destruct tag;
    repeat (apply no_nul_app; [ | ]); try apply fmt_d_no_nul; try assumption;
    repeat (constructor; try discriminate).
Qed.

Lemma nonzero_sub : forall a b, nonzero (a - b) = negb (a =? b).
Proof.
  intros a b. unfold nonzero. f_equal.
  destruct (Z.eqb_spec (a - b) 0), (Z.eqb_spec a b); try reflexivity; lia.
Qed.

(** The read command, in any state. *)
Lemma read_command_reports : forall (W : World) (s : state),
  handle_at_mqtt_connect AT_CMD_TYPE_READ_COMMAND s =
    (0, sent (session_report s) s).
Proof.
  intros W s. unfold handle_at_mqtt_connect, fn.
  unfold gets. unfold bind at 1 2 3 4. cbv beta iota.
  pose proof (xmqttcon_report_no_nul (connected (ctx s))
                (cstr (mqtt_clientid s)) (cstr (mqtt_broker_url s))
                (mqtt_broker_port s) (reported_tag (sec_tag (ctx s)))
                (cstr_no_nul _) (cstr_no_nul _)) as Hn.
  unfold session_report. revert Hn.
  unfold reported_tag, xmqttcon_report. rewrite nonzero_sub.
  destruct (sec_tag (ctx s) =? INVALID_SEC_TAG); cbn [negb]; intro Hn;
    rewrite sprintf_then_send by exact Hn; reflexivity.
Qed.

(** A connect command whose parameters are all read is a connect attempt
    made with the identity of the command in place. *)
Lemma connect_command_stores :
  forall (W : World) (s : state) (op port tag : Z) (cid usr pw url : bytes)
         (n1 n2 n3 n4 : nat),
    let pl := at_param_list s in
    at_params_unsigned_short_get pl 1 = (0, op) ->
    u16 op = MQTTC_CONNECT \/ u16 op = MQTTC_CONNECT6 ->
    util_string_get pl 2 (mqtt_clientid s) (MQTT_MAX_CID_LEN + 1) = (0, cid, n1) ->
    util_string_get pl 3 (mqtt_username s) (SLM_MAX_USERNAME + 1) = (0, usr, n2) ->
    util_string_get pl 4 (mqtt_password s) (SLM_MAX_PASSWORD + 1) = (0, pw, n3) ->
    util_string_get pl 5 (mqtt_broker_url s) (SLM_MAX_URL + 1) = (0, url, n4) ->
    at_params_unsigned_short_get pl 6 = (0, port) ->
    command_tag pl = (0, tag) ->
    handle_at_mqtt_connect AT_CMD_TYPE_SET_COMMAND s =
      do_mqtt_connect (identity_stored s op cid usr pw url port tag).
Proof.
  intros W s op port tag cid usr pw url n1 n2 n3 n4 pl
    Hop Hconn Hcid Husr Hpw Hurl Hport Htag. subst pl.
  unfold handle_at_mqtt_connect, unsigned_short_get, unsigned_int_get,
    valid_count_get, string_get.
  unfold fn at 1. unfold bind at 1. unfold gets at 1. rewrite Hop.
  cbv beta iota. unfold when at 1. cbn [nonzero Z.eqb negb].
  unfold ret at 1. unfold bind at 1. cbv beta iota.
  assert (Hb : (u16 op =? MQTTC_CONNECT) || (u16 op =? MQTTC_CONNECT6) = true).
  { destruct Hconn as [-> | ->]; reflexivity. }
  rewrite Hb.
  cbn in Hcid, Husr, Hpw, Hurl.
  unfold bind, when, ret, return_, gets, modify, lift. cbn.
  rewrite Hcid. cbn. rewrite Husr. cbn. rewrite Hpw. cbn.
  rewrite Hurl. cbn. rewrite Hport. cbn.
  unfold command_tag in Htag.
  destruct (7 <? at_params_valid_count_get (at_param_list s)); cbn.
  - destruct (at_params_unsigned_int_get (at_param_list s) 7) as [e t].
    injection Htag as -> <-. cbn. unfold identity_stored.
    destruct (do_mqtt_connect _) eqn:E. reflexivity.
  - injection Htag as <-. unfold identity_stored.
    destruct (do_mqtt_connect _) eqn:E. reflexivity.
Qed.

Lemma do_mqtt_connect_keeps_identity : forall (W : World) (s : state),
  let s' := snd (do_mqtt_connect s) in
  mqtt_clientid s' = mqtt_clientid s
  /\ mqtt_broker_url s' = mqtt_broker_url s
  /\ mqtt_broker_port s' = mqtt_broker_port s
  /\ sec_tag (ctx s') = sec_tag (ctx s).
Proof.
  intros W s. unfold do_mqtt_connect, broker_init, client_init. run_body.
  crunch; cbn; repeat split.
Qed.

Lemma do_mqtt_connect_success_sets_flag : forall (W : World) (s : state),
  fst (do_mqtt_connect s) = 0 -> connected (ctx (snd (do_mqtt_connect s))) = true.
Proof.
  intros W s H.
  destruct (connected (ctx s)) eqn:Hc.
  - rewrite (do_mqtt_connect_connected W s Hc) in H. cbn in H.
    pose proof EISCONN_pos. lia.
  - destruct (do_mqtt_connect_cases W s Hc)
      as [[E [R _]] | [_ [[E [R _]] | [_ [_ [C _]]]]]];
      [congruence | congruence | exact C].
Qed.

(** X8: the read command returns 0 in any state and sends one line:
    the flag, the client id, the URL and the port held by the module, and
    the security tag unless none is set; it changes nothing but the
    response buffer.  So a read that follows a connect command that has
    succeeded reports a session that is up, with the client id, the URL
    and the port of that command, and the security tag the command has
    left: the number of the command read as a 32-bit [int], and no tag
    when that is [INVALID_SEC_TAG]. *)
Theorem read_reports_the_session :
  forall (W : World),
    (forall s,
       handle_at_mqtt_connect AT_CMD_TYPE_READ_COMMAND s =
         (0, sent (session_report s) s))
    /\
    (forall s op port tag cid usr pw url n1 n2 n3 n4 pl',
       let pl := at_param_list s in
       at_params_unsigned_short_get pl 1 = (0, op) ->
       u16 op = MQTTC_CONNECT \/ u16 op = MQTTC_CONNECT6 ->
       util_string_get pl 2 (mqtt_clientid s) (MQTT_MAX_CID_LEN + 1) = (0, cid, n1) ->
       util_string_get pl 3 (mqtt_username s) (SLM_MAX_USERNAME + 1) = (0, usr, n2) ->
       util_string_get pl 4 (mqtt_password s) (SLM_MAX_PASSWORD + 1) = (0, pw, n3) ->
       util_string_get pl 5 (mqtt_broker_url s) (SLM_MAX_URL + 1) = (0, url, n4) ->
       at_params_unsigned_short_get pl 6 = (0, port) ->
       command_tag pl = (0, tag) ->
       fst (handle_at_mqtt_connect AT_CMD_TYPE_SET_COMMAND s) = 0 ->
       let s1 := set_at_param_list
                   (snd (handle_at_mqtt_connect AT_CMD_TYPE_SET_COMMAND s)) pl' in
       handle_at_mqtt_connect AT_CMD_TYPE_READ_COMMAND s1 =
         (0, sent (xmqttcon_report true (cstr cid) (cstr url) (u16 port)
                     (reported_tag tag)) s1)).
Proof.
  intro W. split; [apply read_command_reports|].
  intros s op port tag cid usr pw url n1 n2 n3 n4 pl' pl
    Hop Hconn Hcid Husr Hpw Hurl Hport Htag Hr s1.
  subst s1. rewrite read_command_reports. f_equal. f_equal.
  revert Hr.
  rewrite (connect_command_stores W s op port tag cid usr pw url n1 n2 n3 n4
             Hop Hconn Hcid Husr Hpw Hurl Hport Htag).
  intro Hr. apply do_mqtt_connect_success_sets_flag in Hr.
  destruct (do_mqtt_connect_keeps_identity W
              (identity_stored s op cid usr pw url port tag))
    as [Ei [Eu [Ep Et]]].
  unfold session_report. cbn [set_at_param_list ctx mqtt_clientid
    mqtt_broker_url mqtt_broker_port].
  cbn. cbn in Hr, Ei, Eu, Ep, Et. rewrite Hr, Ei, Eu, Ep, Et. reflexivity.
Qed.

Lemma new_calls_sent : forall (text : bytes) (s : state),
  new_calls s (sent text s) = [rsp_send text].
Proof.
  intros text s. apply new_calls_app. reflexivity.
Qed.

(** The four strings of a connect command are read. *)
Ltac string_read H s i buf cap :=
  assert (H : util_string_get (at_param_list s) i (buf s) cap =
              (0, snd (fst (util_string_get (at_param_list s) i (buf s) cap)),
               snd (util_string_get (at_param_list s) i (buf s) cap)))
    by (vm_compute; reflexivity).

Ltac strings_read s H2 H3 H4 H5 :=
  string_read H2 s 2%nat mqtt_clientid (MQTT_MAX_CID_LEN + 1)%nat;
  string_read H3 s 3%nat mqtt_username (SLM_MAX_USERNAME + 1)%nat;
  string_read H4 s 4%nat mqtt_password (SLM_MAX_PASSWORD + 1)%nat;
  string_read H5 s 5%nat mqtt_broker_url (SLM_MAX_URL + 1)%nat.

(** X8, witness: right after initialisation, every collaborator
    succeeding, a connect command for the client dev3 at other.example,
    port 8883, with the security tag 3000000000, then a read: the line
    reports the tag -1294967296. *)
Lemma read_reports_the_session_witness :
  let W := Concrete.world Concrete.all_ok [] in
  let s := set_at_param_list Concrete.s_init connect_tag_3000000000 in
  let s1 := set_at_param_list
              (snd (handle_at_mqtt_connect AT_CMD_TYPE_SET_COMMAND s)) [] in
  fst (handle_at_mqtt_connect AT_CMD_TYPE_SET_COMMAND s) = 0
  /\ fst (handle_at_mqtt_connect AT_CMD_TYPE_READ_COMMAND s1) = 0
  /\ rsp_sends (new_calls s1
                  (snd (handle_at_mqtt_connect AT_CMD_TYPE_READ_COMMAND s1))) =
       [["013"; "010"]%char
          ++ str "#XMQTTCON: 1," ++ ["034"]%char ++ str "dev3" ++ ["034"]%char
          ++ str "," ++ ["034"]%char ++ str "other.example" ++ ["034"]%char
          ++ str ",8883,-1294967296" ++ ["013"; "010"]%char].
Proof.
  intros W s s1.
  assert (Hr : fst (handle_at_mqtt_connect AT_CMD_TYPE_SET_COMMAND s) = 0)
    by (vm_compute; reflexivity).
  split; [exact Hr|].
  subst s1.
  strings_read s H2 H3 H4 H5.
  assert (Ht : command_tag (at_param_list s) = (0, -1294967296))
    by (vm_compute; reflexivity).
  rewrite (proj2 (read_reports_the_session W) s 1 8883 (-1294967296)
             _ _ _ _ _ _ _ _ []
             eq_refl (or_introl eq_refl) H2 H3 H4 H5 eq_refl Ht Hr).
  split; [reflexivity|].
  cbn [snd]. rewrite new_calls_sent. cbn [rsp_sends flat_map app].
  vm_compute. reflexivity.
Defined.

(* ----------------------------------------------------------------- *)
(** ** Commands that are rejected *)

(** X9: what the handlers reject on their own account is rejected with
    [-EINVAL] and without any effect, not even on the message ids: a
    command type a handler has no case for (a read of the publish,
    subscribe or unsubscribe command, and no type at all), a subscribe
    command that has not exactly two parameters, an unsubscribe command
    that has not exactly one, and a connect command whose operation is
    none of 0, 1 and 2. *)
Theorem rejected_commands_change_nothing :
  forall (W : World) (s : state),
    handle_at_mqtt_connect AT_CMD_TYPE_NONE s = (- EINVAL, s)
    /\
    (forall c, c = AT_CMD_TYPE_READ_COMMAND \/ c = AT_CMD_TYPE_NONE ->
       handle_at_mqtt_publish c s = (- EINVAL, s)
       /\ handle_at_mqtt_subscribe c s = (- EINVAL, s)
       /\ handle_at_mqtt_unsubscribe c s = (- EINVAL, s))
    /\
    (at_params_valid_count_get (at_param_list s) <> 3 ->
       handle_at_mqtt_subscribe AT_CMD_TYPE_SET_COMMAND s = (- EINVAL, s))
    /\
    (at_params_valid_count_get (at_param_list s) <> 2 ->
       handle_at_mqtt_unsubscribe AT_CMD_TYPE_SET_COMMAND s = (- EINVAL, s))
    /\
    (forall op,
       at_params_unsigned_short_get (at_param_list s) 1 = (0, op) ->
       u16 op <> MQTTC_DISCONNECT -> u16 op <> MQTTC_CONNECT ->
       u16 op <> MQTTC_CONNECT6 ->
       handle_at_mqtt_connect AT_CMD_TYPE_SET_COMMAND s = (- EINVAL, s)).
Proof.
  intros W s.
  split; [reflexivity|].
  split; [intros c [-> | ->]; repeat split|].
  split; [|split].
  - intro H. unfold handle_at_mqtt_subscribe, valid_count_get. run_body.
    apply Z.eqb_neq in H. now rewrite H.
  - intro H. unfold handle_at_mqtt_unsubscribe, valid_count_get. run_body.
    apply Z.eqb_neq in H. now rewrite H.
  - intros op Hop H0 H1 H2.
    unfold handle_at_mqtt_connect, unsigned_short_get. run_body.
    rewrite Hop. cbn.
    apply Z.eqb_neq in H0, H1, H2. now rewrite H0, H1, H2.
Qed.

(** X9, witness: AT#XMQTTSUB="t/1" and AT#XMQTTCON=7 right after
    initialisation. *)
Lemma rejected_commands_change_nothing_witness :
  let W := Concrete.world Concrete.all_ok [] in
  let s1 := set_at_param_list Concrete.s_init
              [AT_STRING (str "AT#XMQTTSUB"); AT_STRING (str "t/1")] in
  let s2 := set_at_param_list Concrete.s_init
              [AT_STRING (str "AT#XMQTTCON"); AT_NUM 7] in
  handle_at_mqtt_subscribe AT_CMD_TYPE_SET_COMMAND s1 = (- EINVAL, s1)
  /\ handle_at_mqtt_connect AT_CMD_TYPE_SET_COMMAND s2 = (- EINVAL, s2).
Proof.
  intros W s1 s2. split.
  - apply (rejected_commands_change_nothing W s1). vm_compute. discriminate.
  - apply (proj2 (proj2 (proj2 (proj2 (rejected_commands_change_nothing W s2))))
             7 eq_refl); vm_compute; discriminate.
Defined.

(** X10: when the parser fails to read the operation of a connect
    command, the topic of a subscribe or unsubscribe command or the qos
    of a subscribe command, the handler returns the error of the parser
    and nothing has changed: no collaborator is called and no message id
    is taken. *)
Theorem unread_parameters_change_nothing :
  forall (W : World) (s : state),
    let pl := at_param_list s in
    (forall e op,
       at_params_unsigned_short_get pl 1 = (e, op) -> e <> 0 ->
       handle_at_mqtt_connect AT_CMD_TYPE_SET_COMMAND s = (e, s))
    /\
    (forall e topic n,
       at_params_valid_count_get pl = 3 ->
       util_string_get pl 1 (uninit MQTT_MAX_TOPIC_LEN) MQTT_MAX_TOPIC_LEN
         = (e, topic, n) ->
       e < 0 ->
       handle_at_mqtt_subscribe AT_CMD_TYPE_SET_COMMAND s = (e, s))
    /\
    (forall e1 topic n e2 q,
       at_params_valid_count_get pl = 3 ->
       util_string_get pl 1 (uninit MQTT_MAX_TOPIC_LEN) MQTT_MAX_TOPIC_LEN
         = (e1, topic, n) ->
       at_params_unsigned_short_get pl 2 = (e2, q) ->
       0 <= e1 -> e2 < 0 ->
       handle_at_mqtt_subscribe AT_CMD_TYPE_SET_COMMAND s = (e2, s))
    /\
    (forall e topic n,
       at_params_valid_count_get pl = 2 ->
       util_string_get pl 1 (uninit MQTT_MAX_TOPIC_LEN) MQTT_MAX_TOPIC_LEN
         = (e, topic, n) ->
       e < 0 ->
       handle_at_mqtt_unsubscribe AT_CMD_TYPE_SET_COMMAND s = (e, s)).
Proof.
  intros W s pl. subst pl.
  split; [|split; [|split]].
  - intros e op Hop He.
    unfold handle_at_mqtt_connect, unsigned_short_get. run_body.
    rewrite Hop. cbn. now rewrite (nonzero_true e He).
  - intros e topic n Hn Ht He.
    unfold handle_at_mqtt_subscribe, valid_count_get, string_get_local.
    run_body. rewrite Hn. cbn. cbn in Ht. rewrite Ht. cbn.
    apply Z.ltb_lt in He. now rewrite He.
  - intros e1 topic n e2 q Hn Ht Hq H1 H2.
    unfold handle_at_mqtt_subscribe, valid_count_get, string_get_local,
      unsigned_short_get.
    run_body. rewrite Hn. cbn. cbn in Ht. rewrite Ht. cbn.
    apply Z.ltb_ge in H1. rewrite H1. cbn. rewrite Hq. cbn.
    apply Z.ltb_lt in H2. now rewrite H2.
  - intros e topic n Hn Ht He.
    unfold handle_at_mqtt_unsubscribe, valid_count_get, string_get_local.
    run_body. rewrite Hn. cbn. cbn in Ht. rewrite Ht. cbn.
    apply Z.ltb_lt in He. now rewrite He.
Qed.

(** X10, witness: AT#XMQTTSUB=5,1, whose topic is a number, right after
    initialisation. *)
Lemma unread_parameters_change_nothing_witness :
  let W := Concrete.world Concrete.all_ok [] in
  let s := set_at_param_list Concrete.s_init
             [AT_STRING (str "AT#XMQTTSUB"); AT_NUM 5; AT_NUM 1] in
  handle_at_mqtt_subscribe AT_CMD_TYPE_SET_COMMAND s = (- EINVAL, s).
Proof.
  intros W s.
  apply (proj1 (proj2 (unread_parameters_change_nothing W s))
           (- EINVAL)
           (snd (fst (util_string_get (at_param_list s) 1
                        (uninit MQTT_MAX_TOPIC_LEN) MQTT_MAX_TOPIC_LEN)))
           (snd (util_string_get (at_param_list s) 1
                   (uninit MQTT_MAX_TOPIC_LEN) MQTT_MAX_TOPIC_LEN))).
  - reflexivity.
  - vm_compute. reflexivity.
  - vm_compute. reflexivity.
Defined.

(* ----------------------------------------------------------------- *)
(** ** Test commands *)

Lemma literal_no_nul : forall text : bytes,
  forallb (fun c => negb (Ascii.eqb c NUL)) text = true ->
  Forall (fun c => c <> NUL) text.
Proof.
  intros text H. apply Forall_forall. intros c Hc.
  rewrite forallb_forall in H. specialize (H c Hc).
  intro E. subst c. discriminate H.
Qed.

(** X11: a test command returns 0 in any state, whatever the
    parameters and whether or not a session is up.  It sends the syntax
    line of its command, whole, as the only call it makes, and changes no
    static but the response buffer. *)
Theorem test_commands_report_syntax :
  forall (W : World) (s : state),
    handle_at_mqtt_connect AT_CMD_TYPE_TEST_COMMAND s =
      (0, sent xmqttcon_syntax s)
    /\ handle_at_mqtt_publish AT_CMD_TYPE_TEST_COMMAND s =
      (0, sent xmqttpub_syntax s)
    /\ handle_at_mqtt_subscribe AT_CMD_TYPE_TEST_COMMAND s =
      (0, sent xmqttsub_syntax s)
    /\ handle_at_mqtt_unsubscribe AT_CMD_TYPE_TEST_COMMAND s =
      (0, sent xmqttunsub_syntax s).
Proof.
  intros W s.
  split; [|split; [|split]].
  - unfold handle_at_mqtt_connect, fn.
    rewrite sprintf_then_send by (apply literal_no_nul; reflexivity).
    reflexivity.
  - unfold handle_at_mqtt_publish, valid_count_get, fn.
    unfold bind at 1. unfold gets. cbv beta iota.
    rewrite sprintf_then_send by (apply literal_no_nul; reflexivity).
    reflexivity.
  - unfold handle_at_mqtt_subscribe, fn.
    rewrite sprintf_then_send by (apply literal_no_nul; reflexivity).
    reflexivity.
  - unfold handle_at_mqtt_unsubscribe, fn.
    rewrite sprintf_then_send by (apply literal_no_nul; reflexivity).
    reflexivity.
Qed.

(* ----------------------------------------------------------------- *)
(** ** From the connect command to the handshake *)

Lemma do_mqtt_connect_broker : forall (W : World) (s : state),
  connected (ctx s) = false ->
  ext_ret (trace s)
    (getaddrinfo (cstr (mqtt_broker_url s)) (family (ctx s))) = 0 ->
  broker (ctx (snd (do_mqtt_connect s))) =
    {| sin_addr := sin_addr (getaddrinfo_result (trace s));
       sin_port := htons (mqtt_broker_port s) |}.
Proof.
  intros W s Hc E1.
  unfold do_mqtt_connect, broker_init, client_init. run_body.
  rewrite Hc. cbn. rewrite !E1. cbn.
  destruct (family (ctx s) =? AF_INET); cbn;
    destruct (nonzero _); reflexivity.
Qed.

(** X12: a connect command received when no session is up, whose
    parameters are all read, acts on those parameters.  Its first call
    asks the resolver for the URL of the command, in the IPv4 family for
    operation 1 and in the IPv6 family for operation 2.  If it comes to
    the handshake, the client of the handshake carries the client id of
    the command; a user name exactly when the user name of the command is
    not empty; a password exactly when neither its user name nor its
    password is empty; the secure transport exactly when TLS is built in
    and the security tag the command has left, its number read as a
    32-bit [int], is not [INVALID_SEC_TAG]; and the broker address of the
    session is the address found, with the port of the command in
    network byte order. *)
Theorem connect_command_uses_its_parameters :
  forall (W : World) (s : state) (op port tag : Z) (cid usr pw url : bytes)
         (n1 n2 n3 n4 : nat),
    let pl := at_param_list s in
    connected (ctx s) = false ->
    at_params_unsigned_short_get pl 1 = (0, op) ->
    u16 op = MQTTC_CONNECT \/ u16 op = MQTTC_CONNECT6 ->
    util_string_get pl 2 (mqtt_clientid s) (MQTT_MAX_CID_LEN + 1) = (0, cid, n1) ->
    util_string_get pl 3 (mqtt_username s) (SLM_MAX_USERNAME + 1) = (0, usr, n2) ->
    util_string_get pl 4 (mqtt_password s) (SLM_MAX_PASSWORD + 1) = (0, pw, n3) ->
    util_string_get pl 5 (mqtt_broker_url s) (SLM_MAX_URL + 1) = (0, url, n4) ->
    at_params_unsigned_short_get pl 6 = (0, port) ->
    command_tag pl = (0, tag) ->
    let s' := snd (handle_at_mqtt_connect AT_CMD_TYPE_SET_COMMAND s) in
    let new := new_calls s s' in
    hd_error new =
      Some (getaddrinfo (cstr url)
              (if u16 op =? MQTTC_CONNECT then AF_INET else AF_INET6))
    /\
    (forall cl, In (mqtt_connect cl) new ->
       cl_client_id cl = {| utf8 := P_mqtt_clientid; size := strlen cid |}
       /\ (cl_user_name cl = NULL <-> strlen usr = 0%nat)
       /\ (cl_password cl = NULL <-> strlen usr = 0%nat \/ strlen pw = 0%nat)
       /\ (transport_type cl = MQTT_TRANSPORT_SECURE <->
             CONFIG_MQTT_LIB_TLS = true /\ tag <> INVALID_SEC_TAG)
       /\ broker (ctx s') =
            {| sin_addr := sin_addr (getaddrinfo_result (trace s));
               sin_port := htons (u16 port) |}).
Proof.
  intros W s op port tag cid usr pw url n1 n2 n3 n4 pl
    Hc Hop Hconn Hcid Husr Hpw Hurl Hport Htag s' new. subst s' new pl.
  rewrite (connect_command_stores W s op port tag cid usr pw url n1 n2 n3 n4
             Hop Hconn Hcid Husr Hpw Hurl Hport Htag).
  set (s1 := identity_stored s op cid usr pw url port tag).
  assert (Hc1 : connected (ctx s1) = false) by exact Hc.
  assert (Hn : forall x, new_calls s x = new_calls s1 x) by reflexivity.
  rewrite Hn.
  pose proof (do_mqtt_connect_cases W s1 Hc1) as Hcases.
  pose proof (do_mqtt_connect_client W s1 Hc1) as Hclient.
  pose proof (do_mqtt_connect_broker W s1 Hc1) as Hbroker.
  destruct (client_init_configured W (snd (broker_init s1)))
    as [Hcr [Htr Hse]].
  destruct (broker_init_keeps_identity W s1) as [Eu [Ep [Et [Ef [_ Ei]]]]].
  unfold credentials_configured, transport_configured, session_configured
    in Hcr, Htr, Hse.
  rewrite Eu, Ep in Hcr. rewrite Et in Htr. rewrite Ei in Hse.
  cbv zeta in Hcases.
  change (mqtt_broker_url s1) with url in *.
  change (family (ctx s1))
    with (if u16 op =? MQTTC_CONNECT then AF_INET else AF_INET6) in *.
  change (size (username (ctx s1))) with (strlen usr) in *.
  change (size (password (ctx s1))) with (strlen pw) in *.
  change (sec_tag (ctx s1)) with tag in *.
  change (mqtt_clientid s1) with cid in *.
  change (mqtt_broker_port s1) with (u16 port) in *.
  change (trace s1) with (trace s) in *.
  destruct Hcases as [[_ [_ [_ Hl]]] | [E1 [[_ [_ [_ Hl]]] | [_ [_ [_ Hl]]]]]];
    rewrite Hl; (split; [reflexivity|]); intros cl Hin.
  - not_in_calls Hin.
  - assert (cl = client (snd (do_mqtt_connect s1))) as ->.
    { cbn in Hin. destruct Hin as [Hin|[Hin|[Hin|[Hin|[Hin|[]]]]]];
        try discriminate Hin. now injection Hin. }
    rewrite (Hclient E1).
    destruct Hcr as [_ [Hu [_ Hp]]]. destruct Htr as [Ht _].
    destruct Hse as [_ [_ [Hi _]]].
    split; [exact Hi|]. split; [exact Hu|]. split; [exact Hp|].
    split; [exact Ht|]. exact (Hbroker E1).
  - assert (cl = client (snd (do_mqtt_connect s1))) as ->.
    { cbn in Hin. destruct Hin as [Hin|[Hin|[Hin|[Hin|[Hin|[]]]]]];
        try discriminate Hin. now injection Hin. }
    rewrite (Hclient E1).
    destruct Hcr as [_ [Hu [_ Hp]]]. destruct Htr as [Ht _].
    destruct Hse as [_ [_ [Hi _]]].
    split; [exact Hi|]. split; [exact Hu|]. split; [exact Hp|].
    split; [exact Ht|]. exact (Hbroker E1).
Qed.

(** X12, witness: right after initialisation, the second connect
    command, with the security tag 42, asks the resolver for
    other.example in the IPv6 family; and a connect command with the
    security tag 4294967295, which is held as -1, the value of
    [INVALID_SEC_TAG], comes to the handshake without the secure
    transport. *)
Lemma connect_command_uses_its_parameters_witness :
  let W := Concrete.world Concrete.all_ok [] in
  let s := set_at_param_list Concrete.s_init second_connect in
  let s' := snd (handle_at_mqtt_connect AT_CMD_TYPE_SET_COMMAND s) in
  let t := set_at_param_list Concrete.s_init connect_tag_4294967295 in
  let t' := snd (handle_at_mqtt_connect AT_CMD_TYPE_SET_COMMAND t) in
  hd_error (new_calls s s') = Some (getaddrinfo (str "other.example") AF_INET6)
  /\ In (mqtt_connect (client t')) (new_calls t t')
  /\ transport_type (client t') = MQTT_TRANSPORT_NON_SECURE.
Proof.
  intros W s s' t t'. split.
  - strings_read s H2 H3 H4 H5.
    destruct (connect_command_uses_its_parameters W s 2 8883 42 _ _ _ _ _ _ _ _
                eq_refl eq_refl (or_intror eq_refl) H2 H3 H4 H5 eq_refl eq_refl)
      as [H _].
    subst s'. rewrite H. vm_compute. reflexivity.
  - assert (Hin : In (mqtt_connect (client t')) (new_calls t t')).
    { vm_compute. right. right. right. left. reflexivity. }
    split; [exact Hin|].
    strings_read t H2 H3 H4 H5.
    assert (Ht : command_tag (at_param_list t) = (0, -1))
      by (vm_compute; reflexivity).
    destruct (connect_command_uses_its_parameters W t 1 8883 (-1)
                _ _ _ _ _ _ _ _
                eq_refl eq_refl (or_introl eq_refl) H2 H3 H4 H5 eq_refl Ht)
      as [_ H].
    destruct (H (client t') Hin) as [_ [_ [_ [[Hs _] _]]]].
    destruct (transport_type (client t')); [reflexivity|].
    destruct (Hs eq_refl) as [_ Hne]. now elim Hne.
Defined.

(* ----------------------------------------------------------------- *)
(** ** Publishing *)

Lemma u8_small : forall z, 0 <= z <= 2 -> u8 z = z.
Proof. intros z H. unfold u8. apply Z.mod_small. lia. Qed.

Lemma publish_common_datamode :
  forall (W : World) (s : state) (qos retain : Z) (topic_sz msg_sz : nat),
    0 <= qos <= 2 -> 0 <= retain <= 1 ->
    strlen (pub_msg s) = 0%nat ->
    let p := publish_request s qos retain topic_sz
               (payload (message (pub_param s))) in
    publish_common qos retain topic_sz msg_sz s =
      (Next (ext_ret (trace s) enter_datamode),
       set_trace (set_pub_param s p) (trace s ++ [enter_datamode])).
Proof.
  intros W s qos retain topic_sz msg_sz Hq Hr Hm.
  assert (Hq' : (qos <=? MQTT_QOS_2_EXACTLY_ONCE) = true)
    by (apply Z.leb_le; unfold MQTT_QOS_2_EXACTLY_ONCE; lia).
  assert (Hr' : (retain <=? 1) = true) by (apply Z.leb_le; lia).
  assert (Eq : u8 qos = qos) by (apply u8_small; lia).
  assert (Er : u8 retain = retain) by (apply u8_small; lia).
  cbv zeta. unfold publish_common, do_mqtt_publish, publish_request.
  rewrite Hq', Hr'. run_body. rewrite Eq, Er, Hm. reflexivity.
Qed.

Lemma publish_common_direct :
  forall (W : World) (s : state) (qos retain : Z) (topic_sz msg_sz : nat),
    0 <= qos <= 2 -> 0 <= retain <= 1 ->
    strlen (pub_msg s) <> 0%nat ->
    let p := publish_request s qos retain topic_sz
               {| data := P_pub_msg; len := msg_sz |} in
    publish_common qos retain topic_sz msg_sz s =
      (Next (ext_ret (trace s) (mqtt_publish p)),
       set_trace (set_pub_param s p) (trace s ++ [mqtt_publish p])).
Proof.
  intros W s qos retain topic_sz msg_sz Hq Hr Hm.
  assert (Hq' : (qos <=? MQTT_QOS_2_EXACTLY_ONCE) = true)
    by (apply Z.leb_le; unfold MQTT_QOS_2_EXACTLY_ONCE; lia).
  assert (Hr' : (retain <=? 1) = true) by (apply Z.leb_le; lia).
  assert (Eq : u8 qos = qos) by (apply u8_small; lia).
  assert (Er : u8 retain = retain) by (apply u8_small; lia).
  cbv zeta. unfold publish_common, do_mqtt_publish, publish_request.
  rewrite Hq', Hr'. run_body. rewrite Eq, Er.
  apply Nat.eqb_neq in Hm. rewrite Hm. reflexivity.
Qed.

(** X13: a publish whose qos is at most 2 and whose retain flag is at
    most 1 makes exactly one call and returns its answer.  When the
    message buffer holds the empty string the call enters data mode, and
    the payload of the stored publish is left as it was; otherwise the
    call is the engine's publish, of the message buffer with the size
    read.  Either way the stored publish has the topic buffer, the qos
    and the retain flag of the command, no duplicate flag, and the
    message id that follows the previous one. *)
Theorem accepted_publish_makes_one_call :
  forall (W : World) (s : state) (qos retain : Z) (topic_sz msg_sz : nat),
    0 <= qos <= 2 -> 0 <= retain <= 1 ->
    let held := payload (message (pub_param s)) in
    let fresh := {| data := P_pub_msg; len := msg_sz |} in
    (strlen (pub_msg s) = 0%nat ->
       let p := publish_request s qos retain topic_sz held in
       publish_common qos retain topic_sz msg_sz s =
         (Next (ext_ret (trace s) enter_datamode),
          set_trace (set_pub_param s p) (trace s ++ [enter_datamode])))
    /\
    (strlen (pub_msg s) <> 0%nat ->
       let p := publish_request s qos retain topic_sz fresh in
       publish_common qos retain topic_sz msg_sz s =
         (Next (ext_ret (trace s) (mqtt_publish p)),
          set_trace (set_pub_param s p) (trace s ++ [mqtt_publish p]))).
Proof.
  intros W s qos retain topic_sz msg_sz Hq Hr held fresh. split; intro Hm.
  - now apply publish_common_datamode.
  - now apply publish_common_direct.
Qed.

(** X13, witness: a publish at qos 1 from the state of a session that is
    up, whose message buffer is empty. *)
Lemma accepted_publish_makes_one_call_witness :
  let W := Concrete.world Concrete.all_ok [] in
  let s := Concrete.s_connected in
  exists s',
    publish_common 1 0 3 0 s = (Next 0, s')
    /\ new_calls s s' = [enter_datamode].
Proof.
  intros W s.
  eexists. split.
  - apply (proj1 (accepted_publish_makes_one_call W s 1 0 3 0
                    ltac:(lia) ltac:(lia))).
    reflexivity.
  - reflexivity.
Defined.

Lemma strlen_store0 : forall b : bytes, strlen (store0 b NUL) = 0%nat.
Proof. now destruct b. Qed.

(** Reading the parameters of a publish command that has no message. *)
Lemma publish_params_no_message :
  forall (W : World) (count : Z) (s s1 : state) (qos retain : Z)
         (topic_sz msg_sz : nat),
    at_params_type_get (at_param_list s) 3 <> AT_PARAM_TYPE_STRING ->
    publish_params count s = (Next (qos, retain, topic_sz, msg_sz), s1) ->
    strlen (pub_msg s1) = 0%nat
    /\ trace s1 = trace s
    /\ pub_param s1 = pub_param s
    /\ (at_params_type_get (at_param_list s) 3 <> AT_PARAM_TYPE_NUM_INT ->
        qos = 0 /\ retain = 0).
Proof.
  intros W count s s1 qos retain topic_sz msg_sz Hty.
  unfold publish_params, string_get, type_get, unsigned_short_get.
  run_body.
  destruct (util_string_get (at_param_list s) 1 (pub_topic s) MQTT_MAX_TOPIC_LEN)
    as [[e topic] n]; cbn.
  destruct (nonzero e); cbn; [discriminate|].
  destruct (at_params_type_get (at_param_list s) 3) eqn:Et; cbn;
    try (now elim Hty);
    try (intro H; injection H as <- <- <- <- <-; cbn;
         rewrite strlen_store0; repeat split; reflexivity).
  destruct (at_params_unsigned_short_get (at_param_list s) 3) as [e3 v3]; cbn.
  destruct (nonzero e3); cbn; [discriminate|].
  destruct (4 <? count); cbn.
  - destruct (at_params_unsigned_short_get (at_param_list s) 4) as [e4 v4]; cbn.
    destruct (nonzero e4); cbn; [discriminate|].
    intro H; injection H as <- <- <- <- <-; cbn.
    rewrite strlen_store0. repeat split; try reflexivity; congruence.
  - intro H; injection H as <- <- <- <- <-; cbn.
    rewrite strlen_store0. repeat split; try reflexivity; congruence.
Qed.

(** X14: a publish command that gives no message, its fourth
    parameter being no string, publishes nothing: once its parameters are
    read, with a qos of at most 2 and a retain flag of at most 1, its one
    call enters data mode and the handler returns the answer of that
    call.  The publish it leaves for the data to come has the topic, the
    qos and the retain flag of the command and a new message id; the qos
    and the retain flag are 0 when the fourth parameter is no number
    either. *)
Theorem publish_without_message_enters_data_mode :
  forall (W : World) (s s1 : state) (qos retain : Z) (topic_sz msg_sz : nat),
    at_params_type_get (at_param_list s) 3 <> AT_PARAM_TYPE_STRING ->
    publish_params (u16 (at_params_valid_count_get (at_param_list s))) s =
      (Next (qos, retain, topic_sz, msg_sz), s1) ->
    0 <= qos <= 2 -> 0 <= retain <= 1 ->
    let r := fst (handle_at_mqtt_publish AT_CMD_TYPE_SET_COMMAND s) in
    let s' := snd (handle_at_mqtt_publish AT_CMD_TYPE_SET_COMMAND s) in
    r = ext_ret (trace s) enter_datamode
    /\ new_calls s s' = [enter_datamode]
    /\ pub_param s' =
         publish_request s qos retain topic_sz (payload (message (pub_param s)))
    /\ (at_params_type_get (at_param_list s) 3 <> AT_PARAM_TYPE_NUM_INT ->
        qos = 0 /\ retain = 0).
Proof.
  intros W s s1 qos retain topic_sz msg_sz Hty Hp Hq Hr r s'. subst r s'.
  destruct (publish_params_no_message W _ s s1 qos retain topic_sz msg_sz Hty Hp)
    as [Hm [Ht [Hpp Hd]]].
  rewrite handle_at_mqtt_publish_set, Hp. unfold fn.
  rewrite (publish_common_datamode W s1 qos retain topic_sz msg_sz Hq Hr Hm).
  cbn. rewrite Ht. split; [reflexivity|].
  split; [apply new_calls_app; reflexivity|].
  split; [|exact Hd].
  unfold publish_request. now rewrite Hpp.
Qed.

(** X14, witness: AT#XMQTTPUB="t/1" on a session that is up. *)
Lemma publish_without_message_enters_data_mode_witness :
  let W := Concrete.world Concrete.all_ok [] in
  let s := set_at_param_list Concrete.s_connected
             [AT_STRING (str "AT#XMQTTPUB"); AT_STRING (str "t/1")] in
  new_calls s (snd (handle_at_mqtt_publish AT_CMD_TYPE_SET_COMMAND s)) =
    [enter_datamode].
Proof.
  intros W s.
  assert (Hty : at_params_type_get (at_param_list s) 3 <> AT_PARAM_TYPE_STRING)
    by (vm_compute; discriminate).
  assert (Hp : publish_params (u16 (at_params_valid_count_get (at_param_list s))) s
               = (Next (0, 0, 3%nat, MQTT_MESSAGE_BUFFER_LEN),
                  snd (publish_params
                         (u16 (at_params_valid_count_get (at_param_list s))) s)))
    by (vm_compute; reflexivity).
  apply (publish_without_message_enters_data_mode W s _ 0 0 3%nat
           MQTT_MESSAGE_BUFFER_LEN Hty Hp); lia.
Defined.

(** The defaults of a publish command whose message is a string. *)
Lemma publish_params_defaults :
  forall (W : World) (count : Z) (s s1 : state) (qos retain : Z)
         (topic_sz msg_sz : nat),
    at_params_type_get (at_param_list s) 3 = AT_PARAM_TYPE_STRING ->
    publish_params count s = (Next (qos, retain, topic_sz, msg_sz), s1) ->
    (count <= 4 -> qos = 0) /\ (count <= 5 -> retain = 0).
Proof.
  intros W count s s1 qos retain topic_sz msg_sz Hty.
  unfold publish_params, string_get, type_get, unsigned_short_get.
  run_body.
  destruct (util_string_get (at_param_list s) 1 (pub_topic s) MQTT_MAX_TOPIC_LEN)
    as [[e topic] n]; cbn.
  destruct (nonzero e); cbn; [discriminate|].
  rewrite Hty. cbn.
  destruct (util_string_get _ 3 _ _) as [[e3 m] n3]; cbn.
  destruct (nonzero e3); cbn; [discriminate|].
  destruct (4 <? count) eqn:E4; destruct (5 <? count) eqn:E5; cbn;
    bool_hyps;
    repeat (match goal with
            | |- context [at_params_unsigned_short_get ?a ?b] =>
                destruct (at_params_unsigned_short_get a b) as [? ?]; cbn
            | |- context [nonzero ?z] => destruct (nonzero z); cbn
            end);
    try discriminate;
    intro H; injection H as <- <- <- <- <-; split; intro; try reflexivity; lia.
Qed.

(** X15: a publish command that carries a message which is not
    empty, once its parameters are read with a qos of at most 2 and a
    retain flag of at most 1, makes one call: it publishes the message
    buffer, with the size read, on the topic of the command under the
    next publish message id, and returns the engine's answer.  The
    message was given as a string; the qos is 0 unless the command has a
    fourth parameter, and the retain flag is 0 unless it has a fifth. *)
Theorem publish_command_with_message :
  forall (W : World) (s s1 : state) (qos retain : Z) (topic_sz msg_sz : nat),
    let count := u16 (at_params_valid_count_get (at_param_list s)) in
    publish_params count s = (Next (qos, retain, topic_sz, msg_sz), s1) ->
    strlen (pub_msg s1) <> 0%nat ->
    0 <= qos <= 2 -> 0 <= retain <= 1 ->
    let r := fst (handle_at_mqtt_publish AT_CMD_TYPE_SET_COMMAND s) in
    let s' := snd (handle_at_mqtt_publish AT_CMD_TYPE_SET_COMMAND s) in
    let p := publish_request s qos retain topic_sz
               {| data := P_pub_msg; len := msg_sz |} in
    r = ext_ret (trace s) (mqtt_publish p)
    /\ new_calls s s' = [mqtt_publish p]
    /\ pub_param s' = p
    /\ at_params_type_get (at_param_list s) 3 = AT_PARAM_TYPE_STRING
    /\ (count <= 4 -> qos = 0)
    /\ (count <= 5 -> retain = 0).
Proof.
  intros W s s1 qos retain topic_sz msg_sz count Hp Hm Hq Hr r s' p.
  subst r s' p count.
  assert (Hty : at_params_type_get (at_param_list s) 3 = AT_PARAM_TYPE_STRING).
  { destruct (at_params_type_get (at_param_list s) 3) eqn:E; try reflexivity;
      exfalso; apply Hm;
      refine (proj1 (publish_params_no_message W _ s s1 qos retain topic_sz
                       msg_sz _ Hp));
      rewrite E; discriminate. }
  destruct (publish_params_only_pub_buffers W
              (u16 (at_params_valid_count_get (at_param_list s))) s)
    as [t [m Hs1]].
  rewrite Hp in Hs1. cbn [snd] in Hs1.
  assert (Ht : trace s1 = trace s) by (rewrite Hs1; reflexivity).
  assert (Hpp : pub_param s1 = pub_param s) by (rewrite Hs1; reflexivity).
  rewrite handle_at_mqtt_publish_set, Hp. unfold fn.
  rewrite (publish_common_direct W s1 qos retain topic_sz msg_sz Hq Hr Hm).
  unfold publish_request. rewrite Hpp, Ht. cbn.
  split; [reflexivity|].
  split; [apply new_calls_app; reflexivity|].
  split; [reflexivity|].
  split; [exact Hty|].
  exact (publish_params_defaults W _ s s1 qos retain topic_sz msg_sz Hty Hp).
Qed.

(** X15, witness: AT#XMQTTPUB="t/1","hello",0,0 on a session that is
    up. *)
Lemma publish_command_with_message_witness :
  let W := Concrete.world Concrete.all_ok [] in
  let s := set_at_param_list Concrete.s_connected publish_hello in
  fst (handle_at_mqtt_publish AT_CMD_TYPE_SET_COMMAND s) = 0.
Proof.
  intros W s.
  pose (c := u16 (at_params_valid_count_get (at_param_list s))).
  assert (Hp : publish_params c s =
               (Next (0, 0, 3%nat, 5%nat), snd (publish_params c s)))
    by (vm_compute; reflexivity).
  assert (Hm : strlen (pub_msg (snd (publish_params c s))) <> 0%nat)
    by (vm_compute; discriminate).
  destruct (publish_command_with_message W s _ 0 0 3%nat 5%nat Hp Hm
              ltac:(lia) ltac:(lia)) as [H _].
  rewrite H. reflexivity.
Defined.

(* ----------------------------------------------------------------- *)
(** ** Data mode *)

Lemma datamode_send : forall (W : World) (s : state) (data : bytes) (n : nat),
  let p := pp_set_payload (pub_param s) (chunk_payload (data, n)) in
  let r := ext_ret (trace s) (mqtt_publish p) in
  mqtt_datamode_callback DATAMODE_SEND data n s =
    (r, set_trace (set_pub_param s p)
          (trace s ++ [mqtt_publish p; LOG_INF "datamode send: %d" [r]])).
Proof.
  intros W s data n. unfold mqtt_datamode_callback, do_mqtt_publish.
  rewrite Z.eqb_refl. run_body. now rewrite <- app_assoc.
Qed.

Lemma pp_set_payload_twice : forall p a b,
  pp_set_payload (pp_set_payload p a) b = pp_set_payload p b.
Proof. reflexivity. Qed.

Lemma publishes_app : forall a b, publishes (a ++ b) = publishes a ++ publishes b.
Proof. intros. unfold publishes. apply flat_map_app. Qed.

Lemma send_chunks_trace :
  forall (W : World) (chunks : list (bytes * nat)) (s : state),
  exists l,
    trace (send_chunks chunks s) = trace s ++ l
    /\ publishes l =
         map (fun c => pp_set_payload (pub_param s) (chunk_payload c)) chunks
    /\ (forall v, pp_set_payload (pub_param (send_chunks chunks s)) v =
                  pp_set_payload (pub_param s) v)
    /\ send_chunks chunks s =
         set_trace (set_pub_param s (pub_param (send_chunks chunks s)))
           (trace (send_chunks chunks s)).
Proof.
  intros W chunks. induction chunks as [|[data n] cs IH]; intro s.
  - exists []. cbn. rewrite app_nil_r.
    repeat split. now destruct s.
  - unfold send_chunks. cbn [fold_left fst snd].
    rewrite datamode_send. cbn [snd].
    set (p := pp_set_payload (pub_param s) (chunk_payload (data, n))).
    set (log := LOG_INF "datamode send: %d" [ext_ret (trace s) (mqtt_publish p)]).
    set (x := set_trace (set_pub_param s p) (trace s ++ [mqtt_publish p; log])).
    change (fold_left _ cs x) with (send_chunks cs x).
    destruct (IH x) as [l [Ht [Hp [Hv Hs]]]].
    exists ([mqtt_publish p; log] ++ l).
    split; [rewrite Ht; subst x; cbn; now rewrite <- app_assoc|].
    split; [rewrite publishes_app, Hp; reflexivity|].
    split; [intro v; rewrite Hv; reflexivity|].
    rewrite Hs at 1. reflexivity.
Qed.

(** X16: in data mode every chunk handed over is published as a
    message of its own, and the callback returns the answer of the
    engine.  The publishes differ in nothing but the payload: each has
    the topic, the qos, the retain flag and the message id the publish
    command left, so no message id is taken between chunks, and nothing
    but the stored publish and the trace changes.  The end of data mode
    makes no call to the engine and returns 0, and so does any other
    operation of the callback, which does nothing at all. *)
Theorem data_mode_chunks_reuse_the_publish :
  forall (W : World) (s : state),
    (forall data n,
       fst (mqtt_datamode_callback DATAMODE_SEND data n s) =
         ext_ret (trace s)
           (mqtt_publish (pp_set_payload (pub_param s) (chunk_payload (data, n)))))
    /\
    (forall chunks,
       let s' := send_chunks chunks s in
       publishes (new_calls s s') =
         map (fun c => pp_set_payload (pub_param s) (chunk_payload c)) chunks
       /\ message_id (pub_param s') = message_id (pub_param s)
       /\ msg_topic (message (pub_param s')) = msg_topic (message (pub_param s))
       /\ s' = set_trace (set_pub_param s (pub_param s')) (trace s'))
    /\
    (forall data n,
       DATAMODE_EXIT <> DATAMODE_SEND ->
       mqtt_datamode_callback DATAMODE_EXIT data n s =
         (0, set_trace s (trace s ++ [LOG_DBG "MQTT datamode exit" []])))
    /\
    (forall op data n,
       op <> DATAMODE_SEND -> op <> DATAMODE_EXIT ->
       mqtt_datamode_callback op data n s = (0, s)).
Proof.
  intros W s.
  split; [intros; now rewrite datamode_send|].
  split; [|split].
  - intros chunks s'. subst s'.
    destruct (send_chunks_trace W chunks s) as [l [Ht [Hp [Hv Hs]]]].
    rewrite (new_calls_app _ _ _ Ht).
    split; [exact Hp|].
    specialize (Hv {| data := NULL; len := 0 |}).
    split; [|split; [|exact Hs]].
    + now apply (f_equal message_id) in Hv.
    + now apply (f_equal (fun p => msg_topic (message p))) in Hv.
  - intros data n H. unfold mqtt_datamode_callback.
    apply Z.eqb_neq in H. rewrite H, Z.eqb_refl. reflexivity.
  - intros op data n H1 H2. unfold mqtt_datamode_callback.
    apply Z.eqb_neq in H1, H2. now rewrite H1, H2.
Qed.

(** X16, witness: the end of data mode on a session that is up. *)
Lemma data_mode_chunks_reuse_the_publish_witness :
  let W := Concrete.world Concrete.all_ok [] in
  let s := Concrete.s_connected in
  fst (mqtt_datamode_callback DATAMODE_EXIT [] 0 s) = 0
  /\ mqtt_datamode_callback 7 [] 0 s = (0, s).
Proof.
  intros W s.
  destruct (data_mode_chunks_reuse_the_publish W s) as [_ [_ [He Ho]]].
  split.
  - rewrite (He [] 0%nat); [reflexivity | vm_compute; discriminate].
  - apply Ho; vm_compute; discriminate.
Defined.

(* ----------------------------------------------------------------- *)
(** ** Who sets the connected flag *)

(** A set command of the connection either leaves the session context
    as it was, or stores an identity, or ends in a connect attempt made
    with the flag and the trace it found. *)
Lemma connect_command_shape : forall (W : World) (s : state),
  connected (ctx (snd (handle_at_mqtt_connect AT_CMD_TYPE_SET_COMMAND s)))
    = connected (ctx s)
  \/ exists s1 op,
       connected (ctx s1) = connected (ctx s)
       /\ trace s1 = trace s
       /\ at_params_unsigned_short_get (at_param_list s) 1 = (0, op)
       /\ (u16 op = MQTTC_CONNECT \/ u16 op = MQTTC_CONNECT6)
       /\ handle_at_mqtt_connect AT_CMD_TYPE_SET_COMMAND s = do_mqtt_connect s1.
Proof.
  intros W s.
  unfold handle_at_mqtt_connect, unsigned_short_get, unsigned_int_get,
    valid_count_get, string_get.
  run_body.
  destruct (at_params_unsigned_short_get (at_param_list s) 1) as [e op] eqn:Eop.
  cbn. destruct (nonzero e) eqn:Ee; cbn; [now left|].
  apply nonzero_false_inv in Ee. subst e.
  destruct ((u16 op =? MQTTC_CONNECT) || (u16 op =? MQTTC_CONNECT6)) eqn:Eb.
  - assert (Hop : u16 op = MQTTC_CONNECT \/ u16 op = MQTTC_CONNECT6).
    { apply orb_true_iff in Eb. destruct Eb as [E|E]; apply Z.eqb_eq in E; auto. }
    destruct_getters; try (now left);
      right;
      match goal with
      | |- context [do_mqtt_connect ?x] =>
          exists x, op; repeat split; try assumption;
          destruct (do_mqtt_connect x); reflexivity
      end.
  - destruct (u16 op =? MQTTC_DISCONNECT); cbn; [|now left].
    left.
    pose proof (do_mqtt_disconnect_same_ctx s) as H. unfold same_ctx in H.
    destruct (do_mqtt_disconnect s). cbn in *. now rewrite H.
Qed.

Lemma mqtt_evt_handler_never_sets :
  forall (W : World) (evt : mqtt_evt) (s : state),
    connected (ctx s) = false ->
    connected (ctx (mqtt_evt_handler evt s)) = false.
Proof.
  intros W evt s Hc.
  destruct (mqtt_evt_handler_outcome W evt s)
    as [r [s1 [a [c [Ho [E [Ht [Hh Hcc]]]]]]]].
  rewrite Hcc. inversion Ho; subst; try assumption; try reflexivity.
  now destruct (nonzero (result evt)).
Qed.

(** X17: of the operations of the module only a set command of the
    connection with operation 1 or 2 takes the module from not connected
    to connected, and only when it returns 0; it has then created exactly
    one driver thread.  No event, no other command, no data-mode callback
    and no turn of the driver ever sets the flag. *)
Theorem connected_flag_set_only_by_connect :
  forall (W : World) (o : operation) (s : state),
    connected (ctx s) = false ->
    connected (ctx (run o s)) = true ->
    exists params op,
      o = AT_XMQTTCON AT_CMD_TYPE_SET_COMMAND params
      /\ at_params_unsigned_short_get params 1 = (0, op)
      /\ (u16 op = MQTTC_CONNECT \/ u16 op = MQTTC_CONNECT6)
      /\ fst (handle_at_mqtt_connect AT_CMD_TYPE_SET_COMMAND
                (set_at_param_list s params)) = 0
      /\ threads_created (new_calls s (run o s)) = 1%nat.
Proof.
  intros W o s Hc Hs.
  assert (Hsame : forall A (f : state -> A * state) x,
            fn_preserves same_ctx f ->
            connected (ctx x) = false -> connected (ctx (snd (f x))) = true ->
            False).
  { intros A f x Hf Hx Hy. specialize (Hf x). unfold same_ctx in Hf.
    rewrite Hf in Hy. congruence. }
  destruct o as [c pl | c pl | c pl | c pl | op d n | evt | | ]; cbn [run] in *.
  - destruct c.
    + cbn in Hs. congruence.
    + destruct (connect_command_shape W (set_at_param_list s pl))
        as [H | [s1 [op [Hc1 [Ht1 [Hop [Hcon He]]]]]]].
      { rewrite H in Hs. cbn in Hs. congruence. }
      exists pl, op.
      split; [reflexivity|]. split; [exact Hop|]. split; [exact Hcon|].
      cbn in Hc1, Ht1. rewrite Hc in Hc1.
      rewrite He in *.
      assert (Hn : forall x, new_calls s x = new_calls s1 x)
        by (intro x; unfold new_calls; now rewrite Ht1).
      rewrite Hn.
      destruct (do_mqtt_connect_cases W s1 Hc1)
        as [[_ [_ [C _]]] | [_ [[_ [_ [C _]]] | [_ [R [_ Hl]]]]]];
        try congruence.
      split; [exact R|]. rewrite Hl. reflexivity.
    + rewrite read_command_reports in Hs. cbn in Hs. congruence.
    + unfold handle_at_mqtt_connect, fn in Hs.
      rewrite sprintf_then_send in Hs by (apply literal_no_nul; reflexivity).
      cbn in Hs. congruence.
  - elim (Hsame _ _ (set_at_param_list s pl)
            (handle_at_mqtt_publish_same_ctx c) Hc Hs).
  - elim (Hsame _ _ (set_at_param_list s pl)
            (handle_at_mqtt_subscribe_same_ctx c) Hc Hs).
  - elim (Hsame _ _ (set_at_param_list s pl)
            (handle_at_mqtt_unsubscribe_same_ctx c) Hc Hs).
  - elim (Hsame _ _ s (mqtt_datamode_callback_same_ctx op d n) Hc Hs).
  - rewrite (mqtt_evt_handler_never_sets W evt s Hc) in Hs. discriminate.
  - elim (Hsame _ _ s mqtt_thread_turn_same_ctx Hc Hs).
  - elim (Hsame _ _ s slm_at_mqtt_uninit_same_ctx Hc Hs).
Qed.

(** X17, witness: the connect command that brings up the session of
    [Concrete.s_connected]. *)
Lemma connected_flag_set_only_by_connect_witness :
  let W := Concrete.world Concrete.all_ok [] in
  let o := AT_XMQTTCON AT_CMD_TYPE_SET_COMMAND
             [AT_STRING (str "AT#XMQTTCON"); AT_NUM 1; AT_STRING (str "dev1");
              AT_STRING (str ""); AT_STRING (str "");
              AT_STRING (str "broker.example"); AT_NUM 1883] in
  threads_created (new_calls Concrete.s_init (run o Concrete.s_init)) = 1%nat.
Proof.
  intros W o.
  destruct (connected_flag_set_only_by_connect W o Concrete.s_init
              eq_refl eq_refl) as [params [op [_ [_ [_ [_ H]]]]]].
  exact H.
Defined.

(* ----------------------------------------------------------------- *)
(** ** The cycle of the message ids *)

Lemma next_message_id_closed : forall id,
  0 <= id <= 65534 -> next_message_id id = id mod 65534 + 1.
Proof.
  intros id H. unfold next_message_id, u16, UINT16_MAX.
  rewrite (Z.mod_small (id + 1)) by lia.
  destruct (Z.eqb_spec (id + 1) 65535) as [E|E].
  - assert (id = 65534) as -> by lia. reflexivity.
  - rewrite Z.mod_small by lia. reflexivity.
Qed.

Lemma iter_next_message_id_closed : forall (k : nat) (id : Z),
  1 <= id <= 65534 ->
  Nat.iter k next_message_id id = (id - 1 + Z.of_nat k) mod 65534 + 1.
Proof.
  intros k id H. induction k as [|k IH].
  - cbn. rewrite Z.add_0_r, Z.mod_small by lia. lia.
  - change (Nat.iter (S k) next_message_id id)
      with (next_message_id (Nat.iter k next_message_id id)).
    rewrite IH.
    pose proof (Z.mod_pos_bound (id - 1 + Z.of_nat k) 65534 ltac:(lia)) as Hb.
    rewrite next_message_id_closed by lia.
    f_equal.
    replace (id - 1 + Z.of_nat (S k)) with (id - 1 + Z.of_nat k + 1) by lia.
    rewrite <- (Z.add_mod_idemp_l (id - 1 + Z.of_nat k) 1) by lia.
    reflexivity.
Qed.

(** X18: the message ids run through 1, 2, ..., 65534 and start again
    at 1.  After [k] allocations from an id between 1 and 65534 the id is
    [(id - 1 + k) mod 65534 + 1]; it is back at the id it started from
    exactly when [k] is a multiple of 65534, so no id is handed out twice
    within 65534 consecutive allocations, and neither 0 nor 65535 is ever
    handed out. *)
Theorem message_ids_cycle :
  forall (k : nat) (id : Z),
    1 <= id <= 65534 ->
    let id' := Nat.iter k next_message_id id in
    id' = (id - 1 + Z.of_nat k) mod 65534 + 1
    /\ 1 <= id' <= 65534
    /\ (id' = id <-> Z.of_nat k mod 65534 = 0)
    /\ (forall j : nat,
          (j < k)%nat -> Z.of_nat k - Z.of_nat j < 65534 ->
          Nat.iter j next_message_id id <> id').
Proof.
  intros k id H id'. subst id'.
  split; [now apply iter_next_message_id_closed|].
  split.
  { rewrite iter_next_message_id_closed by assumption.
    pose proof (Z.mod_pos_bound (id - 1 + Z.of_nat k) 65534 ltac:(lia)). lia. }
  split.
  - rewrite iter_next_message_id_closed by assumption.
    split; intro E.
    + assert (E' : (id - 1 + Z.of_nat k) mod 65534 = id - 1) by lia.
      clear E. revert E'.
      Z.to_euclidean_division_equations. lia.
    + revert E. Z.to_euclidean_division_equations. lia.
  - intros j Hj Hd.
    rewrite !iter_next_message_id_closed by assumption.
    intro E.
    assert (E' : (id - 1 + Z.of_nat j) mod 65534
                 = (id - 1 + Z.of_nat k) mod 65534) by lia.
    clear E. revert E'.
    Z.to_euclidean_division_equations. lia.
Qed.

(** X18, witness: from id 65533, two allocations lead to 1. *)
Lemma message_ids_cycle_witness :
  Nat.iter 2 next_message_id 65533 = 1.
Proof.
  destruct (message_ids_cycle 2 65533 ltac:(lia)) as [H _].
  rewrite H. reflexivity.
Defined.

(* ----------------------------------------------------------------- *)
(** ** What the event handler leaves alone *)

#[local] Instance event_frame_frame : Frame event_frame.
Proof.
  split; unfold event_frame.
  - intro s. repeat split.
  - intros s1 s2 s3 H1 H2.
    repeat match goal with H : _ /\ _ |- _ => destruct H end.
    repeat split; congruence.
Qed.

#[local] Instance event_frame_blind : Blind event_frame.
Proof. split; intros; unfold event_frame; cbn; repeat split. Qed.

#[local] Instance same_payload_buf_frame : Frame same_payload_buf.
Proof.
  split; unfold same_payload_buf; [reflexivity|].
  intros s1 s2 s3 H1 H2. congruence.
Qed.

#[local] Instance same_payload_buf_blind : Blind same_payload_buf.
Proof. split; intros; reflexivity. Qed.

Lemma mqtt_evt_handler_frame : forall (W : World) (evt : mqtt_evt) (s : state),
  event_frame s (mqtt_evt_handler evt s).
Proof.
  intros W evt s. unfold mqtt_evt_handler.
  match goal with |- event_frame s (snd (fn ?b s)) =>
    assert (H : fn_preserves event_frame (fn b)); [|exact (H s)] end.
  unfold mqtt_evt_switch, handle_mqtt_publish_evt, publish_get_payload.
  frame; unfold event_frame; cbn; repeat split.
Qed.

Lemma mqtt_evt_handler_same_payload_buf :
  forall (W : World) (evt : mqtt_evt) (s : state),
    type evt <> MQTT_EVT_PUBLISH ->
    payload_buf (mqtt_evt_handler evt s) = payload_buf s.
Proof.
  intros W evt s Hty. unfold mqtt_evt_handler.
  match goal with |- payload_buf (snd (fn ?b s)) = _ =>
    assert (H : fn_preserves same_payload_buf (fn b)); [|exact (H s)] end.
  unfold mqtt_evt_switch.
  destruct (type evt); try (now elim Hty);
    frame; unfold same_payload_buf; cbn; reflexivity.
Qed.

Lemma mqtt_evt_handler_calls :
  forall (W : World) (evt : mqtt_evt) (s : state),
    forallb event_call (new_calls s (mqtt_evt_handler evt s)) = true.
Proof.
  intros W evt s.
  destruct (mqtt_evt_handler_outcome W evt s)
    as [r [s1 [a [c [Ho [E [Ht [Hh Hcc]]]]]]]].
  rewrite (new_calls_app _ _ _ Hh). rewrite forallb_app. cbn.
  rewrite andb_true_r.
  inversion Ho; subst; try reflexivity.
  - cbn. now destruct (nonzero _).
  - cbn. now destruct (nonzero _).
  - match goal with H : _ \/ _ |- _ =>
      destruct H as [-> | [f [x ->]]]; reflexivity end.
Qed.

(** X19: whatever the event, the handler writes no static but the
    connected flag, the receive buffer and the response buffer, and the
    receive buffer only for a PUBLISH event.  The calls it makes go to
    the logger, to the response channel, and to the engine for the
    payload of a publish or a step of the QoS 2 handshake: it never
    disconnects, aborts, joins or creates a thread, publishes or
    subscribes, so a session the broker has closed is not torn down by
    the handler. *)
Theorem event_handler_frame :
  forall (W : World) (evt : mqtt_evt) (s : state),
    let s' := mqtt_evt_handler evt s in
    event_frame s s'
    /\ (type evt <> MQTT_EVT_PUBLISH -> payload_buf s' = payload_buf s)
    /\ (forall c, In c (new_calls s s') -> event_call c = true)
    /\ ~ In mqtt_disconnect (new_calls s s')
    /\ ~ In mqtt_abort (new_calls s s')
    /\ threads_created (new_calls s s') = 0%nat.
Proof.
  intros W evt s s'. subst s'.
  pose proof (mqtt_evt_handler_calls W evt s) as Hc.
  rewrite forallb_forall in Hc.
  split; [apply mqtt_evt_handler_frame|].
  split; [apply mqtt_evt_handler_same_payload_buf|].
  split; [exact Hc|].
  split; [intro H; apply Hc in H; discriminate H|].
  split; [intro H; apply Hc in H; discriminate H|].
  unfold threads_created.
  induction (new_calls s (mqtt_evt_handler evt s)) as [|c l IH]; [reflexivity|].
  cbn. destruct c; try (apply IH; intros x Hx; apply Hc; now right).
  specialize (Hc k_thread_create (or_introl eq_refl)). discriminate Hc.
Qed.

(** X19, witness: a SUBACK event on a session that is up. *)
Lemma event_handler_frame_witness :
  let W := Concrete.world Concrete.all_ok [] in
  let s := Concrete.s_connected in
  payload_buf (mqtt_evt_handler (ack_evt MQTT_EVT_SUBACK 0 3) s) = payload_buf s.
Proof.
  intros W s.
  apply (event_handler_frame W (ack_evt MQTT_EVT_SUBACK 0 3) s). discriminate.
Defined.

(* ----------------------------------------------------------------- *)
(** ** The driver thread and the events it brings in *)

Lemma dispatch_frame :
  forall (W : World) (evts : list mqtt_evt) (s : state),
    event_frame s (dispatch evts s).
Proof.
  intros W evts. unfold dispatch.
  induction evts as [|evt evts IH]; intro s; cbn.
  - apply frame_refl.
  - eapply frame_trans; [apply mqtt_evt_handler_frame | apply IH].
Qed.

Lemma mqtt_input_with_events_frame :
  forall (W : World) (inbound : trace_t -> list mqtt_evt),
    preserves event_frame (mqtt_input_with_events inbound).
Proof.
  intros W inbound s. unfold mqtt_input_with_events. cbn.
  eapply frame_trans; [apply frame_trace | apply dispatch_frame].
Qed.

Lemma mqtt_thread_turn_with_events_frame :
  forall (W : World) (inbound : trace_t -> list mqtt_evt) (s : state),
    event_frame s (snd (mqtt_thread_turn_with_events inbound s)).
Proof.
  intros W inbound s. unfold mqtt_thread_turn_with_events.
  match goal with |- event_frame s (snd (let (r, s') := fn ?b s in _)) =>
    assert (H : fn_preserves event_frame (fn b));
      [|specialize (H s); destruct (fn b s); exact H] end.
  repeat first [ apply mqtt_input_with_events_frame | frame_step ];
    unfold event_frame; cbn; repeat split.
Qed.

Lemma mqtt_thread_turn_without_events :
  forall (W : World) (inbound : trace_t -> list mqtt_evt) (s : state),
    (forall t, inbound t = []) ->
    mqtt_thread_turn_with_events inbound s = mqtt_thread_turn s.
Proof.
  intros W inbound s Hin.
  unfold mqtt_thread_turn_with_events, mqtt_thread_turn,
    mqtt_input_with_events.
  run_body.
  destruct (connected (ctx s)); cbn; [|reflexivity].
  destruct (_ <? 0); cbn; [reflexivity|].
  destruct (_ =? POLLIN); cbn; [|reflexivity].
  rewrite Hin. reflexivity.
Qed.

Lemma mqtt_thread_fn_without_events :
  forall (W : World) (inbound : trace_t -> list mqtt_evt) (turns : nat)
         (s : state),
    (forall t, inbound t = []) ->
    mqtt_thread_fn_with_events inbound turns s = mqtt_thread_fn turns s.
Proof.
  intros W inbound turns s Hin. revert s.
  induction turns as [|n IH]; intro s; [reflexivity|].
  cbn [mqtt_thread_fn_with_events mqtt_thread_fn].
  rewrite (mqtt_thread_turn_without_events W inbound s Hin).
  destruct (mqtt_thread_turn s) as [[|] s1]; [reflexivity|apply IH].
Qed.

(** X2: what the driver thread writes.  With the engine handing the
    events it reads to the handler inside [mqtt_input], however long the
    thread runs and whatever the events, the thread leaves every static
    as it found it but the connected flag, the receive buffer and the
    response buffer, which the handler writes; and it never sets the
    flag: a thread started with the flag clear leaves it clear.  When no
    event comes in, the thread is the loop of [mqtt_thread_fn] taken by
    itself, and the state it leaves differs from the state it found by
    the calls it has made, and by nothing else. *)
Theorem driver_writes_only_through_the_handler :
  forall (W : World) (inbound : trace_t -> list mqtt_evt) (turns : nat)
         (s : state),
    let s' := snd (mqtt_thread_fn_with_events inbound turns s) in
    event_frame s s'
    /\ (connected (ctx s) = false -> connected (ctx s') = false)
    /\ ((forall t, inbound t = []) ->
        mqtt_thread_fn_with_events inbound turns s = mqtt_thread_fn turns s
        /\ s' = set_trace s (trace s')).
Proof.
  intros W inbound turns s s'. subst s'.
  split; [|split].
  - revert s. induction turns as [|n IH]; intro s.
    + apply frame_refl.
    + cbn [mqtt_thread_fn_with_events].
      pose proof (mqtt_thread_turn_with_events_frame W inbound s) as H.
      destruct (mqtt_thread_turn_with_events inbound s) as [[|] s1];
        cbn [snd] in *.
      * eapply frame_trans; [exact H | apply frame_trace].
      * eapply frame_trans; [exact H | apply IH].
  - intro Hc. destruct turns as [|n]; [exact Hc|].
    cbn [mqtt_thread_fn_with_events]. unfold mqtt_thread_turn_with_events.
    run_body. rewrite Hc. cbn. exact Hc.
  - intro Hin.
    rewrite (mqtt_thread_fn_without_events W inbound turns s Hin).
    split; [reflexivity|].
    apply (mqtt_thread_fn_only_trace W turns s).
Qed.

(** X2, witness: on the session of [Concrete.s_connected], with a
    DISCONNECT event coming in at every [mqtt_input], the thread has
    terminated after two turns and leaves the flag clear, and the
    subscribe message id as it was; started right after initialisation,
    it leaves the flag clear. *)
Lemma driver_writes_only_through_the_handler_witness :
  let W := Concrete.world Concrete.all_ok [] in
  let inbound := fun _ : trace_t => [disconnect_evt] in
  let r := mqtt_thread_fn_with_events inbound 2 Concrete.s_connected in
  fst r = true
  /\ connected (ctx (snd r)) = false
  /\ sub_message_id (snd r) = sub_message_id Concrete.s_connected
  /\ connected (ctx (snd (mqtt_thread_fn_with_events inbound 2 Concrete.s_init)))
       = false.
Proof.
  intros W inbound r.
  split; [vm_compute; reflexivity|].
  split; [vm_compute; reflexivity|].
  destruct (driver_writes_only_through_the_handler W inbound 2
              Concrete.s_connected) as [Hf _].
  destruct (driver_writes_only_through_the_handler W inbound 2
              Concrete.s_init) as [_ [Hc _]].
  split; [|exact (Hc eq_refl)].
  unfold event_frame in Hf. subst r. tauto.
Defined.

(* ----------------------------------------------------------------- *)
(** ** Taking a session down *)

(** X20: taking a session down, step by step.  When the engine has
    accepted the disconnect, the flag is still set: until the DISCONNECT
    event arrives, a connect attempt is refused with [-EISCONN] and
    changes nothing, and another disconnect is sent to the engine again.
    Once the handler has seen the DISCONNECT event the module is not
    connected, with the broker reference cleared: a disconnect is refused
    with [-ENOTCONN], the driver thread terminates at its next turn
    without a call to the socket layer or the engine, and a connect
    attempt is made again, starting with the resolver, for the URL and
    the address family of the session taken down. *)
Theorem session_teardown_sequence :
  forall (W : World) (s : state) (evt : mqtt_evt),
    connected (ctx s) = true ->
    ext_ret (trace s) mqtt_disconnect = 0 ->
    type evt = MQTT_EVT_DISCONNECT ->
    let s1 := snd (do_mqtt_disconnect s) in
    let s2 := mqtt_evt_handler evt s1 in
    do_mqtt_connect s1 = (- EISCONN, s1)
    /\ hd_error (new_calls s1 (snd (do_mqtt_disconnect s1))) = Some mqtt_disconnect
    /\ connected (ctx s2) = false
    /\ broker_ref (client s2) = NULL
    /\ do_mqtt_disconnect s2 = (- ENOTCONN, s2)
    /\ (forall turns,
          mqtt_thread_fn (S turns) s2 =
            (true,
             set_trace s2
               (trace s2 ++ [LOG_WRN "MQTT disconnected" [];
                             LOG_INF "MQTT thread terminated" []])))
    /\ hd_error (new_calls s2 (snd (do_mqtt_connect s2))) =
         Some (getaddrinfo (cstr (mqtt_broker_url s)) (family (ctx s))).
Proof.
  intros W s evt Hc He Hty s1 s2.
  assert (Hc1 : connected (ctx s1) = true).
  { subst s1. pose proof (do_mqtt_disconnect_same_ctx s) as H.
    unfold same_ctx in H. now rewrite H. }
  assert (Hb1 : broker_ref (client s1) = NULL
                /\ mqtt_broker_url s1 = mqtt_broker_url s
                /\ family (ctx s1) = family (ctx s)).
  { subst s1.
    rewrite (proj2 (do_mqtt_disconnect_outcome W s Hc) He). cbn.
    repeat split. }
  destruct Hb1 as [Hb1 [Hu1 Hf1]].
  assert (Hc2 : connected (ctx s2) = false)
    by (apply mqtt_evt_handler_disconnect; exact Hty).
  pose proof (mqtt_evt_handler_frame W evt s1) as Hfr.
  fold s2 in Hfr. unfold event_frame in Hfr.
  destruct Hfr as [Ef [_ [_ [_ [_ [_ [Eu [_ [_ [_ [_ [_ [_ [_ [Ecl _]]]]]]]]]]]]]]].
  split; [now apply do_mqtt_connect_connected|].
  split.
  { destruct (do_mqtt_disconnect_outcome W s1 Hc1) as [Hne Heq].
    destruct (Z.eq_dec (ext_ret (trace s1) mqtt_disconnect) 0) as [E|E].
    - rewrite (Heq E). unfold new_calls. cbn.
      destruct (nonzero _); rewrite <- app_assoc, skipn_exact; reflexivity.
    - rewrite (Hne E). unfold new_calls. cbn.
      rewrite <- app_assoc, skipn_exact. reflexivity. }
  split; [exact Hc2|].
  split; [now rewrite Ecl|].
  split; [now apply do_mqtt_disconnect_not_connected|].
  split.
  { intro turns. cbn [mqtt_thread_fn]. unfold mqtt_thread_turn.
    run_body. rewrite Hc2. cbn. rewrite <- app_assoc. reflexivity. }
  rewrite <- Hu1, <- Hf1, <- Eu, <- Ef.
  destruct (do_mqtt_connect_cases W s2 Hc2)
    as [[_ [_ [_ Hl]]] | [_ [[_ [_ [_ Hl]]] | [_ [_ [_ Hl]]]]]];
    rewrite Hl; reflexivity.
Qed.

(** X20, witness: the session of [Concrete.s_connected] taken down. *)
Lemma session_teardown_sequence_witness :
  let W := Concrete.world Concrete.all_ok [] in
  let s1 := snd (do_mqtt_disconnect Concrete.s_connected) in
  let s2 := mqtt_evt_handler disconnect_evt s1 in
  do_mqtt_connect s1 = (- EISCONN, s1)
  /\ do_mqtt_disconnect s2 = (- ENOTCONN, s2).
Proof.
  intros W s1 s2.
  destruct (session_teardown_sequence W Concrete.s_connected disconnect_evt
              eq_refl eq_refl eq_refl) as [H1 [_ [_ [_ [H2 _]]]]].
  split; [exact H1 | exact H2].
Defined.

(* ----------------------------------------------------------------- *)
(** ** Subscribing *)

(** X21: a subscribe command with two parameters that are read, the
    qos being at most 2, makes one call: it submits to the engine a list
    of one topic, the topic of the command held in a buffer of the
    handler's own, at the qos of the command and under the next subscribe
    message id, and returns the engine's answer.  An unsubscribe command
    with one parameter that is read does the same for the engine's
    unsubscribe, at qos 0.  Nothing but the subscribe message id and the
    trace changes.  A result of the parser above 0 counts as read. *)
Theorem subscribe_commands_submit_one_topic :
  forall (W : World) (s : state),
    let pl := at_param_list s in
    let id := next_message_id (sub_message_id s) in
    (forall e1 topic n e2 q,
       at_params_valid_count_get pl = 3 ->
       util_string_get pl 1 (uninit MQTT_MAX_TOPIC_LEN) MQTT_MAX_TOPIC_LEN
         = (e1, topic, n) ->
       at_params_unsigned_short_get pl 2 = (e2, q) ->
       0 <= e1 -> 0 <= e2 -> u16 q <= 2 ->
       let l := one_topic (P_bytes topic) n (u16 q) id in
       handle_at_mqtt_subscribe AT_CMD_TYPE_SET_COMMAND s =
         (ext_ret (trace s) (mqtt_subscribe l),
          set_trace (set_sub_message_id s id) (trace s ++ [mqtt_subscribe l])))
    /\
    (forall e topic n,
       at_params_valid_count_get pl = 2 ->
       util_string_get pl 1 (uninit MQTT_MAX_TOPIC_LEN) MQTT_MAX_TOPIC_LEN
         = (e, topic, n) ->
       0 <= e ->
       let l := one_topic (P_bytes topic) n 0 id in
       handle_at_mqtt_unsubscribe AT_CMD_TYPE_SET_COMMAND s =
         (ext_ret (trace s) (mqtt_unsubscribe l),
          set_trace (set_sub_message_id s id) (trace s ++ [mqtt_unsubscribe l]))).
Proof.
  intros W s pl id. subst pl id. split.
  - intros e1 topic n e2 q Hn Ht Hq H1 H2 Hqos l. subst l.
    unfold handle_at_mqtt_subscribe, valid_count_get, string_get_local,
      unsigned_short_get, do_mqtt_subscribe, one_topic.
    run_body. rewrite Hn. cbn. cbn in Ht. rewrite Ht. cbn.
    apply Z.ltb_ge in H1. rewrite H1. cbn. rewrite Hq. cbn.
    apply Z.ltb_ge in H2. rewrite H2. cbn.
    apply Z.leb_le in Hqos. unfold MQTT_QOS_2_EXACTLY_ONCE. rewrite Hqos.
    reflexivity.
  - intros e topic n Hn Ht H1 l. subst l.
    unfold handle_at_mqtt_unsubscribe, valid_count_get, string_get_local,
      do_mqtt_subscribe, one_topic.
    run_body. rewrite Hn. cbn. cbn in Ht. rewrite Ht. cbn.
    apply Z.ltb_ge in H1. rewrite H1. reflexivity.
Qed.

(** X21, witness: AT#XMQTTSUB="t/1",1 on a session that is up. *)
Lemma subscribe_commands_submit_one_topic_witness :
  let W := Concrete.world Concrete.all_ok [] in
  let s := set_at_param_list Concrete.s_connected subscribe_t1 in
  fst (handle_at_mqtt_subscribe AT_CMD_TYPE_SET_COMMAND s) = 0.
Proof.
  intros W s.
  rewrite (proj1 (subscribe_commands_submit_one_topic W s)
             0
             (snd (fst (util_string_get (at_param_list s) 1
                          (uninit MQTT_MAX_TOPIC_LEN) MQTT_MAX_TOPIC_LEN)))
             (snd (util_string_get (at_param_list s) 1
                     (uninit MQTT_MAX_TOPIC_LEN) MQTT_MAX_TOPIC_LEN))
             0 1);
    try reflexivity; vm_compute; discriminate.
Defined.
